(** * Deployment webhook server (server.js): a shallow embedding

    The development follows [src/server.js]: the Node.js runtime services the
    server calls ([crypto], [Buffer], [JSON], [String.prototype.replace]) are
    modelled first, then the server's own functions ([acquireLock],
    [releaseLock], [execPromise], [verifySignature], [deployProject] and the
    [POST /deploy/:projectName] handler), then two interpreters of the
    handler programs: a sequential one driven by an environment oracle and an
    event-loop one in which several requests interleave at their pending
    [await]s.  The theorems come last. *)

From Stdlib Require Import ZArith List String Ascii Bool Lia.
From Stdlib Require Import DecimalString.
Import ListNotations.
Local Open Scope string_scope.
Local Open Scope list_scope.
Local Open Scope Z_scope.

(** String concatenation, JavaScript's [+] on strings. *)
Infix "+++" := String.append (at level 60, right associativity).

(* ===================================================================== *)
(** * Part I.  The Node.js runtime, as far as the server uses it          *)
(* ===================================================================== *)

(** ** Strings and byte buffers

    A JavaScript string is modelled by a Rocq [string] whose characters are
    code units in the Latin-1 range (0..255).  Node decodes the value of an
    HTTP header as Latin-1, so every header the handler can see is such a
    string.  A [Buffer] is a list of bytes, each a [Z] in 0..255. *)

Definition Buffer := list Z.

Definition charCode (c : ascii) : Z := Z.of_N (N_of_ascii c).

(** UTF-8 encoding of one code unit below 256: one byte under 128, two
    bytes otherwise. *)
Definition utf8_unit (c : ascii) : Buffer :=
  let n := charCode c in
  if n <? 128 then [n] else [192 + n / 64; 128 + n mod 64].

(** [Buffer.from(s)] for a string [s] (default encoding 'utf8'). *)
Fixpoint Buffer_from (s : string) : Buffer :=
  match s with
  | EmptyString => []
  | String c s' => utf8_unit c ++ Buffer_from s'
  end.

Fixpoint Buffer_eqb (a b : Buffer) : bool :=
  match a, b with
  | [], [] => true
  | x :: a', y :: b' => (x =? y) && Buffer_eqb a' b'
  | _, _ => false
  end.

(** ** SHA-256 and HMAC (FIPS 180-4, RFC 2104), on 32-bit words held in [Z] *)

Module SHA256.

Definition w32 (x : Z) : Z := x mod 4294967296.
Definition add32 (x y : Z) : Z := w32 (x + y).
Definition rotr (n x : Z) : Z :=
  Z.lor (Z.shiftr x n) (w32 (Z.shiftl x (32 - n))).
Definition not32 (x : Z) : Z := 4294967295 - x.

Definition Ch (x y z : Z) : Z := Z.lxor (Z.land x y) (Z.land (not32 x) z).
Definition Maj (x y z : Z) : Z :=
  Z.lxor (Z.lxor (Z.land x y) (Z.land x z)) (Z.land y z).
Definition Sigma0 (x : Z) : Z :=
  Z.lxor (Z.lxor (rotr 2 x) (rotr 13 x)) (rotr 22 x).
Definition Sigma1 (x : Z) : Z :=
  Z.lxor (Z.lxor (rotr 6 x) (rotr 11 x)) (rotr 25 x).
Definition sigma0 (x : Z) : Z :=
  Z.lxor (Z.lxor (rotr 7 x) (rotr 18 x)) (Z.shiftr x 3).
Definition sigma1 (x : Z) : Z :=
  Z.lxor (Z.lxor (rotr 17 x) (rotr 19 x)) (Z.shiftr x 10).

(** The round constants: the first 32 bits of the fractional parts of the
    cube roots of the first 64 primes. *)
Definition K : list Z :=
  [ 1116352408; 1899447441; 3049323471; 3921009573; 961987163; 1508970993;
    2453635748; 2870763221; 3624381080; 310598401; 607225278; 1426881987;
    1925078388; 2162078206; 2614888103; 3248222580; 3835390401; 4022224774;
    264347078; 604807628; 770255983; 1249150122; 1555081692; 1996064986;
    2554220882; 2821834349; 2952996808; 3210313671; 3336571891; 3584528711;
    113926993; 338241895; 666307205; 773529912; 1294757372; 1396182291;
    1695183700; 1986661051; 2177026350; 2456956037; 2730485921; 2820302411;
    3259730800; 3345764771; 3516065817; 3600352804; 4094571909; 275423344;
    430227734; 506948616; 659060556; 883997877; 958139571; 1322822218;
    1537002063; 1747873779; 1955562222; 2024104815; 2227730452; 2361852424;
    2428436474; 2756734187; 3204031479; 3329325298 ].

(** The eight working variables / the chaining value. *)
Record regs := Regs { ra : Z; rb : Z; rc : Z; rd : Z;
                      re : Z; rf : Z; rg : Z; rh : Z }.

(** The initial chaining value: the first 32 bits of the fractional parts of
    the square roots of the first 8 primes. *)
Definition H0 : regs :=
  Regs 1779033703 3144134277 1013904242 2773480762
       1359893119 2600822924 528734635 1541459225.

Definition round (r : regs) (kw : Z * Z) : regs :=
  let '(k, w) := kw in
  let t1 := w32 (rh r + Sigma1 (re r) + Ch (re r) (rf r) (rg r) + k + w) in
  let t2 := add32 (Sigma0 (ra r)) (Maj (ra r) (rb r) (rc r)) in
  Regs (add32 t1 t2) (ra r) (rb r) (rc r) (add32 (rd r) t1) (re r) (rf r) (rg r).

(** Big-endian 32-bit words of a block of bytes. *)
Fixpoint words (bs : list Z) : list Z :=
  match bs with
  | b0 :: b1 :: b2 :: b3 :: rest =>
      (((b0 * 256 + b1) * 256 + b2) * 256 + b3) :: words rest
  | _ => []
  end.

(** Message schedule: [n] more words appended to the reversed list [rev_w]
    (most recent word first). *)
Fixpoint schedule (n : nat) (rev_w : list Z) : list Z :=
  match n with
  | O => rev rev_w
  | S n' =>
      let w := w32 (sigma1 (nth 1 rev_w 0) + nth 6 rev_w 0
                    + sigma0 (nth 14 rev_w 0) + nth 15 rev_w 0) in
      schedule n' (w :: rev_w)
  end.

Definition compress (h : regs) (block : list Z) : regs :=
  let w := schedule 48 (rev (words block)) in
  let r := fold_left round (combine K w) h in
  Regs (add32 (ra h) (ra r)) (add32 (rb h) (rb r))
       (add32 (rc h) (rc r)) (add32 (rd h) (rd r))
       (add32 (re h) (re r)) (add32 (rf h) (rf r))
       (add32 (rg h) (rg r)) (add32 (rh h) (rh r)).

Definition be_bytes (n : nat) (x : Z) : list Z :=
  map (fun i => (x / 256 ^ Z.of_nat i) mod 256) (rev (seq 0 n)).

Definition pad (msg : list Z) : list Z :=
  let len := Z.of_nat (List.length msg) in
  let zeros := Z.to_nat ((55 - len) mod 64) in
  msg ++ [128] ++ repeat 0 zeros ++ be_bytes 8 (8 * len).

(** One 64-byte block per unit of fuel. *)
Fixpoint blocks (fuel : nat) (h : regs) (bs : list Z) : regs :=
  match fuel with
  | O => h
  | S f => blocks f (compress h (firstn 64 bs)) (skipn 64 bs)
  end.

Definition digest (msg : list Z) : list Z :=
  let p := pad msg in
  let h := blocks (List.length p / 64) H0 p in
  be_bytes 4 (ra h) ++ be_bytes 4 (rb h) ++ be_bytes 4 (rc h)
    ++ be_bytes 4 (rd h) ++ be_bytes 4 (re h) ++ be_bytes 4 (rf h)
    ++ be_bytes 4 (rg h) ++ be_bytes 4 (rh h).

Definition hmac (key msg : list Z) : list Z :=
  let k0 := if (64 <? Z.of_nat (List.length key)) then digest key else key in
  let k := k0 ++ repeat 0 (64 - List.length k0) in
  let ipad := map (Z.lxor 54) k in
  let opad := map (Z.lxor 92) k in
  digest (opad ++ digest (ipad ++ msg)).

End SHA256.

Definition hex_digit (n : Z) : ascii :=
  if n <? 10 then ascii_of_N (Z.to_N (48 + n)) else ascii_of_N (Z.to_N (87 + n)).

(** [buf.toString('hex')] / [digest('hex')]: two lower-case digits per byte. *)
Fixpoint hex (bs : list Z) : string :=
  match bs with
  | [] => EmptyString
  | b :: bs' => String (hex_digit (b / 16 mod 16)) (String (hex_digit (b mod 16)) (hex bs'))
  end.

(** ** JavaScript values

    Numbers are restricted to integers (held in [Z]); an object is the list
    of its own properties in property order.  [VNum n] stands for the
    double [n], which is exact up to 2^53 in magnitude: [JSON_parse] yields
    no other number, and those are the numbers [JSON.stringify] prints in
    plain decimal, as [serialize] does. *)

#[local] Set Warnings "-register-all".

Inductive value : Type :=
| VUndefined
| VNull
| VBool (b : bool)
| VNum (n : Z)
| VStr (s : string)
| VArr (elems : list value)
| VObj (fields : list (string * value)).

(** Truthiness, as used by [!x], [x ? a : b], [x && y] and [x || y]. *)
Definition truthy (v : value) : bool :=
  match v with
  | VUndefined | VNull => false
  | VBool b => b
  | VNum n => negb (n =? 0)
  | VStr s => negb (String.eqb s "")
  | VArr _ | VObj _ => true
  end.

(** Errors carry the constructor name and the message. *)
Record error := MkError { err_name : string; err_message : string }.

Definition Error (msg : string) : error := MkError "Error" msg.
Definition TypeError (msg : string) : error := MkError "TypeError" msg.
Definition RangeError (msg : string) : error := MkError "RangeError" msg.
Definition SyntaxError (msg : string) : error := MkError "SyntaxError" msg.

(** Outcome of evaluating an expression or a call: a value or a throw. *)
Inductive completion (A : Type) : Type :=
| Normal (a : A)
| Thrown (e : error).
Arguments Normal {A} a.
Arguments Thrown {A} e.

Fixpoint lookup {A : Type} (k : string) (l : list (string * A)) : option A :=
  match l with
  | [] => None
  | (k', a) :: l' => if String.eqb k k' then Some a else lookup k l'
  end.

(** Property read [v.k] for the keys the server reads from parsed JSON
    ([ref], [scripts], [build]); none of them is found on a built-in
    prototype, so only own properties of objects matter.  Reading a property
    of [undefined] or [null] throws. *)
Definition get_prop (v : value) (k : string) : completion value :=
  match v with
  | VUndefined => Thrown (TypeError ("Cannot read properties of undefined (reading '" +++ k +++ "')"))
  | VNull => Thrown (TypeError ("Cannot read properties of null (reading '" +++ k +++ "')"))
  | VObj fields => Normal (match lookup k fields with Some x => x | None => VUndefined end)
  | _ => Normal VUndefined
  end.

(** ** [String.prototype.replace] with a string pattern

    [s.replace(pat, '')] removes the first occurrence of [pat] in [s],
    wherever it is, and nothing else. *)

Fixpoint drop (n : nat) (s : string) : string :=
  match n, s with
  | O, _ => s
  | S n', String _ s' => drop n' s'
  | S _, EmptyString => EmptyString
  end.

Fixpoint replace_first_with_empty (pat s : string) : string :=
  if String.prefix pat s then drop (String.length pat) s
  else match s with
       | EmptyString => EmptyString
       | String c s' => String c (replace_first_with_empty pat s')
       end.

(** ** Decimal rendering of integers, [String(n)] / template literals *)

Definition show_Z (n : Z) : string := NilZero.string_of_int (Z.to_int n).

(** ** JSON

    [dq] turns apostrophes into double quotes; it is only used to write JSON
    texts as literals. *)

Definition dquote : ascii := ascii_of_N 34.
Definition backslash : ascii := ascii_of_N 92.

Fixpoint dq (s : string) : string :=
  match s with
  | EmptyString => EmptyString
  | String c s' => String (if Ascii.eqb c "'" then dquote else c) (dq s')
  end.

Fixpoint join (sep : string) (l : list string) : string :=
  match l with
  | [] => EmptyString
  | [x] => x
  | x :: l' => x +++ sep +++ join sep l'
  end.

(** QuoteJSONString: escapes for the quote, the backslash and the control
    characters. *)
Definition quote_char (c : ascii) : string :=
  let n := charCode c in
  if Ascii.eqb c dquote then String backslash (String dquote EmptyString)
  else if Ascii.eqb c backslash then String backslash (String backslash EmptyString)
  else if n =? 8 then String backslash "b"
  else if n =? 9 then String backslash "t"
  else if n =? 10 then String backslash "n"
  else if n =? 12 then String backslash "f"
  else if n =? 13 then String backslash "r"
  else if n <? 32 then
    String backslash ("u00" +++ String (hex_digit (n / 16)) (String (hex_digit (n mod 16)) EmptyString))
  else String c EmptyString.

Fixpoint quote_chars (s : string) : string :=
  match s with
  | EmptyString => EmptyString
  | String c s' => quote_char c +++ quote_chars s'
  end.

Definition JSON_quote (s : string) : string :=
  String dquote (quote_chars s +++ String dquote EmptyString).

Fixpoint somes {A : Type} (l : list (option A)) : list A :=
  match l with
  | [] => []
  | Some a :: l' => a :: somes l'
  | None :: l' => somes l'
  end.

(** SerializeJSONProperty: [None] stands for the result [undefined]. *)
Fixpoint serialize (v : value) : option string :=
  match v with
  | VUndefined => None
  | VNull => Some "null"
  | VBool true => Some "true"
  | VBool false => Some "false"
  | VNum n => Some (show_Z n)
  | VStr s => Some (JSON_quote s)
  | VArr elems =>
      Some ("[" +++ join ","
              (map (fun x => match serialize x with Some t => t | None => "null" end) elems)
            +++ "]")
  | VObj fields =>
      Some ("{" +++ join ","
              (somes (map (fun kx => match serialize (snd kx) with
                                     | Some t => Some (JSON_quote (fst kx) +++ ":" +++ t)
                                     | None => None
                                     end) fields))
            +++ "}")
  end.

(** [JSON.stringify(v)]: a string, or [undefined]. *)
Definition JSON_stringify (v : value) : value :=
  match serialize v with
  | Some t => VStr t
  | None => VUndefined
  end.

(** *** [JSON.parse], on a fragment of JSON

    The fragment: ASCII texts; strings with the short escapes and [\u00XX];
    integer literals of magnitude at most 2^53; arrays, objects and the
    three literals.  On the fragment the result is the value [JSON.parse]
    returns, with own properties in property order (array-index keys first,
    ascending, then the others in order of first definition; a repeated key
    keeps its place and takes the last value).  [None] is returned for a
    text that is not JSON and for a text outside the fragment. *)

Definition is_ws (c : ascii) : bool :=
  let n := charCode c in (n =? 32) || (n =? 9) || (n =? 10) || (n =? 13).

Fixpoint skip_ws (s : string) : string :=
  match s with
  | String c s' => if is_ws c then skip_ws s' else s
  | EmptyString => EmptyString
  end.

Definition digit_val (c : ascii) : option Z :=
  let n := charCode c in
  if (48 <=? n) && (n <=? 57) then Some (n - 48) else None.

Definition hex_val (c : ascii) : option Z :=
  let n := charCode c in
  if (48 <=? n) && (n <=? 57) then Some (n - 48)
  else if (97 <=? n) && (n <=? 102) then Some (n - 87)
  else if (65 <=? n) && (n <=? 70) then Some (n - 55)
  else None.

Definition char_of_code (n : Z) : ascii := ascii_of_N (Z.to_N n).

Definition unescape (c : ascii) : option ascii :=
  if Ascii.eqb c dquote then Some dquote
  else if Ascii.eqb c backslash then Some backslash
  else if Ascii.eqb c "/" then Some "/"%char
  else if Ascii.eqb c "b" then Some (char_of_code 8)
  else if Ascii.eqb c "f" then Some (char_of_code 12)
  else if Ascii.eqb c "n" then Some (char_of_code 10)
  else if Ascii.eqb c "r" then Some (char_of_code 13)
  else if Ascii.eqb c "t" then Some (char_of_code 9)
  else None.

Definition hex4 (a b c d : ascii) : option Z :=
  match hex_val a, hex_val b, hex_val c, hex_val d with
  | Some x, Some y, Some z, Some w => Some (((x * 16 + y) * 16 + z) * 16 + w)
  | _, _, _, _ => None
  end.

Definition cons_char (c : ascii) (r : option (string * string)) : option (string * string) :=
  match r with
  | Some (str, rest) => Some (String c str, rest)
  | None => None
  end.

(** The characters of a string literal after its opening quote, and the
    text after its closing quote. *)
Fixpoint parse_chars (s : string) : option (string * string) :=
  match s with
  | EmptyString => None
  | String c r =>
      if Ascii.eqb c dquote then Some (EmptyString, r)
      else if Ascii.eqb c backslash then
        match r with
        | EmptyString => None
        | String e r1 =>
            if Ascii.eqb e "u" then
              match r1 with
              | String h1 (String h2 (String h3 (String h4 r2))) =>
                  match hex4 h1 h2 h3 h4 with
                  | Some n => if n <? 256 then cons_char (char_of_code n) (parse_chars r2) else None
                  | None => None
                  end
              | _ => None
              end
            else match unescape e with
                 | Some ch => cons_char ch (parse_chars r1)
                 | None => None
                 end
        end
      else if (charCode c <? 32) || (127 <? charCode c) then None
      else cons_char c (parse_chars r)
  end.

Fixpoint parse_digits (acc : Z) (s : string) : Z * string :=
  match s with
  | EmptyString => (acc, s)
  | String c r =>
      match digit_val c with
      | Some d => parse_digits (acc * 10 + d) r
      | None => (acc, s)
      end
  end.

Definition starts_fraction (s : string) : bool :=
  match s with
  | EmptyString => false
  | String c _ =>
      Ascii.eqb c "." || Ascii.eqb c "e" || Ascii.eqb c "E"
      || match digit_val c with Some _ => true | None => false end
  end.

Definition parse_number (s : string) : option (value * string) :=
  let '(neg, s1) :=
    match s with
    | String c r => if Ascii.eqb c "-" then (true, r) else (false, s)
    | EmptyString => (false, s)
    end in
  match s1 with
  | EmptyString => None
  | String c r =>
      match digit_val c with
      | None => None
      | Some d =>
          let '(n, rest) := if d =? 0 then (0, r) else parse_digits d r in
          if starts_fraction rest || (9007199254740992 <? n) then None
          else Some (VNum (if neg then - n else n), rest)
      end
  end.

(** Array-index keys: canonical decimal strings below 2^32 - 1. *)
Definition array_index (k : string) : option Z :=
  match k with
  | EmptyString => None
  | String _ _ =>
      let '(n, rest) := parse_digits 0 k in
      if String.eqb rest "" && String.eqb (show_Z n) k && (n <? 4294967295)
      then Some n else None
  end.

Fixpoint has_key {A : Type} (k : string) (l : list (string * A)) : bool :=
  match l with
  | [] => false
  | (k', _) :: l' => String.eqb k k' || has_key k l'
  end.

Fixpoint update_key {A : Type} (k : string) (a : A) (l : list (string * A)) : list (string * A) :=
  match l with
  | [] => []
  | (k', a') :: l' => if String.eqb k k' then (k', a) :: l' else (k', a') :: update_key k a l'
  end.

Fixpoint insert_index {A : Type} (i : Z) (k : string) (a : A) (l : list (string * A)) : list (string * A) :=
  match l with
  | [] => [(k, a)]
  | (k', a') :: l' =>
      match array_index k' with
      | Some j => if j <? i then (k', a') :: insert_index i k a l' else (k, a) :: l
      | None => (k, a) :: l
      end
  end.

(** CreateDataProperty on an ordinary object. *)
Definition define_property {A : Type} (k : string) (a : A) (l : list (string * A)) : list (string * A) :=
  if has_key k l then update_key k a l
  else match array_index k with
       | Some i => insert_index i k a l
       | None => l ++ [(k, a)]
       end.

Fixpoint parse_value (fuel : nat) (s : string) : option (value * string) :=
  match fuel with
  | O => None
  | S f =>
      match skip_ws s with
      | EmptyString => None
      | String c r as s0 =>
          if Ascii.eqb c "{" then
            match skip_ws r with
            | EmptyString => None
            | String c' r' as r0 =>
                if Ascii.eqb c' "}" then Some (VObj [], r') else parse_members f r0 []
            end
          else if Ascii.eqb c "[" then
            match skip_ws r with
            | EmptyString => None
            | String c' r' as r0 =>
                if Ascii.eqb c' "]" then Some (VArr [], r') else parse_elements f r0 []
            end
          else if Ascii.eqb c dquote then
            match parse_chars r with
            | Some (str, r') => Some (VStr str, r')
            | None => None
            end
          else if String.prefix "true" s0 then Some (VBool true, drop 4 s0)
          else if String.prefix "false" s0 then Some (VBool false, drop 5 s0)
          else if String.prefix "null" s0 then Some (VNull, drop 4 s0)
          else parse_number s0
      end
  end

with parse_elements (fuel : nat) (s : string) (acc : list value) : option (value * string) :=
  match fuel with
  | O => None
  | S f =>
      match parse_value f s with
      | None => None
      | Some (v, r) =>
          match skip_ws r with
          | EmptyString => None
          | String c r' =>
              if Ascii.eqb c "," then parse_elements f r' (v :: acc)
              else if Ascii.eqb c "]" then Some (VArr (rev (v :: acc)), r')
              else None
          end
      end
  end

with parse_members (fuel : nat) (s : string) (acc : list (string * value)) : option (value * string) :=
  match fuel with
  | O => None
  | S f =>
      match skip_ws s with
      | EmptyString => None
      | String q r =>
          if negb (Ascii.eqb q dquote) then None
          else
            match parse_chars r with
            | None => None
            | Some (k, r1) =>
                match skip_ws r1 with
                | EmptyString => None
                | String c r2 =>
                    if negb (Ascii.eqb c ":") then None
                    else
                      match parse_value f r2 with
                      | None => None
                      | Some (v, r3) =>
                          match skip_ws r3 with
                          | EmptyString => None
                          | String c' r4 =>
                              if Ascii.eqb c' "," then parse_members f r4 (define_property k v acc)
                              else if Ascii.eqb c' "}" then Some (VObj (define_property k v acc), r4)
                              else None
                          end
                      end
                end
            end
      end
  end.

Definition JSON_parse (s : string) : option value :=
  match parse_value (2 * String.length s + 2) s with
  | Some (v, rest) => if String.eqb (skip_ws rest) "" then Some v else None
  | None => None
  end.

(** [ToString], for template literals. *)
Fixpoint to_string (v : value) : string :=
  match v with
  | VUndefined => "undefined"
  | VNull => "null"
  | VBool true => "true"
  | VBool false => "false"
  | VNum n => show_Z n
  | VStr s => s
  | VArr elems =>
      join "," (map (fun x => match x with
                              | VUndefined | VNull => EmptyString
                              | _ => to_string x
                              end) elems)
  | VObj _ => "[object Object]"
  end.

(** [a === b] on primitive values.  Two arrays or objects are never
    compared by the server; the model answers [false] for them. *)
Definition strict_equal (a b : value) : bool :=
  match a, b with
  | VUndefined, VUndefined => true
  | VNull, VNull => true
  | VBool x, VBool y => Bool.eqb x y
  | VNum x, VNum y => x =? y
  | VStr x, VStr y => String.eqb x y
  | _, _ => false
  end.

Definition is_string (v : value) : bool :=
  match v with VStr _ => true | _ => false end.

(** ** [crypto] *)

(** [crypto.createHmac('sha256', key).update(data).digest('hex')]: the key
    and the data must be strings (buffers do not occur in the server);
    anything else throws ERR_INVALID_ARG_TYPE. *)
Definition createHmac_sha256_hex (key data : value) : completion string :=
  match key with
  | VStr k =>
      match data with
      | VStr d => Normal (hex (SHA256.hmac (Buffer_from k) (Buffer_from d)))
      | _ => Thrown (TypeError "The data argument must be of type string or an instance of Buffer, TypedArray, or DataView")
      end
  | _ => Thrown (TypeError "The key argument must be of type string or an instance of ArrayBuffer, Buffer, TypedArray, DataView, KeyObject, or CryptoKey")
  end.

(** [crypto.timingSafeEqual(a, b)] throws when the byte lengths differ. *)
Definition timingSafeEqual (a b : Buffer) : completion bool :=
  if Nat.eqb (List.length a) (List.length b) then Normal (Buffer_eqb a b)
  else Thrown (RangeError "Input buffers must have the same byte length").

(* ===================================================================== *)
(** * Part II.  The server                                                *)
(* ===================================================================== *)

(** ** Configuration: [PROJECTS] *)

Record Project := MkProject {
  dir : string;
  pm2Name : string;
  secret : string;
  branch : string
}.

(** The [PROJECTS] object, as loaded at start-up: its own properties and,
    under the key [__proto__], the entry that has replaced its prototype
    when the configuration has a key of that name.  (The loader's
    assignment [PROJECTS['__proto__'] = {...}] reaches the setter inherited
    from [Object.prototype]; no assignment creates an own property
    [__proto__], so the key is free to stand for the prototype, and
    [PROJECTS['__proto__']] is that entry.) *)
Definition Projects := list (string * Project).

(** [PROJECTS] is created by the literal [{}], so a property read that finds
    no own property continues on its prototype: [Object.prototype], or the
    entry that has replaced it, whose own properties are the four fields
    and whose prototype is [Object.prototype]. *)
Definition Object_prototype_keys : list string :=
  [ "constructor"; "__proto__"; "hasOwnProperty"; "isPrototypeOf";
    "propertyIsEnumerable"; "toLocaleString"; "toString"; "valueOf";
    "__defineGetter__"; "__defineSetter__"; "__lookupGetter__"; "__lookupSetter__" ].

Fixpoint mem (k : string) (l : list string) : bool :=
  match l with
  | [] => false
  | k' :: l' => String.eqb k k' || mem k l'
  end.

(** The own properties of an entry. *)
Definition entry_field (project : Project) (k : string) : option string :=
  if String.eqb k "dir" then Some (dir project)
  else if String.eqb k "pm2Name" then Some (pm2Name project)
  else if String.eqb k "secret" then Some (secret project)
  else if String.eqb k "branch" then Some (branch project)
  else None.

(** The field [k] found on the prototype of [PROJECTS] when an entry has
    replaced it. *)
Definition prototype_field (PROJECTS : list (string * Project)) (k : string) : option string :=
  match lookup "__proto__" PROJECTS with
  | Some prototype => entry_field prototype k
  | None => None
  end.

(** The result of [PROJECTS[projectName]]. *)
Inductive project_ref : Type :=
| Configured (project : Project)   (* a project record *)
| Inherited (k : string)           (* found on the prototype chain, truthy, no record:
                                      a built-in, or a non-empty field of the
                                      replaced prototype *)
| Absent.                          (* falsy: undefined, or an empty field *)

Definition PROJECTS_get (PROJECTS : Projects) (projectName : string) : project_ref :=
  match lookup projectName PROJECTS with
  | Some project => Configured project
  | None =>
      if mem projectName Object_prototype_keys then Inherited projectName
      else
        match prototype_field PROJECTS projectName with
        | Some text => if String.eqb text "" then Absent else Inherited projectName
        | None => Absent
        end
  end.

(** [project.secret], [project.branch]: a built-in or a string has no such
    property. *)
Definition project_field (project : project_ref) (f : Project -> string) : value :=
  match project with
  | Configured p => VStr (f p)
  | _ => VUndefined
  end.

Definition project_secret (project : project_ref) : value := project_field project secret.
Definition project_branch (project : project_ref) : value := project_field project branch.

(** ** Programs

    The server's functions that touch the lock, the file system or child
    processes are programs over these operations.  [AwaitReadFile] and
    [AwaitExec] are the awaits on pending I/O, where the event loop can run
    other requests; everything between two of them runs without
    interruption (an [await] on an already settled promise, as in
    [await acquireLock()], resumes in the same microtask checkpoint, before
    any other request is served).  [Observe] records a call of
    [verifySignature]; [ParseJSON] is a call of [JSON.parse], a function of
    the runtime. *)

Inductive exec_result : Type :=
| Closed (code : option Z) (stdout stderr : string)  (* 'close'; code is null after a kill *)
| ProcessError (e : error).                          (* 'error' *)

Inductive event : Type :=
| EvVerify (payload signature secret : value)
| EvExec (command cwd : string) (result : exec_result).

Inductive prog (A : Type) : Type :=
| Ret (a : A)
| Throw (e : error)
| ReadDeploying (k : bool -> prog A)
| WriteDeploying (b : bool) (k : prog A)
| Observe (ev : event) (k : prog A)
| ExistsSync (path : string) (k : bool -> prog A)
| AwaitReadFile (path : string) (k : completion string -> prog A)
| AwaitExec (command cwd : string) (k : exec_result -> prog A)
| ParseJSON (text : string) (k : completion value -> prog A).
Arguments Ret {A} a.
Arguments Throw {A} e.
Arguments ReadDeploying {A} k.
Arguments WriteDeploying {A} b k.
Arguments Observe {A} ev k.
Arguments ExistsSync {A} path k.
Arguments AwaitReadFile {A} path k.
Arguments AwaitExec {A} command cwd k.
Arguments ParseJSON {A} text k.

Fixpoint bind {A B : Type} (p : prog A) (f : A -> prog B) : prog B :=
  match p with
  | Ret a => f a
  | Throw e => Throw e
  | ReadDeploying k => ReadDeploying (fun b => bind (k b) f)
  | WriteDeploying b k => WriteDeploying b (bind k f)
  | Observe ev k => Observe ev (bind k f)
  | ExistsSync path k => ExistsSync path (fun b => bind (k b) f)
  | AwaitReadFile path k => AwaitReadFile path (fun r => bind (k r) f)
  | AwaitExec c d k => AwaitExec c d (fun r => bind (k r) f)
  | ParseJSON text k => ParseJSON text (fun r => bind (k r) f)
  end.

(** [try { p } catch (e) { h e }] *)
Fixpoint try_catch {A : Type} (p : prog A) (h : error -> prog A) : prog A :=
  match p with
  | Ret a => Ret a
  | Throw e => h e
  | ReadDeploying k => ReadDeploying (fun b => try_catch (k b) h)
  | WriteDeploying b k => WriteDeploying b (try_catch k h)
  | Observe ev k => Observe ev (try_catch k h)
  | ExistsSync path k => ExistsSync path (fun b => try_catch (k b) h)
  | AwaitReadFile path k => AwaitReadFile path (fun r => try_catch (k r) h)
  | AwaitExec c d k => AwaitExec c d (fun r => try_catch (k r) h)
  | ParseJSON text k => ParseJSON text (fun r => try_catch (k r) h)
  end.

Notation "x <- p ;; q" := (bind p (fun x => q))
  (at level 61, p at next level, right associativity).
Notation "p ;; q" := (bind p (fun _ => q))
  (at level 61, right associativity).

Definition lift {A : Type} (c : completion A) : prog A :=
  match c with
  | Normal a => Ret a
  | Thrown e => Throw e
  end.

(** ** The deployment lock (server.js 89-104) *)

Definition acquireLock : prog unit :=
  ReadDeploying (fun isDeploying =>
    if isDeploying then Throw (Error "Another deployment is in progress")
    else WriteDeploying true (Ret tt)).

Definition releaseLock : prog unit :=
  WriteDeploying false (Ret tt).

(** ** The command runner (server.js 107-140) *)

Definition show_code (code : option Z) : string :=
  match code with
  | Some n => show_Z n
  | None => "null"
  end.

Definition exec_settle (r : exec_result) : completion string :=
  match r with
  | Closed (Some 0) stdout _ => Normal stdout
  | Closed code _ stderr =>
      Thrown (Error ("Command failed with code " +++ show_code code +++ ": " +++ stderr))
  | ProcessError e => Thrown e
  end.

Definition execPromise (command cwd : string) : prog string :=
  AwaitExec command cwd (fun r => lift (exec_settle r)).

(** ** The signature verifier (server.js 143-162) *)

Definition verifySignature_try (payload signature secret : value) : completion bool :=
  match createHmac_sha256_hex secret payload with
  | Thrown e => Thrown e
  | Normal expectedHex =>
      let expectedSignature := "sha256=" +++ expectedHex in
      if negb (truthy signature) || negb (is_string signature) then Normal false
      else
        match signature with
        | VStr sig =>
            let sigBuf := Buffer_from sig in
            let expBuf := Buffer_from expectedSignature in
            if negb (Nat.eqb (List.length sigBuf) (List.length expBuf)) then Normal false
            else timingSafeEqual sigBuf expBuf
        | _ => Normal false
        end
  end.

Definition verifySignature (payload signature secret : value) : completion bool :=
  match verifySignature_try payload signature secret with
  | Normal b => Normal b
  | Thrown _ => Normal false     (* catch (e) { return false; } *)
  end.

(** ** The deployment pipeline (server.js 165-215) *)

Definition path_join (d f : string) : string := d +++ "/" +++ f.

Definition cmd_fetch : string := "git fetch --all".
Definition cmd_reset (branch : string) : string := "git reset --hard origin/" +++ branch.
Definition cmd_install : string := "npm i".
Definition cmd_build : string := "npm run build".
Definition cmd_restart (pm2Name : string) : string := "pm2 restart " +++ pm2Name.

(** [packageJson.scripts && packageJson.scripts.build], as a condition. *)
Definition declares_build (packageJson : value) : completion bool :=
  match get_prop packageJson "scripts" with
  | Thrown e => Thrown e
  | Normal scripts =>
      if truthy scripts then
        match get_prop scripts "build" with
        | Thrown e => Thrown e
        | Normal b => Normal (truthy b)
        end
      else Normal false
  end.

Definition build_if_needed (project : Project) : prog unit :=
  ExistsSync (path_join (dir project) "package.json") (fun present =>
    if present then
      AwaitReadFile (path_join (dir project) "package.json") (fun r =>
        text <- lift r ;;
        packageJson <- ParseJSON text lift ;;
        build <- lift (declares_build packageJson) ;;
        if build then execPromise cmd_build (dir project) ;; Ret tt
        else Ret tt)
    else Ret tt).

Definition deployProject (PROJECTS : Projects) (projectName : string) (branch_arg : value)
  : prog string :=
  let branch := match branch_arg with VUndefined => VStr "main" | b => b end in
  match PROJECTS_get PROJECTS projectName with
  | Absent => Throw (Error ("Project " +++ projectName +++ " not configured"))
  | Inherited _ =>
      (* project.dir is undefined, and fs.existsSync(undefined) is false *)
      Throw (Error "Project directory undefined does not exist")
  | Configured project =>
      ExistsSync (dir project) (fun present =>
        if negb present then
          Throw (Error ("Project directory " +++ dir project +++ " does not exist"))
        else
          try_catch
            (execPromise cmd_fetch (dir project) ;;
             execPromise (cmd_reset (to_string branch)) (dir project) ;;
             execPromise cmd_install (dir project) ;;
             build_if_needed project ;;
             execPromise (cmd_restart (pm2Name project)) (dir project) ;;
             Ret ("Successfully deployed " +++ projectName))
            (fun error =>
               try_catch
                 (execPromise (cmd_restart (pm2Name project)) (dir project) ;; Ret tt)
                 (fun restartError => Ret tt) ;;
               Throw error))
  end.

(** ** The webhook endpoint (server.js 218-256) *)

Record Request := MkRequest {
  params_projectName : string;
  header_x_hub_signature_256 : option string;
  body : value
}.

Record Response := MkResponse {
  status : Z;
  json : value
}.

Definition header_value (h : option string) : value :=
  match h with
  | Some s => VStr s
  | None => VUndefined
  end.

(** [req.body.ref ? req.body.ref.replace('refs/heads/', '') : project.branch] *)
Definition effective_branch (req_body : value) (project_branch : value) : completion value :=
  match get_prop req_body "ref" with
  | Thrown e => Thrown e
  | Normal ref =>
      if truthy ref then
        match ref with
        | VStr s => Normal (VStr (replace_first_with_empty "refs/heads/" s))
        | _ => Thrown (TypeError "req.body.ref.replace is not a function")
        end
      else Normal project_branch
  end.

Definition error_message_or (e : error) (dflt : string) : string :=
  if String.eqb (err_message e) "" then dflt else err_message e.

Definition handler (PROJECTS : Projects) (req : Request) : prog Response :=
  let projectName := params_projectName req in
  let project := PROJECTS_get PROJECTS projectName in
  match project with
  | Absent => Ret (MkResponse 404 (VObj [("error", VStr "Project not found")]))
  | _ =>
      let signature := header_value (header_x_hub_signature_256 req) in
      let payload := JSON_stringify (body req) in
      rejected <-
        (if negb (truthy signature) then Ret true
         else Observe (EvVerify payload signature (project_secret project))
                (ok <- lift (verifySignature payload signature (project_secret project)) ;;
                 Ret (negb ok))) ;;
      if (rejected : bool) then Ret (MkResponse 401 (VObj [("error", VStr "Invalid signature")]))
      else
        branch <- lift (effective_branch (body req) (project_branch project)) ;;
        if negb (strict_equal branch (project_branch project)) then
          Ret (MkResponse 200
                 (VObj [("message",
                         VStr ("Ignoring deployment: branch " +++ to_string branch +++ " != "
                               +++ to_string (project_branch project)))]))
        else
          try_catch
            (acquireLock ;;
             result <- deployProject PROJECTS projectName branch ;;
             releaseLock ;;
             Ret (MkResponse 200 (VObj [("success", VBool true); ("message", VStr result)])))
            (fun error =>
               releaseLock ;;
               Ret (MkResponse 500
                      (VObj [("success", VBool false);
                             ("error", VStr (error_message_or error "Deployment failed"))])))
  end.

(* ===================================================================== *)
(** * Part III.  Running programs                                         *)
(* ===================================================================== *)

(** ** One request at a time

    The process state is the lock flag [isDeploying] together with the
    history of observable events.  The environment answers every file-system
    question and settles every child process; its answers may depend on the
    history, so that, for example, the recovery restart may fail where the
    primary one would have succeeded.  The environment also is the runtime:
    it says what [JSON.parse] does with a text that [JSON_parse] does not
    cover, that is, with a text that is not JSON (a [SyntaxError], whose
    message depends on the text and on the version of the runtime) and with
    JSON beyond the modelled fragment (the value parsed, as far as a value
    of the model stands for it: the pipeline looks at nothing but the
    truthiness of [scripts] and [scripts.build]). *)

Record State := MkState {
  isDeploying : bool;
  history : list event
}.

Record World := MkWorld {
  fs_existsSync : list event -> string -> bool;
  fs_readFile : list event -> string -> completion string;
  child_exec : list event -> string -> string -> exec_result;
  JSON_parse_beyond : string -> completion value
}.

(** [JSON.parse(text)]: computed on the modelled fragment, the
    environment's beyond it. *)
Definition JSON_parse_of (W : World) (text : string) : completion value :=
  match JSON_parse text with
  | Some v => Normal v
  | None => JSON_parse_beyond W text
  end.

Fixpoint run {A : Type} (W : World) (p : prog A) (s : State) : completion A * State :=
  match p with
  | Ret a => (Normal a, s)
  | Throw e => (Thrown e, s)
  | ReadDeploying k => run W (k (isDeploying s)) s
  | WriteDeploying b k => run W k (MkState b (history s))
  | Observe ev k => run W k (MkState (isDeploying s) (history s ++ [ev]))
  | ExistsSync path k => run W (k (fs_existsSync W (history s) path)) s
  | AwaitReadFile path k => run W (k (fs_readFile W (history s) path)) s
  | AwaitExec c d k =>
      let r := child_exec W (history s) c d in
      run W (k r) (MkState (isDeploying s) (history s ++ [EvExec c d r]))
  | ParseJSON text k => run W (k (JSON_parse_of W text)) s
  end.

(** The commands of the subprocesses a history records, in order. *)
Fixpoint commands (h : list event) : list string :=
  match h with
  | [] => []
  | EvExec c _ _ :: h' => c :: commands h'
  | EvVerify _ _ _ :: h' => commands h'
  end.

Fixpoint verifications (h : list event) : nat :=
  match h with
  | [] => O
  | EvVerify _ _ _ :: h' => S (verifications h')
  | EvExec _ _ _ :: h' => verifications h'
  end.

(** ** The [express.json()] middleware in front of the handler

    A request on the wire carries the raw body bytes; the middleware parses
    them and hands the parsed value to the handler as [req.body] (an empty
    body gives the empty object; in strict mode only an object or an array
    is accepted; a body that does not parse is answered 400 without the
    handler being called).  The requests modelled carry a JSON content type
    and a body that [JSON_parse] covers: for any other body, not JSON or
    JSON beyond the fragment, the model has no answer ([None]), since no
    value of the model stands for what the handler would re-serialise. *)

Record WireRequest := MkWire {
  wire_projectName : string;
  wire_signature : option string;
  wire_body : string
}.

Definition express_json (raw : string) : option value :=
  if String.eqb raw "" then Some (VObj [])
  else match skip_ws raw with
       | EmptyString => None
       | String c _ =>
           if Ascii.eqb c "{" || Ascii.eqb c "[" then JSON_parse raw else None
       end.

Definition app_post_deploy (PROJECTS : Projects) (w : WireRequest) : option (prog Response) :=
  match express_json (wire_body w) with
  | Some parsed =>
      Some (handler PROJECTS (MkRequest (wire_projectName w) (wire_signature w) parsed))
  | None => None
  end.

(** Serving a request on the wire, one request at a time. *)
Definition serve (W : World) (PROJECTS : Projects) (w : WireRequest) (s : State)
  : option (completion Response * State) :=
  match app_post_deploy PROJECTS w with
  | Some p => Some (run W p s)
  | None => None
  end.

(** The payloads handed to [verifySignature], in order. *)
Fixpoint verified_payloads (h : list event) : list value :=
  match h with
  | [] => []
  | EvVerify payload _ _ :: h' => payload :: verified_payloads h'
  | EvExec _ _ _ :: h' => verified_payloads h'
  end.

(** ** The event loop: several requests in flight

    A task is the rest of a handler's program.  [advance] runs it up to its
    next await on pending I/O (or to its end); the other tasks can only run
    while it is suspended there. *)

Fixpoint advance {A : Type} (W : World) (p : prog A) (s : State) : prog A * State :=
  match p with
  | ReadDeploying k => advance W (k (isDeploying s)) s
  | WriteDeploying b k => advance W k (MkState b (history s))
  | Observe ev k => advance W k (MkState (isDeploying s) (history s ++ [ev]))
  | ExistsSync path k => advance W (k (fs_existsSync W (history s) path)) s
  | ParseJSON text k => advance W (k (JSON_parse_of W text)) s
  | _ => (p, s)
  end.

Record Loop := MkLoop {
  process : State;
  tasks : list (prog Response)
}.

Inductive action : Type :=
| Arrive (req : Request)                              (* a request reaches the handler *)
| ExecDone (i : nat) (r : exec_result)                (* task i's child process settles *)
| ReadDone (i : nat) (r : completion string).         (* task i's readFile settles *)

Fixpoint set_nth {A : Type} (i : nat) (a : A) (l : list A) : list A :=
  match i, l with
  | _, [] => []
  | O, _ :: l' => a :: l'
  | S i', x :: l' => x :: set_nth i' a l'
  end.

Definition loop_step (W : World) (PROJECTS : Projects) (l : Loop) (a : action) : option Loop :=
  match a with
  | Arrive req =>
      let '(p, s) := advance W (handler PROJECTS req) (process l) in
      Some (MkLoop s (tasks l ++ [p]))
  | ExecDone i r =>
      match nth_error (tasks l) i with
      | Some (AwaitExec c d k) =>
          let s0 := MkState (isDeploying (process l)) (history (process l) ++ [EvExec c d r]) in
          let '(p, s) := advance W (k r) s0 in
          Some (MkLoop s (set_nth i p (tasks l)))
      | _ => None
      end
  | ReadDone i r =>
      match nth_error (tasks l) i with
      | Some (AwaitReadFile path k) =>
          let '(p, s) := advance W (k r) (process l) in
          Some (MkLoop s (set_nth i p (tasks l)))
      | _ => None
      end
  end.

Fixpoint loop_run (W : World) (PROJECTS : Projects) (l : Loop) (sched : list action) : option Loop :=
  match sched with
  | [] => Some l
  | a :: sched' =>
      match loop_step W PROJECTS l a with
      | Some l' => loop_run W PROJECTS l' sched'
      | None => None
      end
  end.

(** A task is inside the deployment pipeline when it is suspended on a child
    process or on the manifest read: the handler awaits pending I/O nowhere
    else. *)
Definition in_pipeline (p : prog Response) : bool :=
  match p with
  | AwaitExec _ _ _ | AwaitReadFile _ _ => true
  | _ => false
  end.

Definition active_pipelines (l : Loop) : nat :=
  List.length (filter in_pipeline (tasks l)).

Definition finished (p : prog Response) : option (completion Response) :=
  match p with
  | Ret r => Some (Normal r)
  | Throw e => Some (Thrown e)
  | _ => None
  end.

(* ===================================================================== *)
(** * Part IV.  Vocabulary of the statements, and sample data            *)
(* ===================================================================== *)

(** The token a sender holding [secret] computes for [payload]. *)
Definition expected_token (secret payload : string) : string :=
  "sha256=" +++ hex (SHA256.hmac (Buffer_from secret) (Buffer_from payload)).

(** Stripping a leading prefix, in the words of the specification: the
    prefix is removed when the string starts with it, and the string is left
    alone otherwise. *)
Definition strip_prefix (pat s : string) : string :=
  if String.prefix pat s then drop (String.length pat) s else s.

(** Position of the first occurrence of [pat] in [s]. *)
Fixpoint first_index (pat s : string) : option nat :=
  if String.prefix pat s then Some O
  else match s with
       | EmptyString => None
       | String _ s' => option_map S (first_index pat s')
       end.

(** Number of positions of [s] at which [pat] occurs. *)
Fixpoint occurrences (pat s : string) : nat :=
  ((if String.prefix pat s then 1 else 0)
   + match s with
     | EmptyString => 0
     | String _ s' => occurrences pat s'
     end)%nat.

Fixpoint take (n : nat) (s : string) : string :=
  match n, s with
  | O, _ => EmptyString
  | S n', String c s' => String c (take n' s')
  | S _, EmptyString => EmptyString
  end.

(** [pat] occurs in [s] other than exactly once as a leading prefix. *)
Definition occurs_elsewhere (pat s : string) : bool :=
  Nat.leb 1 (occurrences pat s)
  && negb (Nat.eqb (occurrences pat s) 1 && String.prefix pat s).

Definition succeeded (r : exec_result) : bool :=
  match r with
  | Closed (Some 0) _ _ => true
  | _ => false
  end.

Definition event_succeeded (ev : event) : bool :=
  match ev with
  | EvExec _ _ r => succeeded r
  | EvVerify _ _ _ => true
  end.

(** The events a program adds to the history of the state it starts in. *)
Definition issued {A : Type} (W : World) (p : prog A) (s : State) : list event :=
  skipn (List.length (history s)) (history (snd (run W p s))).

(** The history after one more subprocess has run. *)
Definition after (W : World) (h : list event) (c d : string) : list event :=
  h ++ [EvExec c d (child_exec W h c d)].

(** The manifest, as the build step sees it at history [h]:
    [Some (Normal b)] when it is present, readable and parses, [b] telling
    whether it declares a build script; [Some (Thrown e)] when reading,
    parsing or inspecting it throws; [None] when there is no manifest. *)
Definition manifest (W : World) (h : list event) (project : Project)
  : option (completion bool) :=
  if fs_existsSync W h (path_join (dir project) "package.json") then
    Some match fs_readFile W h (path_join (dir project) "package.json") with
         | Thrown e => Thrown e
         | Normal text =>
             match JSON_parse_of W text with
             | Thrown e => Thrown e
             | Normal v => declares_build v
             end
         end
  else None.

(** The pipeline in the words of the specification (section 4.4): the
    primary steps run in sequence; the first step that fails aborts the
    others and enters the recovery attempt, one restart whose own outcome is
    ignored; the original failure is what is reported. *)
Definition recovery (W : World) (project : Project) (flag : bool) (e : error) (h : list event)
  : completion string * State :=
  (Thrown e, MkState flag (after W h (cmd_restart (pm2Name project)) (dir project))).

Definition primary_step (W : World) (project : Project) (flag : bool) (c : string)
  (h : list event) (next : list event -> completion string * State)
  : completion string * State :=
  match exec_settle (child_exec W h c (dir project)) with
  | Normal _ => next (after W h c (dir project))
  | Thrown e => recovery W project flag e (after W h c (dir project))
  end.

Definition pipeline_reference (W : World) (project : Project) (projectName branch : string)
  (s : State) : completion string * State :=
  let flag := isDeploying s in
  let step := primary_step W project flag in
  let restart h :=
    step (cmd_restart (pm2Name project)) h
         (fun h' => (Normal ("Successfully deployed " +++ projectName), MkState flag h')) in
  step cmd_fetch (history s) (fun h1 =>
  step (cmd_reset branch) h1 (fun h2 =>
  step cmd_install h2 (fun h3 =>
    match manifest W h3 project with
    | Some (Thrown e) => recovery W project flag e h3
    | Some (Normal true) => step cmd_build h3 restart
    | Some (Normal false) | None => restart h3
    end))).

(** The histories after the first three steps. *)
Definition after_fetch (W : World) (project : Project) (h : list event) : list event :=
  after W h cmd_fetch (dir project).
Definition after_reset (W : World) (project : Project) (branch : string) (h : list event)
  : list event :=
  after W (after_fetch W project h) (cmd_reset branch) (dir project).
Definition after_install (W : World) (project : Project) (branch : string) (h : list event)
  : list event :=
  after W (after_reset W project branch h) cmd_install (dir project).

(** Whether the build step runs: a manifest exists and declares one. *)
Definition builds (W : World) (project : Project) (h : list event) : bool :=
  match manifest W h project with
  | Some (Normal true) => true
  | _ => false
  end.



Definition has_success_field (r : Response) : bool :=
  match json r with
  | VObj fields => has_key "success" fields
  | _ => false
  end.

(** The five responses of the endpoint. *)
Definition response_not_found : Response :=
  MkResponse 404 (VObj [("error", VStr "Project not found")]).
Definition response_invalid_signature : Response :=
  MkResponse 401 (VObj [("error", VStr "Invalid signature")]).
Definition response_ignored (branch project_branch : value) : Response :=
  MkResponse 200
    (VObj [("message",
            VStr ("Ignoring deployment: branch " +++ to_string branch +++ " != "
                  +++ to_string project_branch))]).
Definition response_deployed (result : string) : Response :=
  MkResponse 200 (VObj [("success", VBool true); ("message", VStr result)]).
Definition response_failed (message : string) : Response :=
  MkResponse 500 (VObj [("success", VBool false); ("error", VStr message)]).

(** The state after the handler has called [verifySignature]. *)
Definition verified (s : State) (payload signature secret : value) : State :=
  MkState (isDeploying s) (history s ++ [EvVerify payload signature secret]).

(** *** Sample configuration, worlds and requests *)

Definition demo : Project := MkProject "/var/www/demo" "demo" "s3cr3t" "main".
Definition demo_projects : Projects := [("demo", demo)].

Definition idle : State := MkState false [].

(** [JSON.parse] beyond the fragment, in the sample worlds.  The only text
    they hold that [JSON_parse] does not cover is the manifest [not json]
    of [world_bad_manifest]: the answer is the error of that text. *)
Definition no_text_beyond (text : string) : completion value :=
  Thrown (SyntaxError ("Unexpected token 'o', " +++ dq "'not json'" +++ " is not valid JSON")).

(** Every directory and manifest exists, the manifest declares a build
    script, every command exits with status 0. *)
Definition world_ok : World :=
  MkWorld (fun _ _ => true)
          (fun _ _ => Normal (dq "{'scripts':{'build':'tsc'}}"))
          (fun _ _ _ => Closed (Some 0) "done" "")
          no_text_beyond.

(** As [world_ok], but [npm i] exits with status 1 and every restart of the
    process manager with status 2. *)
Definition world_install_fails : World :=
  MkWorld (fun _ _ => true)
          (fun _ _ => Normal (dq "{'scripts':{'build':'tsc'}}"))
          (fun _ c _ => if String.eqb c cmd_install then Closed (Some 1) "" "ERESOLVE"
                        else if String.prefix "pm2" c then Closed (Some 2) "" "not found"
                        else Closed (Some 0) "done" "")
          no_text_beyond.

Definition push_main : string := dq "{'ref':'refs/heads/main'}".
Definition push_main_spaced : string := dq "{'ref': 'refs/heads/main'}".

Definition push_main_request : Request :=
  MkRequest "demo" (Some (expected_token "s3cr3t" push_main))
            (VObj [("ref", VStr "refs/heads/main")]).

(** A project deployed from a branch with a slash in its name, and a push
    whose ref holds [refs/heads/] in the middle. *)
Definition staging : Project := MkProject "/var/www/staging" "staging" "s3cr3t" "release/v1".
Definition staging_projects : Projects := [("demo", demo); ("staging", staging)].

Definition odd_ref_body : value := VObj [("ref", VStr "release/refs/heads/v1")].

Definition odd_ref_request : Request :=
  MkRequest "staging"
            (Some (expected_token "s3cr3t" (dq "{'ref':'release/refs/heads/v1'}")))
            odd_ref_body.

(** The push of [main] with a space after the colon, signed by the sender
    over the bytes sent. *)
Definition spaced_push : WireRequest :=
  MkWire "demo" (Some (expected_token "s3cr3t" push_main_spaced)) push_main_spaced.

(** The same bytes, with the token of the compact text. *)
Definition spaced_push_compact_token : WireRequest :=
  MkWire "demo" (Some (expected_token "s3cr3t" push_main)) push_main_spaced.

(** A program that never calls the verifier. *)
Fixpoint quiet {A : Type} (p : prog A) : Prop :=
  match p with
  | Ret _ | Throw _ => True
  | ReadDeploying k => forall b, quiet (k b)
  | WriteDeploying _ k => quiet k
  | Observe _ _ => False
  | ExistsSync _ k => forall b, quiet (k b)
  | AwaitReadFile _ k => forall r, quiet (k r)
  | AwaitExec _ _ k => forall r, quiet (k r)
  | ParseJSON _ k => forall r, quiet (k r)
  end.

(** Two, and three, pushes of [main] arriving while the first one's
    [git fetch] is still running. *)
Definition two_pushes : list action :=
  [Arrive push_main_request; Arrive push_main_request].
Definition three_pushes : list action :=
  [Arrive push_main_request; Arrive push_main_request; Arrive push_main_request].

Definition fresh_loop : Loop := MkLoop idle [].

(** A task releases the lock before it responds with a pipeline outcome:
    on every path to such a response, the last thing the task did to the
    lock, since it last resumed from pending I/O, was to clear it.  [free]
    tells whether the task has cleared the lock since it last resumed. *)
Fixpoint releases (free : bool) (p : prog Response) : Prop :=
  match p with
  | Ret r => has_success_field r = true -> free = true
  | Throw _ => True
  | ReadDeploying k => forall b, releases free (k b)
  | WriteDeploying b k => releases (negb b) k
  | Observe _ k => releases free k
  | ExistsSync _ k => forall b, releases free (k b)
  | AwaitReadFile _ k => forall r, releases false (k r)
  | AwaitExec _ _ k => forall r, releases false (k r)
  | ParseJSON _ k => forall r, releases free (k r)
  end.

(** A task in the loop is finished, or suspended with a rest that releases
    the lock before it responds. *)
Definition task_ok (p : prog Response) : Prop :=
  match p with
  | AwaitExec _ _ k => forall r, releases false (k r)
  | AwaitReadFile _ k => forall r, releases false (k r)
  | _ => True
  end.

(** The task an action of the event loop runs. *)
Definition stepped_task (l : Loop) (a : action) : nat :=
  match a with
  | Arrive _ => List.length (tasks l)
  | ExecDone i _ | ReadDone i _ => i
  end.

(** ** The earlier variant of the server (src/unnamed/part_000, 481-688)

    The same server before the request identifiers, the guards of the
    verifier and the split of [fs] into [fs] and [fsp] were added.  Two of
    its functions differ in behaviour from server.js. *)

Module Legacy.

(** Lines 575-584: no [try], no check of the token's type or length.  The
    only caller passes a non-empty header string, the serialised body and
    the configured secret. *)
Definition verifySignature (payload signature secret : string) : completion bool :=
  let expectedSignature :=
    "sha256=" +++ hex (SHA256.hmac (Buffer_from secret) (Buffer_from payload)) in
  timingSafeEqual (Buffer_from signature) (Buffer_from expectedSignature).

(** Lines 587-633: here [fs] is [require('fs').promises], which has no
    [existsSync]; the call [fs.existsSync(project.dir)] throws before the
    [try] block is entered. *)
Definition deployProject (PROJECTS : Projects) (projectName : string) (branch_arg : value)
  : prog string :=
  match PROJECTS_get PROJECTS projectName with
  | Absent => Throw (Error ("Project " +++ projectName +++ " not configured"))
  | _ => Throw (TypeError "fs.existsSync is not a function")
  end.

End Legacy.

(* ===================================================================== *)
(** * Part IV, continued.  More of the server                           *)
(* ===================================================================== *)

(** ** More vocabulary for the pipeline *)

(** The history at which the primary restart is issued, when every step
    before it has succeeded. *)
Definition before_restart (W : World) (project : Project) (branch : string) (h : list event)
  : list event :=
  let h3 := after_install W project branch h in
  if builds W project h3 then after W h3 cmd_build (dir project) else h3.

(** The command lines the pipeline can pass to the shell. *)
Definition command_lines (project : Project) (branch : string) : list string :=
  [cmd_fetch; cmd_reset branch; cmd_install; cmd_build; cmd_restart (pm2Name project)].


(** No directory exists, nothing can be read, every command exits 0. *)
Definition world_empty : World :=
  MkWorld (fun _ _ => false)
          (fun _ _ => Thrown (Error "ENOENT: no such file or directory"))
          (fun _ _ _ => Closed (Some 0) "done" "")
          no_text_beyond.


(** As [world_ok], but the manifest cannot be read. *)
Definition world_unreadable_manifest : World :=
  MkWorld (fun _ _ => true)
          (fun _ _ => Thrown (Error "EACCES: permission denied, open '/var/www/demo/package.json'"))
          (fun _ _ _ => Closed (Some 0) "done" "")
          no_text_beyond.

(** A manifest that is JSON beyond the modelled fragment: it holds the
    number [1.5].  No value of the model is that number; in the value the
    environment gives for the text the integer [1] stands for it, truthy
    like it: the pipeline does not look at it. *)
Definition fractional_manifest : string :=
  dq "{'version':1.5,'scripts':{'build':'tsc'}}".

Definition world_fractional_manifest : World :=
  MkWorld (fun _ _ => true)
          (fun _ _ => Normal fractional_manifest)
          (fun _ _ _ => Closed (Some 0) "done" "")
          (fun text =>
             if String.eqb text fractional_manifest
             then Normal (VObj [("version", VNum 1);
                                ("scripts", VObj [("build", VStr "tsc")])])
             else no_text_beyond text).

(** As [world_ok], but there is no manifest and every [pm2] command exits
    with status 1. *)
Definition world_restart_fails : World :=
  MkWorld (fun _ p => negb (String.eqb p "/var/www/demo/package.json"))
          (fun _ _ => Thrown (Error "ENOENT: no such file or directory"))
          (fun _ c _ => if String.prefix "pm2" c then Closed (Some 1) "" "process not found"
                        else Closed (Some 0) "done" "")
          no_text_beyond.


(** ** More vocabulary for the handler *)

(** An event of a request for [project]: the call of the verifier, or a
    subprocess started in the project's directory with one of the command
    lines of the configured branch. *)
Definition from_configuration (project : Project) (ev : event) : Prop :=
  match ev with
  | EvExec c cwd _ => cwd = dir project /\ In c (command_lines project (branch project))
  | EvVerify _ _ _ => True
  end.

(** [git fetch] exits with status 128. *)
Definition world_fetch_fails : World :=
  MkWorld (fun _ _ => true)
          (fun _ _ => Normal (dq "{'scripts':{'build':'tsc'}}"))
          (fun _ c _ => if String.eqb c cmd_fetch
                        then Closed (Some 128) "" "fatal: unable to access the remote"
                        else Closed (Some 0) "done" "")
          no_text_beyond.


(** ** The command runner, event by event (server.js 107-140)

    [execPromise] registers four listeners on the child process and settles
    its promise from them.  Here the child process is the sequence of the
    events it emits; [resolve] and [reject] act on a pending promise only. *)

Inductive child_event : Type :=
| StdoutData (data : string)         (* child.stdout.on('data') *)
| StderrData (data : string)         (* child.stderr.on('data') *)
| CloseEvent (code : option Z)       (* child.on('close') *)
| ErrorEvent (e : error).            (* child.on('error') *)

Record exec_promise := MkExecPromise {
  var_stdout : string;
  var_stderr : string;
  settlement : option (completion string)
}.

Definition exec_pending : exec_promise := MkExecPromise EmptyString EmptyString None.

Definition settle (p : exec_promise) (c : completion string) : exec_promise :=
  match settlement p with
  | None => MkExecPromise (var_stdout p) (var_stderr p) (Some c)
  | Some _ => p
  end.

Definition on_child_event (p : exec_promise) (ev : child_event) : exec_promise :=
  match ev with
  | StdoutData data => MkExecPromise (var_stdout p +++ data) (var_stderr p) (settlement p)
  | StderrData data => MkExecPromise (var_stdout p) (var_stderr p +++ data) (settlement p)
  | CloseEvent (Some 0) => settle p (Normal (var_stdout p))
  | CloseEvent code =>
      settle p (Thrown (Error ("Command failed with code " +++ show_code code +++ ": "
                               +++ var_stderr p)))
  | ErrorEvent e => settle p (Thrown e)
  end.

(** The promise after the child has emitted [evs]: settled, or pending. *)
Definition execPromise_events (evs : list child_event) : option (completion string) :=
  settlement (fold_left on_child_event evs exec_pending).

Definition is_data (ev : child_event) : bool :=
  match ev with
  | StdoutData _ | StderrData _ => true
  | _ => false
  end.

(** What the child wrote to its standard output, and to its standard error. *)
Fixpoint stdout_of (evs : list child_event) : string :=
  match evs with
  | [] => EmptyString
  | StdoutData data :: evs' => data +++ stdout_of evs'
  | _ :: evs' => stdout_of evs'
  end.

Fixpoint stderr_of (evs : list child_event) : string :=
  match evs with
  | [] => EmptyString
  | StderrData data :: evs' => data +++ stderr_of evs'
  | _ :: evs' => stderr_of evs'
  end.

(** ** The lock in the event loop: vocabulary *)

Definition in_progress : Response := response_failed "Another deployment is in progress".

(** A program that does not touch the lock. *)
Fixpoint lockless {A : Type} (p : prog A) : Prop :=
  match p with
  | Ret _ | Throw _ => True
  | ReadDeploying _ => False
  | WriteDeploying _ _ => False
  | Observe _ k => lockless k
  | ExistsSync _ k => forall b, lockless (k b)
  | AwaitReadFile _ k => forall r, lockless (k r)
  | AwaitExec _ _ k => forall r, lockless (k r)
  | ParseJSON _ k => forall r, lockless (k r)
  end.

(** How a task uses the lock.  [f] is the flag as the task finds it, [h]
    tells whether the task has acquired the lock and not yet released it.
    The task sets the flag only when it finds it clear; it suspends only
    while it has the lock; it ends without it; and it clears the flag either
    to release what it has acquired, or, having found the flag set, on its
    way to the in-progress response. *)
Fixpoint discipline (f h : bool) (p : prog Response) : Prop :=
  match p with
  | Ret _ | Throw _ => h = false
  | ReadDeploying k => discipline f h (k f)
  | WriteDeploying b k =>
      if b then f = false /\ h = false /\ discipline true true k
      else (h = true /\ discipline false false k)
           \/ (h = false /\ f = true /\ k = Ret in_progress)
  | Observe _ k => discipline f h k
  | ExistsSync _ k => forall b, discipline f h (k b)
  | AwaitReadFile _ k => h = true /\ forall r f', discipline f' true (k r)
  | AwaitExec _ _ k => h = true /\ forall r f', discipline f' true (k r)
  | ParseJSON _ k => forall r, discipline f h (k r)
  end.

(** A task of the loop: finished, or suspended holding the lock. *)
Definition task_disciplined (p : prog Response) : Prop :=
  match p with
  | AwaitExec _ _ k => forall r f', discipline f' true (k r)
  | AwaitReadFile _ k => forall r f', discipline f' true (k r)
  | _ => True
  end.

(** What running a task up to its next await, from flag [f], leaves behind:
    the task [p'] and the flag [f']. *)
Definition segment_effect (f h : bool) (p' : prog Response) (f' : bool) : Prop :=
  task_disciplined p'
  /\ (in_pipeline p' = true ->
      (f' = true \/ (h = true /\ f' = f)) /\ (h = false -> f = false))
  /\ (in_pipeline p' = false ->
      (h = true -> f' = false)
      /\ (h = false -> f' = f \/ (p' = Ret in_progress /\ f = true /\ f' = false))).

Definition b2n (b : bool) : nat := if b then 1%nat else 0%nat.

(** The invariant of mutual exclusion: at most one pipeline is in flight,
    and one is exactly when the flag is set. *)
Definition exclusive (l : Loop) : Prop :=
  Forall task_disciplined (tasks l)
  /\ active_pipelines l = b2n (isDeploying (process l)).


(** A push whose [git fetch] fails and whose recovery restart succeeds,
    followed by a second push. *)
Definition failed_push_then_push : list action :=
  [Arrive push_main_request;
   ExecDone 0 (Closed (Some 128) "" "fatal: unable to access the remote");
   ExecDone 0 (Closed (Some 0) "restarted" "");
   Arrive push_main_request].


(** ** Loading the configuration (server.js 65-85)

    [PROJECTS] starts as [{}]; for every key of the parsed
    [DEPLOY_PROJECTS] an object literal with the four fields is assigned to
    [PROJECTS[key]].  An exception anywhere in the [try] block ends the
    process with exit code 1. *)

(** The object literal stored for a project.  The fields are whatever the
    configuration holds. *)
Record ProjectEntry := MkEntry {
  entry_dir : value;
  entry_pm2Name : value;
  entry_secret : value;
  entry_branch : value
}.

(** The [PROJECTS] object: its own properties in property order and, when an
    assignment to [__proto__] has replaced its prototype, the object that
    is now its prototype. *)
Record Store := MkStore {
  own : list (string * ProjectEntry);
  replaced_prototype : option ProjectEntry
}.

Definition empty_store : Store := MkStore [] None.

Definition index_key (i : nat) : string := show_Z (Z.of_nat i).

(** [Object.keys(v)]: the own enumerable string keys. *)
Definition Object_keys (v : value) : completion (list string) :=
  match v with
  | VUndefined | VNull => Thrown (TypeError "Cannot convert undefined or null to object")
  | VBool _ | VNum _ => Normal []
  | VStr s => Normal (map index_key (seq 0 (String.length s)))
  | VArr elems => Normal (map index_key (seq 0 (List.length elems)))
  | VObj fields => Normal (map fst fields)
  end.

(** [v[k]] for a key [k] of [Object.keys(v)]. *)
Definition element (v : value) (k : string) : value :=
  match v with
  | VObj fields => match lookup k fields with Some x => x | None => VUndefined end
  | VArr elems =>
      match array_index k with
      | Some i => nth (Z.to_nat i) elems VUndefined
      | None => VUndefined
      end
  | VStr s =>
      match array_index k with
      | Some i => match String.get (Z.to_nat i) s with
                  | Some c => VStr (String c EmptyString)
                  | None => VUndefined
                  end
      | None => VUndefined
      end
  | _ => VUndefined
  end.

(** The object literal of lines 74-79, for [c = projectsConfig[projectName]]
    (the four keys are found on no built-in prototype, so [get_prop] reads
    them as it reads [ref]). *)
Definition make_entry (c : value) : completion ProjectEntry :=
  match get_prop c "dir" with
  | Thrown e => Thrown e
  | Normal d =>
      match get_prop c "pm2Name" with
      | Thrown e => Thrown e
      | Normal p =>
          match get_prop c "secret" with
          | Thrown e => Thrown e
          | Normal s =>
              match get_prop c "branch" with
              | Thrown e => Thrown e
              | Normal b => Normal (MkEntry d p s (if truthy b then b else VStr "main"))
              end
          end
      end
  end.

(** [PROJECTS[k] = e]: the key [__proto__] reaches the setter inherited
    from [Object.prototype], which replaces the prototype; any other key
    defines or overwrites an own property. *)
Definition store_assign (st : Store) (k : string) (e : ProjectEntry) : Store :=
  if String.eqb k "__proto__" then MkStore (own st) (Some e)
  else MkStore (define_property k e (own st)) (replaced_prototype st).

Fixpoint load_entries (projectsConfig : value) (keys : list string) (st : Store)
  : completion Store :=
  match keys with
  | [] => Normal st
  | projectName :: keys' =>
      match make_entry (element projectsConfig projectName) with
      | Thrown e => Thrown e
      | Normal entry => load_entries projectsConfig keys' (store_assign st projectName entry)
      end
  end.

(** The [forEach] over [Object.keys(projectsConfig)]. *)
Definition load_config (projectsConfig : value) : completion Store :=
  match Object_keys projectsConfig with
  | Thrown e => Thrown e
  | Normal keys => load_entries projectsConfig keys empty_store
  end.

Inductive startup : Type :=
| Started (PROJECTS : Store)
| Exited (code : Z).

(** Lines 65-85, for the value of [process.env.DEPLOY_PROJECTS].  The texts
    modelled are those [JSON_parse] covers and those that are not JSON: a
    text it does not cover is taken as not JSON, and the statements about
    start-up are about texts it covers. *)
Definition load_projects (DEPLOY_PROJECTS : option string) : startup :=
  match DEPLOY_PROJECTS with
  | None => Started empty_store
  | Some text =>
      if String.eqb text "" then Started empty_store
      else
        match JSON_parse text with
        | None => Exited 1
        | Some projectsConfig =>
            match load_config projectsConfig with
            | Normal st => Started st
            | Thrown _ => Exited 1
            end
        end
  end.

(** A loaded entry whose four fields are strings, as the record the handler
    reads. *)
Definition entry_project (e : ProjectEntry) : option Project :=
  match entry_dir e, entry_pm2Name e, entry_secret e, entry_branch e with
  | VStr d, VStr p, VStr s, VStr b => Some (MkProject d p s b)
  | _, _, _, _ => None
  end.

Fixpoint entries_projects (l : list (string * ProjectEntry)) : option (list (string * Project)) :=
  match l with
  | [] => Some []
  | (k, e) :: l' =>
      match entry_project e, entries_projects l' with
      | Some project, Some ps => Some ((k, project) :: ps)
      | _, _ => None
      end
  end.

(** The [PROJECTS] of the handler for a loaded store: its own entries and,
    under [__proto__], the entry that has replaced the prototype ([None]
    when a field of an entry is no string: the handler is modelled for
    configurations of strings). *)
Definition PROJECTS_of (st : Store) : option Projects :=
  match entries_projects (own st) with
  | Some ps =>
      match replaced_prototype st with
      | None => Some ps
      | Some e =>
          match entry_project e with
          | Some prototype => Some (ps ++ [("__proto__", prototype)])
          | None => None
          end
      end
  | None => None
  end.

(** ** The health endpoint (server.js 259-265)

    [names] is [Object.keys(PROJECTS)], [now] the text of
    [new Date().toISOString()]. *)
Definition health (names : list string) (now : string) : Response :=
  MkResponse 200
    (VObj [("status", VStr "ok");
           ("projects", VArr (map VStr names));
           ("timestamp", VStr now)]).

Definition health_of_store (st : Store) (now : string) : Response :=
  health (map fst (own st)) now.

(** ** The body preview of the request log (server.js 38-46) *)

Inductive body_log : Type :=
| BodyLogged (size : nat) (preview : string)   (* 'Body size:' size 'preview:' preview *)
| BodyUnserializable                           (* 'Body: <unserializable>' *)
| BodyNotLogged.                               (* req.body is falsy *)

Definition preview_of (bodyStr : string) : string :=
  if Nat.ltb 1000 (String.length bodyStr) then take 1000 bodyStr +++ "...<truncated>"
  else bodyStr.

Definition log_body (req_body : value) : body_log :=
  if truthy req_body then
    match (match req_body with
           | VStr s => Some s
           | _ => serialize req_body
           end) with
    | Some bodyStr => BodyLogged (List.length (Buffer_from bodyStr)) (preview_of bodyStr)
    | None => BodyUnserializable   (* bodyStr.length throws on undefined *)
    end
  else BodyNotLogged.

(** ** The endpoint of the earlier variant (src/unnamed/part_000, 636-673)

    The handler registered by [app.post] there: the same text as in
    server.js, calling the earlier [verifySignature] and the earlier
    [deployProject]. *)

Module LegacyEndpoint.

(** The earlier [verifySignature] on the arguments of its call site: the
    serialised body, the non-empty header string and [project.secret].
    [createHmac] and [update] throw on a key or on data that is not a
    string. *)
Definition verifySignature (payload : value) (signature : string) (secret : value)
  : completion bool :=
  match createHmac_sha256_hex secret payload with
  | Thrown e => Thrown e
  | Normal expectedHex =>
      timingSafeEqual (Buffer_from signature) (Buffer_from ("sha256=" +++ expectedHex))
  end.

Definition handler (PROJECTS : Projects) (req : Request) : prog Response :=
  let projectName := params_projectName req in
  let project := PROJECTS_get PROJECTS projectName in
  match project with
  | Absent => Ret (MkResponse 404 (VObj [("error", VStr "Project not found")]))
  | _ =>
      let payload := JSON_stringify (body req) in
      rejected <-
        match header_x_hub_signature_256 req with
        | None => Ret true
        | Some signature =>
            if String.eqb signature "" then Ret true
            else Observe (EvVerify payload (VStr signature) (project_secret project))
                   (ok <- lift (verifySignature payload signature (project_secret project)) ;;
                    Ret (negb ok))
        end ;;
      if (rejected : bool) then Ret (MkResponse 401 (VObj [("error", VStr "Invalid signature")]))
      else
        branch <- lift (effective_branch (body req) (project_branch project)) ;;
        if negb (strict_equal branch (project_branch project)) then
          Ret (MkResponse 200
                 (VObj [("message",
                         VStr ("Ignoring deployment: branch " +++ to_string branch +++ " != "
                               +++ to_string (project_branch project)))]))
        else
          try_catch
            (acquireLock ;;
             result <- Legacy.deployProject PROJECTS projectName branch ;;
             releaseLock ;;
             Ret (MkResponse 200 (VObj [("success", VBool true); ("message", VStr result)])))
            (fun error =>
               releaseLock ;;
               Ret (MkResponse 500
                      (VObj [("success", VBool false);
                             ("error", VStr (error_message_or error "Deployment failed"))])))
  end.

End LegacyEndpoint.

(** *** Sample data for the configuration and the log *)

Definition sample_config : string :=
  dq "{'shop':{'dir':'/var/www/shop','pm2Name':'shop','secret':'k1'},'blog':{'dir':'/var/www/blog','pm2Name':'blog','secret':'k2','branch':'develop'}}".

Definition proto_config : string :=
  dq "{'shop':{'dir':'/var/www/shop','pm2Name':'shop','secret':'k1'},'__proto__':{'dir':'/var/www/x','pm2Name':'x','secret':'k3'}}".

Definition null_entry_config : string := dq "{'shop':null}".

Fixpoint repeat_string (n : nat) (s : string) : string :=
  match n with
  | O => EmptyString
  | S n' => s +++ repeat_string n' s
  end.

Definition long_body : value := VObj [("text", VStr (repeat_string 150 "0123456789"))].


(** [v == null]: the values whose properties cannot be read. *)
Definition nullish (v : value) : bool :=
  match v with
  | VUndefined | VNull => true
  | _ => false
  end.


(** The configuration of [proto_config]: the entry under [__proto__] has
    replaced the prototype of [PROJECTS]. *)
Definition projects_with_prototype : Projects :=
  [("shop", MkProject "/var/www/shop" "shop" "k1" "main");
   ("__proto__", MkProject "/var/www/x" "x" "k3" "main")].

(** An authenticated push whose [ref] is a number. *)
Definition numeric_ref_request : Request :=
  MkRequest "demo" (Some (expected_token "s3cr3t" (dq "{'ref':1}"))) (VObj [("ref", VNum 1)]).


(* ===================================================================== *)
(** * Part V.  Theorems                                                   *)
(* ===================================================================== *)

(** ** The runtime *)

Example sha256_abc :
  hex (SHA256.digest (Buffer_from "abc"))
  = "ba7816bf8f01cfea414140de5dae2223b00361a396177a9cb410ff61f20015ad".
Proof. vm_compute. reflexivity. Qed.

Example hmac_sha256_fox :
  hex (SHA256.hmac (Buffer_from "key")
         (Buffer_from "The quick brown fox jumps over the lazy dog"))
  = "f7bc83f430538424b13298e6aa6fb143ef4d59a14946175997479dbc2d1a3cd8".
Proof. vm_compute. reflexivity. Qed.

Lemma charCode_range (c : ascii) : 0 <= charCode c < 256.
Proof.
  unfold charCode. pose proof (N_ascii_bounded c). lia.
Qed.

Lemma charCode_inj (c c' : ascii) : charCode c = charCode c' -> c = c'.
Proof.
  unfold charCode. intro H. apply N2Z.inj in H.
  rewrite <- (ascii_N_embedding c), <- (ascii_N_embedding c'). now rewrite H.
Qed.

Lemma utf8_unit_inj (c c' : ascii) (a b : Buffer) :
  utf8_unit c ++ a = utf8_unit c' ++ b -> c = c' /\ a = b.
Proof.
  unfold utf8_unit.
  pose proof (charCode_range c) as Hc. pose proof (charCode_range c') as Hc'.
  assert (Dc : 0 <= charCode c / 64) by (apply Z.div_pos; lia).
  assert (Dc' : 0 <= charCode c' / 64) by (apply Z.div_pos; lia).
  remember (192 + charCode c / 64) as x1 eqn:X1.
  remember (128 + charCode c mod 64) as x2 eqn:X2.
  remember (192 + charCode c' / 64) as y1 eqn:Y1.
  remember (128 + charCode c' mod 64) as y2 eqn:Y2.
  destruct (Z.ltb_spec (charCode c) 128) as [L|L],
           (Z.ltb_spec (charCode c') 128) as [L'|L'];
    cbn [app]; intro E; injection E; intros.
  - split; [now apply charCode_inj | assumption].
  - exfalso. lia.
  - exfalso. lia.
  - split; [|assumption]. apply charCode_inj.
    rewrite (Z.div_mod (charCode c) 64), (Z.div_mod (charCode c') 64) by lia. lia.
Qed.

Lemma utf8_unit_nonempty (c : ascii) (a : Buffer) : utf8_unit c ++ a <> [].
Proof.
  unfold utf8_unit. destruct (charCode c <? 128); discriminate.
Qed.

(** [Buffer.from] is injective on strings. *)
Lemma Buffer_from_inj (s t : string) : Buffer_from s = Buffer_from t -> s = t.
Proof.
  revert t. induction s as [|c s IH]; intros [|c' t] H; simpl in H.
  - reflexivity.
  - symmetry in H. now apply utf8_unit_nonempty in H.
  - now apply utf8_unit_nonempty in H.
  - apply utf8_unit_inj in H. destruct H as [-> H]. f_equal. now apply IH.
Qed.

Lemma Buffer_eqb_eq (a b : Buffer) : Buffer_eqb a b = true <-> a = b.
Proof.
  revert b. induction a as [|x a IH]; intros [|y b]; simpl; split; intro H;
    try reflexivity; try discriminate.
  - apply andb_true_iff in H. destruct H as [Hx Hab].
    apply Z.eqb_eq in Hx. apply IH in Hab. now subst.
  - inversion H; subst. rewrite Z.eqb_refl. simpl. now apply IH.
Qed.

Lemma hex_nonempty_prefix (k p : string) :
  exists rest, expected_token k p = String "s" rest.
Proof.
  unfold expected_token. cbn [String.append]. eexists. reflexivity.
Qed.

(** ** The signature verifier *)

(** On strings the verifier is the comparison with the expected token. *)
Lemma verifySignature_strings (payload signature secret : string) :
  verifySignature (VStr payload) (VStr signature) (VStr secret)
  = Normal (String.eqb signature (expected_token secret payload)).
Proof.
  unfold verifySignature, verifySignature_try, createHmac_sha256_hex.
  fold (expected_token secret payload).
  destruct (hex_nonempty_prefix secret payload) as [rest E].
  remember (expected_token secret payload) as expected eqn:Eexp.
  cbn [truthy is_string].
  destruct (String.eqb_spec signature "") as [->|Hne]; cbn [negb orb].
  - rewrite E. reflexivity.
  - unfold timingSafeEqual.
    destruct (Nat.eqb (List.length (Buffer_from signature))
                      (List.length (Buffer_from expected))) eqn:L; cbn [negb].
    + f_equal. destruct (String.eqb_spec signature expected) as [->|Hd].
      * now apply Buffer_eqb_eq.
      * destruct (Buffer_eqb (Buffer_from signature) (Buffer_from expected)) eqn:B;
          [|reflexivity].
        apply Buffer_eqb_eq, Buffer_from_inj in B. contradiction.
    + f_equal. destruct (String.eqb_spec signature expected) as [->|Hd];
        [|reflexivity].
      now rewrite Nat.eqb_refl in L.
Qed.

(** Whatever it is given, the verifier returns a boolean. *)
Lemma verifySignature_total (payload signature secret : value) :
  exists b, verifySignature payload signature secret = Normal b.
Proof.
  unfold verifySignature.
  destruct (verifySignature_try payload signature secret); eauto.
Qed.

(** A token that is falsy or not a string is rejected. *)
Lemma verifySignature_not_a_token (payload signature secret : value) :
  truthy signature = false \/ is_string signature = false ->
  verifySignature payload signature secret = Normal false.
Proof.
  intro H. unfold verifySignature, verifySignature_try.
  destruct (createHmac_sha256_hex secret payload) as [h|e]; [|reflexivity].
  destruct H as [H|H]; rewrite H; cbn [negb orb]; [reflexivity|].
  now rewrite orb_true_r.
Qed.

Lemma eqb_false_of_length (s t : string) :
  String.length s <> String.length t -> String.eqb s t = false.
Proof.
  intro H. destruct (String.eqb_spec s t) as [->|]; [contradiction|reflexivity].
Qed.

Lemma eqb_false_of_byte_length (s t : string) :
  List.length (Buffer_from s) <> List.length (Buffer_from t) -> String.eqb s t = false.
Proof.
  intro H. destruct (String.eqb_spec s t) as [->|]; [contradiction|reflexivity].
Qed.

(** C4.  [verifySignature] never throws: for every payload, token and
    secret, of any type, it returns a boolean; and it returns [false] when
    the token is absent (undefined, or otherwise falsy), when it is not a
    string, and when its length (in characters or in bytes) differs from the
    length of the expected token. *)
Theorem verifySignature_never_throws (payload signature secret : value) :
  (exists b, verifySignature payload signature secret = Normal b)
  /\ (signature = VUndefined -> verifySignature payload signature secret = Normal false)
  /\ (truthy signature = false -> verifySignature payload signature secret = Normal false)
  /\ (is_string signature = false -> verifySignature payload signature secret = Normal false)
  /\ (forall s p k,
        signature = VStr s -> payload = VStr p -> secret = VStr k ->
        String.length s <> String.length (expected_token k p)
        \/ List.length (Buffer_from s) <> List.length (Buffer_from (expected_token k p)) ->
        verifySignature payload signature secret = Normal false).
Proof.
  split; [apply verifySignature_total|].
  split; [intros ->; apply verifySignature_not_a_token; now left|].
  split; [intro H; apply verifySignature_not_a_token; now left|].
  split; [intro H; apply verifySignature_not_a_token; now right|].
  intros s p k -> -> -> H. rewrite verifySignature_strings. f_equal.
  destruct H as [H|H]; [now apply eqb_false_of_length | now apply eqb_false_of_byte_length].
Qed.

(** A token of the wrong length, and an absent one, at the sample secret. *)
Lemma verifySignature_never_throws_witness :
  verifySignature (VStr push_main) (VStr "sha256=00") (VStr "s3cr3t") = Normal false
  /\ verifySignature (VStr push_main) VUndefined (VStr "s3cr3t") = Normal false.
Proof.
  split.
  - destruct (verifySignature_never_throws (VStr push_main) (VStr "sha256=00") (VStr "s3cr3t"))
      as (_ & _ & _ & _ & H).
    apply (H "sha256=00" push_main "s3cr3t" eq_refl eq_refl eq_refl).
    left. vm_compute. discriminate.
  - destruct (verifySignature_never_throws (VStr push_main) VUndefined (VStr "s3cr3t"))
      as (_ & H & _).
    exact (H eq_refl).
Defined.

(** The earlier variant has no such guard: a token of another length makes
    [timingSafeEqual] throw, and the exception leaves the verifier. *)
Lemma Legacy_verifySignature_throws :
  Legacy.verifySignature push_main "sha256=00" "s3cr3t"
  = Thrown (RangeError "Input buffers must have the same byte length").
Proof. vm_compute. reflexivity. Qed.


Lemma set_char_differs (i : nat) (c : ascii) (s : string) :
  (i < String.length s)%nat -> String.get i s <> Some c ->
  take i s +++ String c (drop (S i) s) <> s.
Proof.
  revert i. induction s as [|a s IH]; intros [|i] L G; simpl in *; try lia.
  - intro E. injection E as E. apply G. now rewrite E.
  - intro E. injection E as E. apply (IH i); [lia|assumption|assumption].
Qed.

(** C5.  For every secret and body, [verifySignature] returns [true]
    exactly when the presented token is
    ["sha256=" + hex(HMAC-SHA256(secret, body))]: it accepts that token, it
    rejects every other string, and in particular every string obtained from
    it by changing one character. *)
Theorem verifySignature_accepts_exactly_the_expected_token (secret payload : string) :
  (forall signature : value,
      verifySignature (VStr payload) signature (VStr secret) = Normal true
      <-> signature = VStr (expected_token secret payload))
  /\ verifySignature (VStr payload) (VStr (expected_token secret payload)) (VStr secret)
     = Normal true
  /\ (forall (i : nat) (c : ascii),
        (i < String.length (expected_token secret payload))%nat ->
        String.get i (expected_token secret payload) <> Some c ->
        verifySignature (VStr payload)
          (VStr (take i (expected_token secret payload)
                 +++ String c (drop (S i) (expected_token secret payload))))
          (VStr secret)
        = Normal false).
Proof.
  split; [|split].
  - intro signature. split.
    + intro H. destruct signature as [| |b|n|s|l|fs];
        try (rewrite verifySignature_not_a_token in H by (now right); discriminate).
      rewrite verifySignature_strings in H. injection H as H.
      apply String.eqb_eq in H. now subst.
    + intros ->. rewrite verifySignature_strings. now rewrite String.eqb_refl.
  - rewrite verifySignature_strings. now rewrite String.eqb_refl.
  - intros i c L G. rewrite verifySignature_strings. f_equal.
    apply String.eqb_neq. now apply set_char_differs.
Qed.

(** The sample push is accepted with its token and rejected when the last
    character of the token is replaced. *)
Lemma verifySignature_accepts_exactly_the_expected_token_witness :
  verifySignature (VStr push_main) (VStr (expected_token "s3cr3t" push_main)) (VStr "s3cr3t")
  = Normal true
  /\ verifySignature (VStr push_main)
       (VStr (take 70 (expected_token "s3cr3t" push_main)
              +++ String "0" (drop 71 (expected_token "s3cr3t" push_main))))
       (VStr "s3cr3t")
     = Normal false.
Proof.
  destruct (verifySignature_accepts_exactly_the_expected_token "s3cr3t" push_main)
    as (_ & Haccept & Hreject).
  split.
  - exact Haccept.
  - apply (Hreject 70%nat "0"%char).
    + vm_compute. lia.
    + vm_compute. discriminate.
Defined.

(** ** The branch derivation *)

Lemma replace_first_unfold (pat s : string) :
  replace_first_with_empty pat s
  = if String.prefix pat s then drop (String.length pat) s
    else match s with
         | EmptyString => EmptyString
         | String c s' => String c (replace_first_with_empty pat s')
         end.
Proof. destruct s; reflexivity. Qed.

Lemma first_index_unfold (pat s : string) :
  first_index pat s
  = if String.prefix pat s then Some O
    else match s with
         | EmptyString => None
         | String _ s' => option_map S (first_index pat s')
         end.
Proof. destruct s; reflexivity. Qed.

(** [replace] removes the occurrence at the first index, if there is one. *)
Lemma replace_first_spec (pat s : string) :
  replace_first_with_empty pat s
  = match first_index pat s with
    | Some i => take i s +++ drop (i + String.length pat) s
    | None => s
    end.
Proof.
  induction s as [|c s IH]; rewrite replace_first_unfold, first_index_unfold.
  - destruct (String.prefix pat ""); reflexivity.
  - destruct (String.prefix pat (String c s)); [reflexivity|].
    rewrite IH. destruct (first_index pat s); reflexivity.
Qed.

Lemma prefix_drop_length (pat s : string) :
  String.prefix pat s = true ->
  (String.length (drop (String.length pat) s) + String.length pat = String.length s)%nat.
Proof.
  revert s. induction pat as [|a pat IH]; intros s H; simpl.
  - lia.
  - destruct s as [|b s]; simpl in H; [discriminate|].
    destruct (Ascii.ascii_dec a b); [|discriminate].
    simpl. specialize (IH s H). lia.
Qed.

Lemma replace_first_length (pat s : string) (i : nat) :
  first_index pat s = Some i ->
  (String.length (replace_first_with_empty pat s) + String.length pat = String.length s)%nat.
Proof.
  revert i. induction s as [|c s IH]; intro i;
    rewrite replace_first_unfold, first_index_unfold.
  - destruct (String.prefix pat "") eqn:P; [|discriminate].
    intros _. now apply prefix_drop_length.
  - destruct (String.prefix pat (String c s)) eqn:P.
    + intros _. now apply prefix_drop_length.
    + destruct (first_index pat s) as [j|]; [|discriminate].
      intros _. simpl. specialize (IH j eq_refl). lia.
Qed.

(** The result differs from stripping a leading prefix exactly when the
    pattern occurs in the string without being a prefix of it. *)
Lemma replace_first_vs_strip_prefix (pat s : string) :
  pat <> EmptyString ->
  (replace_first_with_empty pat s <> strip_prefix pat s
   <-> first_index pat s <> None /\ String.prefix pat s = false).
Proof.
  intro Hpat. unfold strip_prefix.
  destruct (String.prefix pat s) eqn:P.
  - split; [intro H; exfalso; apply H|intros [_ H]; discriminate].
    rewrite replace_first_unfold, P. reflexivity.
  - destruct (first_index pat s) as [i|] eqn:F.
    + split; [intros _; split; [discriminate|reflexivity]|intros _ E].
      pose proof (replace_first_length pat s i F) as L. rewrite E in L.
      destruct pat; [contradiction|simpl in L; lia].
    + split; [intro H; exfalso; apply H|intros [H _]; contradiction].
      rewrite replace_first_spec, F. reflexivity.
Qed.

Lemma effective_branch_of_ref (req_body project_branch : value) (c : ascii) (s : string) :
  get_prop req_body "ref" = Normal (VStr (String c s)) ->
  effective_branch req_body project_branch
  = Normal (VStr (replace_first_with_empty "refs/heads/" (String c s))).
Proof.
  intro H. unfold effective_branch. rewrite H. reflexivity.
Qed.

(** C10, as stated, fails: in ["refs/heads/refs/heads/x"] the substring
    occurs twice, yet removing its first occurrence and stripping the
    leading prefix give the same branch. *)
Lemma branch_derivation_counterexample :
  ~ (forall ref : string,
        occurs_elsewhere "refs/heads/" ref = true ->
        effective_branch (VObj [("ref", VStr ref)]) (VStr "main")
        <> Normal (VStr (strip_prefix "refs/heads/" ref))).
Proof.
  intro H. apply (H "refs/heads/refs/heads/x"); reflexivity.
Qed.

(** C10, amended.  The branch derivation removes the first occurrence of
    ["refs/heads/"], wherever it is in the ref, and only that one; the
    result differs from stripping a leading prefix exactly when the
    substring occurs in the ref and the ref does not start with it.  So
    ["refs/heads/refs/heads/x"] yields ["refs/heads/x"] (as prefix stripping
    does) and ["a/refs/heads/b"] yields ["a/b"] (where prefix stripping
    leaves the ref alone). *)
Theorem branch_derivation_removes_first_occurrence :
  (forall (req_body project_branch : value) (c : ascii) (s : string),
      get_prop req_body "ref" = Normal (VStr (String c s)) ->
      effective_branch req_body project_branch
      = Normal (VStr match first_index "refs/heads/" (String c s) with
                     | Some i => take i (String c s) +++ drop (i + 11) (String c s)
                     | None => String c s
                     end))
  /\ (forall ref : string,
        replace_first_with_empty "refs/heads/" ref <> strip_prefix "refs/heads/" ref
        <-> first_index "refs/heads/" ref <> None /\ String.prefix "refs/heads/" ref = false)
  /\ effective_branch (VObj [("ref", VStr "refs/heads/refs/heads/x")]) (VStr "main")
     = Normal (VStr "refs/heads/x")
  /\ effective_branch (VObj [("ref", VStr "a/refs/heads/b")]) (VStr "main")
     = Normal (VStr "a/b")
  /\ strip_prefix "refs/heads/" "a/refs/heads/b" = "a/refs/heads/b".
Proof.
  split; [|split; [|repeat split]].
  - intros req_body project_branch c s H.
    rewrite (effective_branch_of_ref _ _ _ _ H), replace_first_spec. reflexivity.
  - intro ref. apply replace_first_vs_strip_prefix. discriminate.
Qed.

Lemma branch_derivation_removes_first_occurrence_witness :
  effective_branch (VObj [("ref", VStr "x/refs/heads/refs/heads/y")]) (VStr "main")
  = Normal (VStr "x/refs/heads/y").
Proof.
  destruct branch_derivation_removes_first_occurrence as [H _].
  exact (H (VObj [("ref", VStr "x/refs/heads/refs/heads/y")]) (VStr "main")
           "x"%char "/refs/heads/refs/heads/y" eq_refl).
Defined.

(** ** Running programs *)

Lemma run_bind {A B : Type} (W : World) (p : prog A) (f : A -> prog B) (s : State) :
  run W (bind p f) s
  = match run W p s with
    | (Normal a, s') => run W (f a) s'
    | (Thrown e, s') => (Thrown e, s')
    end.
Proof.
  revert s. induction p; intro s; simpl; auto.
Qed.

Lemma run_try_catch {A : Type} (W : World) (p : prog A) (h : error -> prog A) (s : State) :
  run W (try_catch p h) s
  = match run W p s with
    | (Normal a, s') => (Normal a, s')
    | (Thrown e, s') => run W (h e) s'
    end.
Proof.
  revert s. induction p; intro s; simpl; auto.
Qed.

Lemma run_lift {A : Type} (W : World) (c : completion A) (s : State) :
  run W (lift c) s = (c, s).
Proof. destruct c; reflexivity. Qed.

Lemma run_execPromise (W : World) (c d : string) (s : State) :
  run W (execPromise c d) s
  = (exec_settle (child_exec W (history s) c d),
     MkState (isDeploying s) (after W (history s) c d)).
Proof.
  unfold execPromise, after. simpl. apply run_lift.
Qed.

(** The recovery attempt reports the original error, whatever the restart
    does. *)
Lemma run_recovery (W : World) (project : Project) (e : error) (s : State) :
  run W (try_catch
           (execPromise (cmd_restart (pm2Name project)) (dir project) ;; Ret tt)
           (fun restartError => Ret tt) ;;
         (Throw e : prog string)) s
  = recovery W project (isDeploying s) e (history s).
Proof.
  rewrite run_bind, run_try_catch, run_bind, run_execPromise.
  unfold recovery.
  destruct (exec_settle _); reflexivity.
Qed.

(** ** The pipeline *)

Lemma PROJECTS_get_configured (PROJECTS : Projects) (projectName : string) (project : Project) :
  lookup projectName PROJECTS = Some project ->
  PROJECTS_get PROJECTS projectName = Configured project.
Proof. unfold PROJECTS_get. now intros ->. Qed.

Lemma run_build_if_needed (W : World) (project : Project) (s : State) :
  run W (build_if_needed project) s
  = match manifest W (history s) project with
    | Some (Thrown e) => (Thrown e, s)
    | Some (Normal true) =>
        (match exec_settle (child_exec W (history s) cmd_build (dir project)) with
         | Normal _ => Normal tt
         | Thrown e => Thrown e
         end,
         MkState (isDeploying s) (after W (history s) cmd_build (dir project)))
    | Some (Normal false) | None => (Normal tt, s)
    end.
Proof.
  unfold build_if_needed, manifest. simpl.
  destruct (fs_existsSync W (history s) (path_join (dir project) "package.json"));
    [|reflexivity].
  simpl. rewrite run_bind, run_lift.
  destruct (fs_readFile W (history s) (path_join (dir project) "package.json"))
    as [text|e]; [|reflexivity].
  cbn [bind run]. rewrite run_bind, run_lift.
  destruct (JSON_parse_of W text) as [v|e]; [|reflexivity].
  rewrite run_bind, run_lift.
  destruct (declares_build v) as [[|]|e]; try reflexivity.
  cbn [run]. rewrite run_bind, run_lift. unfold after.
  destruct (exec_settle _); reflexivity.
Qed.

(** The code refines the reference pipeline: for a configured project whose
    working directory exists, [deployProject] is the pipeline of the
    specification. *)
Lemma deployProject_refines_pipeline
  (W : World) (PROJECTS : Projects) (projectName : string) (project : Project)
  (br : string) (s : State) :
  lookup projectName PROJECTS = Some project ->
  fs_existsSync W (history s) (dir project) = true ->
  run W (deployProject PROJECTS projectName (VStr br)) s
  = pipeline_reference W project projectName br s.
Proof.
  intros Hp Hd. unfold deployProject.
  rewrite (PROJECTS_get_configured _ _ _ Hp).
  cbn [run]. rewrite Hd. cbn [negb to_string].
  unfold pipeline_reference, primary_step.
  rewrite run_try_catch, run_bind, run_execPromise.
  destruct (exec_settle (child_exec W (history s) cmd_fetch (dir project)));
    [|apply run_recovery].
  rewrite run_bind, run_execPromise. cbn [history isDeploying].
  destruct (exec_settle (child_exec W _ (cmd_reset br) (dir project)));
    [|apply run_recovery].
  rewrite run_bind, run_execPromise. cbn [history isDeploying].
  destruct (exec_settle (child_exec W _ cmd_install (dir project)));
    [|apply run_recovery].
  rewrite run_bind, run_build_if_needed. cbn [history isDeploying].
  destruct (manifest W _ project) as [[[|]|e]|].
  - destruct (exec_settle (child_exec W _ cmd_build (dir project)));
      [|apply run_recovery].
    rewrite run_bind, run_execPromise. cbn [history isDeploying].
    destruct (exec_settle _); [reflexivity|apply run_recovery].
  - rewrite run_bind, run_execPromise. cbn [history isDeploying].
    destruct (exec_settle _); [reflexivity|apply run_recovery].
  - apply run_recovery.
  - rewrite run_bind, run_execPromise. cbn [history isDeploying].
    destruct (exec_settle _); [reflexivity|apply run_recovery].
Qed.

Lemma skipn_length_app {A : Type} (l l' : list A) : skipn (List.length l) (l ++ l') = l'.
Proof. induction l; simpl; auto. Qed.

Lemma succeeded_settle (r : exec_result) :
  succeeded r = true -> exists out, exec_settle r = Normal out.
Proof.
  destruct r as [[[| |]|] out err|e]; simpl; intro H; try discriminate. eauto.
Qed.

Lemma failed_settle (r : exec_result) (out : string) :
  exec_settle r = Normal out -> succeeded r = true.
Proof.
  destruct r as [[[| |]|] o err|e]; simpl; intro H; try discriminate. reflexivity.
Qed.

Lemma settle_thrown (r : exec_result) (e : error) :
  exec_settle r = Thrown e -> succeeded r = false.
Proof.
  destruct r as [[[| |]|] o err|e']; simpl; intro H; try discriminate; reflexivity.
Qed.

Lemma restart_is_no_primary_command (project : Project) (br c : string) :
  In c [cmd_fetch; cmd_reset br; cmd_install; cmd_build] ->
  c <> cmd_restart (pm2Name project).
Proof.
  unfold cmd_fetch, cmd_reset, cmd_install, cmd_build, cmd_restart.
  simpl. intros [<-|[<-|[<-|[<-|[]]]]]; discriminate.
Qed.

Ltac pipeline_cases :=
  unfold pipeline_reference, primary_step, recovery;
  repeat match goal with
    | |- context [match exec_settle ?r with _ => _ end] =>
        let E := fresh "E" in destruct (exec_settle r) eqn:E
    | |- context [match manifest ?W ?h ?p with _ => _ end] =>
        let M := fresh "M" in destruct (manifest W h p) as [[[|]|?]|] eqn:M
    end.

Ltac issued_events :=
  unfold issued, after_install, after_reset, after_fetch, after in *;
  cbn [snd fst history] in *;
  repeat rewrite <- app_assoc in *; cbn [app] in *;
  rewrite ?skipn_length_app in *.







Lemma commands_app (h h' : list event) : commands (h ++ h') = commands h ++ commands h'.
Proof.
  induction h as [|[p g k|c d r] h IH]; simpl; [reflexivity|assumption|now rewrite IH].
Qed.

Ltac first_failure H :=
  repeat match type of H with
    | _ :: _ = ?pre ++ _ :: _ =>
        destruct pre as [|? pre]; cbn [app] in H;
        injection H as ? H; subst;
        cbn [forallb event_succeeded andb] in *
    | [] = ?pre ++ _ :: _ => destruct pre; discriminate H
    end.

(** C3.  Let a configured project's working directory exist, and let one of
    the commands of steps 2 to 5 ([git fetch], [git reset], [npm i],
    [npm run build]) be the first command of the run to fail.  Then nothing
    but the recovery restart is issued after it (the remaining primary steps
    are skipped), [pm2 restart] is issued exactly once in the whole run, and
    [deployProject] throws the error of the failed command, whether the
    recovery restart succeeds or fails. *)
Theorem deployProject_recovers_once_and_reports_the_original_failure
  (W : World) (PROJECTS : Projects) (projectName : string) (project : Project)
  (br : string) (s : State) (pre post : list event) (c : string) (o : exec_result) :
  lookup projectName PROJECTS = Some project ->
  fs_existsSync W (history s) (dir project) = true ->
  issued W (deployProject PROJECTS projectName (VStr br)) s
  = pre ++ EvExec c (dir project) o :: post ->
  forallb event_succeeded pre = true ->
  succeeded o = false ->
  In c [cmd_fetch; cmd_reset br; cmd_install; cmd_build] ->
  (exists o_r, post = [EvExec (cmd_restart (pm2Name project)) (dir project) o_r])
  /\ count_occ string_dec
       (commands (issued W (deployProject PROJECTS projectName (VStr br)) s))
       (cmd_restart (pm2Name project)) = 1%nat
  /\ (exists e, exec_settle o = Thrown e)
  /\ fst (run W (deployProject PROJECTS projectName (VStr br)) s) = exec_settle o.
Proof.
  intros Hp Hd Hi Hpre Ho Hc.
  pose proof (restart_is_no_primary_command project br c Hc) as Hrestart.
  assert (Hthrown : exists e, exec_settle o = Thrown e).
  { destruct (exec_settle o) as [out|e] eqn:E; [|eauto].
    apply failed_settle in E. congruence. }
  rewrite Hi. rewrite commands_app. cbn [commands].
  revert Hi. unfold issued.
  rewrite (deployProject_refines_pipeline W PROJECTS projectName project br s Hp Hd).
  pipeline_cases; issued_events; intro Hi;
    repeat match goal with
      | E : exec_settle _ = Normal _ |- _ => apply failed_settle in E
      | E : exec_settle _ = Thrown _ |- _ =>
          let E' := fresh "F" in pose proof (settle_thrown _ _ E) as E'; revert E
      end; intros;
    first_failure Hi; try congruence;
    try (exfalso; apply Hrestart; reflexivity);
    (split; [eexists; reflexivity|]);
    (split; [|split; [assumption|cbn [fst]; congruence]]);
    cbn [commands app];
    repeat (rewrite count_occ_cons_neq
              by (unfold cmd_fetch, cmd_reset, cmd_install, cmd_build, cmd_restart;
                  cbn [String.append]; discriminate));
    rewrite ?count_occ_cons_eq by reflexivity;
    try rewrite (count_occ_cons_neq _ _ Hrestart);
    reflexivity.
Qed.

(** [npm i] fails on the sample project and the recovery restart fails too:
    the build and the primary restart are skipped, one restart is issued,
    and the error thrown is the one of [npm i]. *)
Lemma deployProject_recovers_once_and_reports_the_original_failure_witness :
  commands (issued world_install_fails (deployProject demo_projects "demo" (VStr "main")) idle)
  = ["git fetch --all"; "git reset --hard origin/main"; "npm i"; "pm2 restart demo"]
  /\ count_occ string_dec
       (commands (issued world_install_fails
                    (deployProject demo_projects "demo" (VStr "main")) idle))
       "pm2 restart demo" = 1%nat
  /\ fst (run world_install_fails (deployProject demo_projects "demo" (VStr "main")) idle)
     = Thrown (Error "Command failed with code 1: ERESOLVE").
Proof.
  destruct (deployProject_recovers_once_and_reports_the_original_failure
              world_install_fails demo_projects "demo" demo "main" idle
              [EvExec "git fetch --all" "/var/www/demo" (Closed (Some 0) "done" "");
               EvExec "git reset --hard origin/main" "/var/www/demo" (Closed (Some 0) "done" "")]
              [EvExec "pm2 restart demo" "/var/www/demo" (Closed (Some 2) "" "not found")]
              "npm i" (Closed (Some 1) "" "ERESOLVE")
              eq_refl eq_refl eq_refl eq_refl eq_refl (or_intror (or_intror (or_introl eq_refl))))
    as (_ & Hcount & _ & Herror).
  split; [vm_compute; reflexivity|].
  split; [exact Hcount|exact Herror].
Defined.

Lemma manifest_thrown (W : World) (h : list event) (project : Project) (e : error) :
  fs_existsSync W h (path_join (dir project) "package.json") = true ->
  (fs_readFile W h (path_join (dir project) "package.json") = Thrown e
   \/ exists text,
        fs_readFile W h (path_join (dir project) "package.json") = Normal text
        /\ (JSON_parse_of W text = Thrown e
            \/ exists packageJson,
                 JSON_parse_of W text = Normal packageJson
                 /\ get_prop packageJson "scripts" = Thrown e)) ->
  manifest W h project = Some (Thrown e).
Proof.
  unfold manifest. intros -> [->|(text & -> & [->|(v & -> & Hg)])]; try reflexivity.
  unfold declares_build. now rewrite Hg.
Qed.

(** X5.  When fetch, reset and install have succeeded and the manifest
    exists but reading it fails, or [JSON.parse] throws on its text, or it
    parses to [null] so that reading [packageJson.scripts] throws, no build
    is run, the recovery restart is issued, and the error thrown by
    [deployProject] is that error, not the restart's. *)
Lemma deployProject_manifest_failure
  (W : World) (PROJECTS : Projects) (projectName : string) (project : Project)
  (br : string) (s : State) (e : error) :
  lookup projectName PROJECTS = Some project ->
  fs_existsSync W (history s) (dir project) = true ->
  succeeded (child_exec W (history s) cmd_fetch (dir project)) = true ->
  succeeded (child_exec W (after_fetch W project (history s)) (cmd_reset br) (dir project)) = true ->
  succeeded (child_exec W (after_reset W project br (history s)) cmd_install (dir project)) = true ->
  fs_existsSync W (after_install W project br (history s))
    (path_join (dir project) "package.json") = true ->
  (fs_readFile W (after_install W project br (history s))
     (path_join (dir project) "package.json") = Thrown e
   \/ exists text,
        fs_readFile W (after_install W project br (history s))
          (path_join (dir project) "package.json") = Normal text
        /\ (JSON_parse_of W text = Thrown e
            \/ exists packageJson,
                 JSON_parse_of W text = Normal packageJson
                 /\ get_prop packageJson "scripts" = Thrown e)) ->
  run W (deployProject PROJECTS projectName (VStr br)) s
  = (Thrown e,
     MkState (isDeploying s)
       (after W (after_install W project br (history s))
          (cmd_restart (pm2Name project)) (dir project))).
Proof.
  intros Hp Hd H1 H2 H3 He Hm.
  pose proof (manifest_thrown W _ project e He Hm) as M.
  rewrite (deployProject_refines_pipeline W PROJECTS projectName project br s Hp Hd).
  unfold pipeline_reference, primary_step, recovery.
  unfold after_install, after_reset, after_fetch in *.
  destruct (succeeded_settle _ H1) as [o1 ->].
  destruct (succeeded_settle _ H2) as [o2 ->].
  destruct (succeeded_settle _ H3) as [o3 ->].
  now rewrite M.
Qed.

(** The earlier variant of the pipeline never starts a command. *)
Lemma Legacy_deployProject_throws_at_once
  (W : World) (PROJECTS : Projects) (projectName : string) (project : Project)
  (b : value) (s : State) :
  lookup projectName PROJECTS = Some project ->
  run W (Legacy.deployProject PROJECTS projectName b) s
  = (Thrown (TypeError "fs.existsSync is not a function"), s).
Proof.
  intro Hp. unfold Legacy.deployProject.
  now rewrite (PROJECTS_get_configured _ _ _ Hp).
Qed.

(** ** The handler *)

(** The handler, one request at a time, in closed form. *)
Lemma run_handler (W : World) (PROJECTS : Projects) (req : Request) (s : State) :
  run W (handler PROJECTS req) s
  = let project := PROJECTS_get PROJECTS (params_projectName req) in
    let signature := header_value (header_x_hub_signature_256 req) in
    let payload := JSON_stringify (body req) in
    match project with
    | Absent => (Normal response_not_found, s)
    | _ =>
        if negb (truthy signature) then (Normal response_invalid_signature, s)
        else
          let s1 := verified s payload signature (project_secret project) in
          match verifySignature payload signature (project_secret project) with
          | Thrown e => (Thrown e, s1)
          | Normal false => (Normal response_invalid_signature, s1)
          | Normal true =>
              match effective_branch (body req) (project_branch project) with
              | Thrown e => (Thrown e, s1)
              | Normal b =>
                  if negb (strict_equal b (project_branch project))
                  then (Normal (response_ignored b (project_branch project)), s1)
                  else if isDeploying s
                  then (Normal (response_failed "Another deployment is in progress"),
                        MkState false (history s1))
                  else
                    match run W (deployProject PROJECTS (params_projectName req) b)
                              (MkState true (history s1)) with
                    | (Normal result, s2) =>
                        (Normal (response_deployed result), MkState false (history s2))
                    | (Thrown e, s2) =>
                        (Normal (response_failed (error_message_or e "Deployment failed")),
                         MkState false (history s2))
                    end
              end
          end
    end.
Proof.
  unfold handler. cbv zeta.
  destruct (PROJECTS_get PROJECTS (params_projectName req)) as [project|k|] eqn:G;
    [| |reflexivity];
    (rewrite run_bind;
     destruct (truthy (header_value (header_x_hub_signature_256 req)));
       cbn [negb run]; [|reflexivity];
     rewrite run_bind, run_lift; fold (verified s (JSON_stringify (body req))
                                         (header_value (header_x_hub_signature_256 req)));
     destruct (verifySignature _ _ _) as [[|]|e]; cbn [run negb]; try reflexivity;
     rewrite run_bind, run_lift;
     destruct (effective_branch _ _) as [b|e]; [|reflexivity];
     destruct (strict_equal b _); cbn [negb run]; [|reflexivity];
     rewrite run_try_catch, run_bind;
     unfold acquireLock; cbn [run verified isDeploying history];
     destruct (isDeploying s); cbn [run]; [reflexivity|];
     rewrite run_bind;
     destruct (run W (deployProject PROJECTS (params_projectName req) b) _) as [[result|e] s2];
     cbn [run]; reflexivity).
Qed.

Lemma quiet_bind {A B : Type} (p : prog A) (f : A -> prog B) :
  quiet p -> (forall a, quiet (f a)) -> quiet (bind p f).
Proof.
  intros Hp Hf. induction p; simpl in *; auto.
Qed.

Lemma quiet_try_catch {A : Type} (p : prog A) (h : error -> prog A) :
  quiet p -> (forall e, quiet (h e)) -> quiet (try_catch p h).
Proof.
  intros Hp Hh. induction p; simpl in *; auto.
Qed.

Lemma quiet_lift {A : Type} (c : completion A) : quiet (lift c).
Proof. destruct c; exact I. Qed.

Lemma quiet_execPromise (c d : string) : quiet (execPromise c d).
Proof. intro r. apply quiet_lift. Qed.

Lemma quiet_build_if_needed (project : Project) : quiet (build_if_needed project).
Proof.
  intros [|]; [|exact I]. intro r.
  apply quiet_bind; [apply quiet_lift|]. intro text.
  apply quiet_bind; [intro parsed; apply quiet_lift|]. intro v.
  apply quiet_bind; [apply quiet_lift|]. intros [|]; [|exact I].
  apply quiet_bind; [apply quiet_execPromise|]. intros _. exact I.
Qed.

Lemma quiet_deployProject (PROJECTS : Projects) (projectName : string) (b : value) :
  quiet (deployProject PROJECTS projectName b).
Proof.
  unfold deployProject.
  destruct (PROJECTS_get PROJECTS projectName) as [project|k|]; try exact I.
  intros [|]; [|exact I]. cbn [negb].
  apply quiet_try_catch.
  - repeat (apply quiet_bind;
            [first [apply quiet_execPromise | apply quiet_build_if_needed]|intros _]).
    exact I.
  - intro e. apply quiet_bind; [|intros _; exact I].
    apply quiet_try_catch; [|intros _; exact I].
    apply quiet_bind; [apply quiet_execPromise|intros _; exact I].
Qed.

Lemma verified_payloads_app (h h' : list event) :
  verified_payloads (h ++ h') = verified_payloads h ++ verified_payloads h'.
Proof.
  induction h as [|[p g k|c d r] h IH]; simpl; [reflexivity|now rewrite IH|assumption].
Qed.

(** A quiet program only adds subprocess events to the history. *)
Lemma run_quiet {A : Type} (W : World) (p : prog A) (s : State) :
  quiet p ->
  exists added, history (snd (run W p s)) = history s ++ added
                /\ verified_payloads added = [].
Proof.
  revert s. induction p as [a|e|k IH|b k IH|ev k IH|path k IH|path k IH|c d k IH|text k IH];
    intros s Hq; simpl in *.
  - exists []. now rewrite app_nil_r.
  - exists []. now rewrite app_nil_r.
  - apply IH, Hq.
  - apply (IH (MkState b (history s))), Hq.
  - contradiction.
  - apply IH, Hq.
  - apply IH, Hq.
  - destruct (IH (child_exec W (history s) c d)
                 (MkState (isDeploying s)
                    (history s ++ [EvExec c d (child_exec W (history s) c d)]))
                 (Hq _)) as (added & H & Hv).
    exists (EvExec c d (child_exec W (history s) c d) :: added).
    split; [|exact Hv]. rewrite H. cbn [history]. now rewrite <- app_assoc.
  - apply IH, Hq.
Qed.

Lemma strict_equal_string (b : value) (x : string) :
  strict_equal b (VStr x) = true <-> b = VStr x.
Proof.
  destruct b; simpl; split; intro H; try discriminate.
  - apply String.eqb_eq in H. now subst.
  - injection H as ->. apply String.eqb_refl.
Qed.

Lemma PROJECTS_get_inherited (PROJECTS : Projects) (projectName : string) :
  lookup projectName PROJECTS = None ->
  mem projectName Object_prototype_keys = true ->
  PROJECTS_get PROJECTS projectName = Inherited projectName.
Proof. unfold PROJECTS_get. now intros -> ->. Qed.

Lemma PROJECTS_get_absent (PROJECTS : Projects) (projectName : string) :
  lookup projectName PROJECTS = None ->
  mem projectName Object_prototype_keys = false ->
  prototype_field PROJECTS projectName = None
  \/ prototype_field PROJECTS projectName = Some EmptyString ->
  PROJECTS_get PROJECTS projectName = Absent.
Proof. unfold PROJECTS_get. now intros -> -> [->| ->]. Qed.

Lemma PROJECTS_get_prototype_field (PROJECTS : Projects) (projectName text : string) :
  lookup projectName PROJECTS = None ->
  mem projectName Object_prototype_keys = false ->
  prototype_field PROJECTS projectName = Some text ->
  text <> EmptyString ->
  PROJECTS_get PROJECTS projectName = Inherited projectName.
Proof.
  unfold PROJECTS_get. intros -> -> -> Hne.
  apply String.eqb_neq in Hne. now rewrite Hne.
Qed.

(** X23.  A name for which [PROJECTS[projectName]] finds nothing truthy,
    neither an own property, nor a built-in of [Object.prototype], nor a
    non-empty field of an entry that has replaced the prototype, is
    answered 404 before the signature is looked at: the state, and with it
    the history, is unchanged.  A name that finds a non-empty field of a
    replaced prototype is not: the handler calls [verifySignature] with the
    secret [undefined] and answers 401. *)
Lemma handler_unknown_project_404
  (W : World) (PROJECTS : Projects) (req : Request) (s : State) :
  lookup (params_projectName req) PROJECTS = None ->
  mem (params_projectName req) Object_prototype_keys = false ->
  (prototype_field PROJECTS (params_projectName req) = None
   \/ prototype_field PROJECTS (params_projectName req) = Some EmptyString ->
   run W (handler PROJECTS req) s = (Normal response_not_found, s))
  /\ (forall text c sig,
        prototype_field PROJECTS (params_projectName req) = Some text ->
        text <> EmptyString ->
        header_x_hub_signature_256 req = Some (String c sig) ->
        run W (handler PROJECTS req) s
        = (Normal response_invalid_signature,
           verified s (JSON_stringify (body req)) (VStr (String c sig)) VUndefined)).
Proof.
  intros Hl Hm. split.
  - intro Hf. rewrite run_handler. cbv zeta.
    now rewrite (PROJECTS_get_absent _ _ Hl Hm Hf).
  - intros text c sig Hf Hne Hh. rewrite run_handler. cbv zeta.
    rewrite (PROJECTS_get_prototype_field _ _ _ Hl Hm Hf Hne), Hh.
    cbn [header_value truthy String.eqb negb project_secret project_field].
    unfold verifySignature, verifySignature_try, createHmac_sha256_hex. reflexivity.
Qed.

(** C9, on the code.  A request that names a built-in of [Object.prototype]
    ([constructor], [toString], [__proto__], ...) names no configured
    project, yet [PROJECTS[projectName]] is truthy for it: the handler does
    not answer 404, it calls [verifySignature] (with the secret [undefined])
    and answers 401.  No subprocess is started. *)
Theorem handler_builtin_name_reaches_signature_check
  (W : World) (PROJECTS : Projects) (projectName : string) (c : ascii) (sig : string)
  (req_body : value) (s : State) :
  lookup projectName PROJECTS = None ->
  mem projectName Object_prototype_keys = true ->
  run W (handler PROJECTS (MkRequest projectName (Some (String c sig)) req_body)) s
  = (Normal response_invalid_signature,
     verified s (JSON_stringify req_body) (VStr (String c sig)) VUndefined).
Proof.
  intros Hl Hm. rewrite run_handler. cbv zeta.
  cbn [params_projectName header_x_hub_signature_256 body].
  rewrite (PROJECTS_get_inherited _ _ Hl Hm).
  cbn [header_value truthy String.eqb negb project_secret project_field].
  unfold verifySignature, verifySignature_try, createHmac_sha256_hex. reflexivity.
Qed.

Lemma handler_builtin_name_reaches_signature_check_witness :
  lookup "constructor" demo_projects = None
  /\ run world_ok
       (handler demo_projects
          (MkRequest "constructor" (Some "sha256=00") (VObj [("ref", VStr "refs/heads/main")])))
       idle
     = (Normal response_invalid_signature,
        MkState false [EvVerify (VStr push_main) (VStr "sha256=00") VUndefined]).
Proof.
  split; [reflexivity|].
  exact (handler_builtin_name_reaches_signature_check
           world_ok demo_projects "constructor" "s" "ha256=00"
           (VObj [("ref", VStr "refs/heads/main")]) idle eq_refl eq_refl).
Defined.

(** ** The branch filter *)

Lemma issued_verified (W : World) (s : State) (p g k : value) :
  skipn (List.length (history s)) (history (verified s p g k)) = [EvVerify p g k].
Proof. unfold verified. cbn [history]. apply skipn_length_app. Qed.

(** The handler on an authenticated request whose effective branch is not
    the configured one. *)
Lemma handler_ignores_other_branch
  (W : World) (PROJECTS : Projects) (req : Request) (s : State)
  (project : Project) (sig : string) (b : value) :
  lookup (params_projectName req) PROJECTS = Some project ->
  header_x_hub_signature_256 req = Some sig ->
  verifySignature (JSON_stringify (body req)) (VStr sig) (VStr (secret project)) = Normal true ->
  effective_branch (body req) (VStr (branch project)) = Normal b ->
  b <> VStr (branch project) ->
  run W (handler PROJECTS req) s
  = (Normal (response_ignored b (VStr (branch project))),
     verified s (JSON_stringify (body req)) (VStr sig) (VStr (secret project))).
Proof.
  intros Hp Hh Hv Hb Hne. rewrite run_handler. cbv zeta.
  rewrite (PROJECTS_get_configured _ _ _ Hp), Hh.
  cbn [header_value project_secret project_branch project_field].
  destruct (truthy (VStr sig)) eqn:T.
  - cbn [negb]. rewrite Hv, Hb.
    destruct (strict_equal b (VStr (branch project))) eqn:E; [|reflexivity].
    apply strict_equal_string in E. contradiction.
  - rewrite verifySignature_not_a_token in Hv by (now left). discriminate.
Qed.

(** C7, as stated, fails: this authenticated push carries the ref
    ["release/refs/heads/v1"], which has no [refs/heads/] prefix to strip
    and so differs from the configured branch ["release/v1"]; the handler
    nevertheless derives ["release/v1"] from it and deploys. *)
Lemma branch_filter_counterexample :
  ~ (forall (W : World) (PROJECTS : Projects) (req : Request) (s : State)
            (project : Project) (sig ref : string),
        lookup (params_projectName req) PROJECTS = Some project ->
        header_x_hub_signature_256 req = Some sig ->
        verifySignature (JSON_stringify (body req)) (VStr sig) (VStr (secret project))
        = Normal true ->
        get_prop (body req) "ref" = Normal (VStr ref) ->
        strip_prefix "refs/heads/" ref <> branch project ->
        fst (run W (handler PROJECTS req) s)
        = Normal (response_ignored (VStr (strip_prefix "refs/heads/" ref))
                    (VStr (branch project)))
        /\ commands (issued W (handler PROJECTS req) s) = []).
Proof.
  intro H.
  destruct (H world_ok staging_projects odd_ref_request idle staging
              (expected_token "s3cr3t" (dq "{'ref':'release/refs/heads/v1'}"))
              "release/refs/heads/v1" eq_refl eq_refl)
    as [_ Hcommands].
  - vm_compute. reflexivity.
  - reflexivity.
  - vm_compute. discriminate.
  - vm_compute in Hcommands. discriminate Hcommands.
Qed.

(** C7, amended.  On an authenticated request the effective branch is the
    body's [ref] with the first occurrence of ["refs/heads/"] removed when
    the ref is a non-empty string (so with that prefix stripped when the ref
    starts with it), and the configured branch when there is no ref, or a
    falsy one; whenever the effective branch differs from the configured
    branch, the handler responds 200 with the no-op message, and no
    subprocess is started. *)
Theorem branch_filter_ignores_other_branches
  (W : World) (PROJECTS : Projects) (req : Request) (s : State)
  (project : Project) (sig : string) :
  lookup (params_projectName req) PROJECTS = Some project ->
  header_x_hub_signature_256 req = Some sig ->
  verifySignature (JSON_stringify (body req)) (VStr sig) (VStr (secret project)) = Normal true ->
  (forall c r,
      get_prop (body req) "ref" = Normal (VStr (String c r)) ->
      effective_branch (body req) (VStr (branch project))
      = Normal (VStr (replace_first_with_empty "refs/heads/" (String c r))))
  /\ (forall r,
        get_prop (body req) "ref" = Normal (VStr r) ->
        String.prefix "refs/heads/" r = true ->
        effective_branch (body req) (VStr (branch project))
        = Normal (VStr (strip_prefix "refs/heads/" r)))
  /\ (forall ref,
        get_prop (body req) "ref" = Normal ref ->
        truthy ref = false ->
        effective_branch (body req) (VStr (branch project)) = Normal (VStr (branch project)))
  /\ (forall b,
        effective_branch (body req) (VStr (branch project)) = Normal b ->
        b <> VStr (branch project) ->
        run W (handler PROJECTS req) s
        = (Normal (response_ignored b (VStr (branch project))),
           verified s (JSON_stringify (body req)) (VStr sig) (VStr (secret project)))
        /\ commands (issued W (handler PROJECTS req) s) = []).
Proof.
  intros Hp Hh Hv. repeat split.
  - intros c r Hr. now apply effective_branch_of_ref.
  - intros r Hr Hpre. destruct r as [|c r]; [discriminate Hpre|].
    rewrite (effective_branch_of_ref _ _ _ _ Hr).
    unfold strip_prefix. rewrite replace_first_unfold. now rewrite Hpre.
  - intros ref Hr Ht. unfold effective_branch. now rewrite Hr, Ht.
  - now apply handler_ignores_other_branch.
  - unfold issued.
    rewrite (handler_ignores_other_branch W PROJECTS req s project sig b Hp Hh Hv H H0).
    cbn [snd]. now rewrite issued_verified.
Qed.

(** The sample project, a push of [feature-x]: 200, no subprocess. *)
Lemma branch_filter_ignores_other_branches_witness :
  run world_ok
    (handler demo_projects
       (MkRequest "demo" (Some (expected_token "s3cr3t" (dq "{'ref':'refs/heads/feature-x'}")))
                  (VObj [("ref", VStr "refs/heads/feature-x")]))) idle
  = (Normal (MkResponse 200
               (VObj [("message", VStr "Ignoring deployment: branch feature-x != main")])),
     MkState false
       [EvVerify (VStr (dq "{'ref':'refs/heads/feature-x'}"))
          (VStr (expected_token "s3cr3t" (dq "{'ref':'refs/heads/feature-x'}")))
          (VStr "s3cr3t")]).
Proof.
  assert (V : verifySignature
                (JSON_stringify (VObj [("ref", VStr "refs/heads/feature-x")]))
                (VStr (expected_token "s3cr3t" (dq "{'ref':'refs/heads/feature-x'}")))
                (VStr "s3cr3t") = Normal true)
    by (vm_compute; reflexivity).
  destruct (branch_filter_ignores_other_branches world_ok demo_projects
              (MkRequest "demo"
                 (Some (expected_token "s3cr3t" (dq "{'ref':'refs/heads/feature-x'}")))
                 (VObj [("ref", VStr "refs/heads/feature-x")]))
              idle demo
              (expected_token "s3cr3t" (dq "{'ref':'refs/heads/feature-x'}"))
              eq_refl eq_refl V)
    as (_ & _ & _ & Hignored).
  destruct (Hignored (VStr "feature-x") eq_refl) as [Hrun _].
  - discriminate.
  - exact Hrun.
Defined.

(** ** The payload of the signature *)

Lemma skipn_length_self {A : Type} (l : list A) : skipn (List.length l) l = [].
Proof. induction l; simpl; auto. Qed.

(** The verifier is called at most once, on [JSON.stringify(req.body)]. *)
Lemma handler_verifies_serialized_body
  (W : World) (PROJECTS : Projects) (req : Request) (s : State) :
  verified_payloads (issued W (handler PROJECTS req) s) = []
  \/ verified_payloads (issued W (handler PROJECTS req) s) = [JSON_stringify (body req)].
Proof.
  unfold issued. rewrite run_handler. cbv zeta.
  destruct (PROJECTS_get PROJECTS (params_projectName req)) as [project|k|];
    [| |left; cbn [snd]; now rewrite skipn_length_self];
    (destruct (truthy (header_value (header_x_hub_signature_256 req)));
       cbn [negb]; [|left; cbn [snd]; now rewrite skipn_length_self];
     right;
     destruct (verifySignature _ _ _) as [[|]|e];
       try (cbn [snd]; now rewrite issued_verified);
     destruct (effective_branch _ _) as [b|e];
       try (cbn [snd]; now rewrite issued_verified);
     destruct (strict_equal b _); cbn [negb];
       try (cbn [snd]; now rewrite issued_verified);
     destruct (isDeploying s);
       [cbn [snd history]; now rewrite issued_verified|];
     match goal with
     | |- context [run W ?p ?s0] =>
         destruct (run_quiet W p s0 (quiet_deployProject _ _ _)) as (added & Hh & Hv);
         destruct (run W p s0) as [[result|e] s2]
     end;
     cbn [snd history] in *; rewrite Hh; unfold verified; cbn [history];
     rewrite <- app_assoc, skipn_length_app; cbn [app verified_payloads];
     now rewrite Hv).
Qed.

(** C2, on the code.  For every request the payload handed to
    [verifySignature] is [JSON.stringify(req.body)], the body re-serialised
    after the JSON middleware has parsed it, not the bytes received.  So a
    sender who signs the bytes sent, as a webhook sender does, is rejected
    whenever those bytes are not the text [JSON.stringify] prints: the push
    of [main] with a space after the colon, carrying the token of exactly
    its bytes, is parsed by the middleware, verified against the compact
    text and answered 401, and nothing is deployed, while the same bytes
    with the token of the compact text, a text that was never sent, are
    deployed. *)
Theorem signature_is_computed_over_the_reserialized_body :
  (forall (W : World) (PROJECTS : Projects) (req : Request) (s : State) (p : value),
      In p (verified_payloads (issued W (handler PROJECTS req) s)) ->
      p = JSON_stringify (body req))
  /\ wire_signature spaced_push
     = Some (expected_token (secret demo) (wire_body spaced_push))
  /\ express_json (wire_body spaced_push) = Some (VObj [("ref", VStr "refs/heads/main")])
  /\ JSON_stringify (VObj [("ref", VStr "refs/heads/main")]) = VStr push_main
  /\ push_main <> wire_body spaced_push
  /\ serve world_ok demo_projects spaced_push idle
     = Some (Normal response_invalid_signature,
             MkState false
               [EvVerify (VStr push_main)
                  (VStr (expected_token "s3cr3t" push_main_spaced)) (VStr "s3cr3t")])
  /\ option_map fst (serve world_ok demo_projects spaced_push_compact_token idle)
     = Some (Normal (response_deployed "Successfully deployed demo")).
Proof.
  split; [|split; [|split; [|split; [|split; [|split]]]]].
  - intros W PROJECTS req s p Hin.
    destruct (handler_verifies_serialized_body W PROJECTS req s) as [E|E];
      rewrite E in Hin; cbn [In] in Hin.
    + contradiction.
    + destruct Hin as [<-|[]]. reflexivity.
  - reflexivity.
  - vm_compute. reflexivity.
  - vm_compute. reflexivity.
  - vm_compute. discriminate.
  - vm_compute. reflexivity.
  - vm_compute. reflexivity.
Qed.

(** ** The lock *)

(** C8.  When the handling of a request completes with a pipeline outcome
    (a response carrying [success], [true] or [false]), the lock is free,
    whatever the outcome, and whatever the state of the lock was when the
    request arrived; and a lock that is free when a request arrives is free
    when its handling completes, whatever the request. *)
Theorem lock_is_free_after_handling
  (W : World) (PROJECTS : Projects) (req : Request) (s : State) :
  (forall r,
      fst (run W (handler PROJECTS req) s) = Normal r ->
      has_success_field r = true ->
      isDeploying (snd (run W (handler PROJECTS req) s)) = false)
  /\ (isDeploying s = false ->
      isDeploying (snd (run W (handler PROJECTS req) s)) = false).
Proof.
  rewrite run_handler. cbv zeta.
  destruct (PROJECTS_get PROJECTS (params_projectName req)) as [project|k|];
    (split; [intros r Hr Hs|intro Hfree]);
    repeat match goal with
      | H : fst (match ?x with _ => _ end) = _ |- _ => destruct x eqn:?
      | H : fst (if ?x then _ else _) = _ |- _ => destruct x eqn:?
      | |- context [match ?x with _ => _ end] => destruct x eqn:?
      | |- context [if ?x then _ else _] => destruct x eqn:?
      end;
    cbn [fst snd isDeploying verified] in *;
    try reflexivity; try assumption; try discriminate;
    try (injection Hr as <-; discriminate Hs).
Qed.

(** The sample push: deployed, and the lock is free afterwards; and when
    [npm i] fails, the outcome is a failure and the lock is free as well. *)
Lemma lock_is_free_after_handling_witness :
  isDeploying (snd (run world_ok (handler demo_projects push_main_request) idle)) = false
  /\ isDeploying (snd (run world_install_fails (handler demo_projects push_main_request) idle))
     = false.
Proof.
  split.
  - destruct (lock_is_free_after_handling world_ok demo_projects push_main_request idle)
      as [Houtcome _].
    apply (Houtcome (response_deployed "Successfully deployed demo")).
    + vm_compute. reflexivity.
    + reflexivity.
  - destruct (lock_is_free_after_handling world_install_fails demo_projects
                push_main_request idle) as [Houtcome _].
    apply (Houtcome (response_failed "Command failed with code 1: ERESOLVE")).
    + vm_compute. reflexivity.
    + reflexivity.
Defined.

(** X25.  A request that passes the filters while the lock is held is
    answered with the in-progress error, and its handler clears the lock on the
    way out: the [catch] block that serves the failures of the pipeline also
    serves the rejection by [acquireLock]. *)
Lemma handler_rejection_clears_the_lock
  (W : World) (PROJECTS : Projects) (req : Request) (s : State)
  (project : Project) (sig : string) :
  lookup (params_projectName req) PROJECTS = Some project ->
  header_x_hub_signature_256 req = Some sig ->
  verifySignature (JSON_stringify (body req)) (VStr sig) (VStr (secret project)) = Normal true ->
  effective_branch (body req) (VStr (branch project)) = Normal (VStr (branch project)) ->
  isDeploying s = true ->
  run W (handler PROJECTS req) s
  = (Normal (response_failed "Another deployment is in progress"),
     MkState false
       (history s ++ [EvVerify (JSON_stringify (body req)) (VStr sig) (VStr (secret project))])).
Proof.
  intros Hp Hh Hv Hb Hheld. rewrite run_handler. cbv zeta.
  rewrite (PROJECTS_get_configured _ _ _ Hp), Hh.
  cbn [header_value project_secret project_branch project_field].
  destruct (truthy (VStr sig)) eqn:T.
  - cbn [negb]. rewrite Hv, Hb. cbn [strict_equal]. rewrite String.eqb_refl.
    cbn [negb]. now rewrite Hheld.
  - rewrite verifySignature_not_a_token in Hv by (now left). discriminate.
Qed.

(** C1, on the code.  Three pushes of [main] arrive while the first one's
    [git fetch] is running.  The second is rejected with the in-progress
    error, but its handler releases the lock the first one holds: after it,
    one pipeline is in flight and the lock is free.  The third request then
    acquires the lock, and two pipelines are in flight at once. *)
Theorem rejected_request_releases_the_lock_of_the_running_deployment :
  option_map (fun l => map finished (tasks l))
             (loop_run world_ok demo_projects fresh_loop two_pushes)
  = Some [None; Some (Normal (response_failed "Another deployment is in progress"))]
  /\ option_map active_pipelines (loop_run world_ok demo_projects fresh_loop two_pushes)
     = Some 1%nat
  /\ option_map (fun l => isDeploying (process l))
                (loop_run world_ok demo_projects fresh_loop two_pushes)
     = Some false
  /\ option_map active_pipelines (loop_run world_ok demo_projects fresh_loop three_pushes)
     = Some 2%nat.
Proof.
  split; [|split; [|split]]; vm_compute; reflexivity.
Qed.

(** *** The lock in the event loop *)

Lemma releases_pipeline_outcome (q : prog string) (free : bool) :
  releases free
    (try_catch
       (result <- q ;; releaseLock ;; Ret (response_deployed result))
       (fun error =>
          releaseLock ;;
          Ret (response_failed (error_message_or error "Deployment failed")))).
Proof.
  revert free. induction q; intro free; simpl; auto.
Qed.

Lemma handler_releases (PROJECTS : Projects) (req : Request) :
  releases false (handler PROJECTS req).
Proof.
  unfold handler. cbv zeta.
  destruct (PROJECTS_get PROJECTS (params_projectName req)) as [project|k|];
    [| |simpl; discriminate];
    (destruct (truthy (header_value (header_x_hub_signature_256 req)));
       cbn [negb bind releases]; [|simpl; discriminate];
     destruct (verifySignature _ _ _) as [[|]|e]; cbn [lift bind negb releases];
       [|simpl; discriminate|exact I];
     destruct (effective_branch _ _) as [b|e]; cbn [lift bind releases]; [|exact I];
     destruct (strict_equal b _); cbn [negb releases]; [|simpl; discriminate];
     unfold acquireLock; cbn [bind try_catch releases];
     intros [|]; cbn [bind try_catch releases negb];
       [simpl; reflexivity|apply releases_pipeline_outcome]).
Qed.

(** Running a task to its next await, or to its end. *)
Lemma advance_releases (W : World) (p : prog Response) (s : State) (free : bool) :
  releases free p ->
  (free = true -> isDeploying s = false) ->
  match fst (advance W p s) with
  | Ret r => has_success_field r = true -> isDeploying (snd (advance W p s)) = false
  | AwaitExec _ _ k => forall r, releases false (k r)
  | AwaitReadFile _ k => forall r, releases false (k r)
  | _ => True
  end.
Proof.
  revert s free.
  induction p as [a|e|k IH|b k IH|ev k IH|path k IH|path k IH|c d k IH|text k IH];
    intros s free Hr Hf; cbn [advance fst snd releases] in *; auto.
  - exact (IH _ s free (Hr _) Hf).
  - apply (IH (MkState b (history s)) (negb b) Hr).
    cbn [isDeploying]. destruct b; [discriminate|reflexivity].
  - apply (IH (MkState (isDeploying s) (history s ++ [ev])) free Hr). exact Hf.
  - exact (IH _ s free (Hr _) Hf).
  - exact (IH _ s free (Hr _) Hf).
Qed.

Lemma advance_task_ok (W : World) (p : prog Response) (s : State) :
  releases false p ->
  task_ok (fst (advance W p s))
  /\ (forall r, fst (advance W p s) = Ret r -> has_success_field r = true ->
                isDeploying (snd (advance W p s)) = false).
Proof.
  intro Hr.
  pose proof (advance_releases W p s false Hr (fun H => False_ind _ (diff_false_true H))) as H.
  destruct (fst (advance W p s)); split; try exact I; try exact H;
    try (intros r0 E; discriminate E).
  intros r0 E. injection E as <-. exact H.
Qed.

Lemma Forall_set_nth {A : Type} (P : A -> Prop) (i : nat) (a : A) (l : list A) :
  Forall P l -> P a -> Forall P (set_nth i a l).
Proof.
  intros Hl Ha. revert i. induction Hl as [|x l Hx Hl IH]; intros [|i]; simpl;
    constructor; auto.
Qed.

Lemma nth_error_set_nth {A : Type} (i : nat) (a x : A) (l : list A) :
  nth_error l i = Some x -> nth_error (set_nth i a l) i = Some a.
Proof.
  revert i. induction l as [|y l IH]; intros [|i]; simpl; intro H;
    try discriminate; auto.
Qed.

Lemma nth_error_snoc {A : Type} (l : list A) (a : A) :
  nth_error (l ++ [a]) (List.length l) = Some a.
Proof. induction l; simpl; auto. Qed.

(** In the event loop: whichever requests are in flight, the step in which a
    task completes with a pipeline outcome leaves the lock free, and the
    tasks that remain suspended will do the same when they complete. *)
Lemma loop_step_releases
  (W : World) (PROJECTS : Projects) (l l' : Loop) (a : action) :
  Forall task_ok (tasks l) ->
  loop_step W PROJECTS l a = Some l' ->
  Forall task_ok (tasks l')
  /\ (forall r,
        nth_error (tasks l') (stepped_task l a) = Some (Ret r) ->
        has_success_field r = true ->
        isDeploying (process l') = false).
Proof.
  intros Hok Hstep. destruct a as [req|i o|i o]; cbn [loop_step stepped_task] in *.
  - destruct (advance_task_ok W (handler PROJECTS req) (process l)
                (handler_releases PROJECTS req)) as [Ht Hfree].
    destruct (advance W (handler PROJECTS req) (process l)) as [p s].
    injection Hstep as <-. cbn [tasks process fst snd] in *. split.
    + apply Forall_app. split; [exact Hok|]. constructor; [exact Ht|constructor].
    + intros r Hn. rewrite nth_error_snoc in Hn. injection Hn as ->. now apply Hfree.
  - destruct (nth_error (tasks l) i) as [[ | | | | | | |c d k| ]|] eqn:E; try discriminate.
    pose proof (proj1 (Forall_forall _ _) Hok _ (nth_error_In _ _ E)) as Hk.
    cbn [task_ok] in Hk.
    destruct (advance_task_ok W (k o)
                (MkState (isDeploying (process l))
                   (history (process l) ++ [EvExec c d o])) (Hk o)) as [Ht Hfree].
    destruct (advance W (k o) _) as [p s].
    injection Hstep as <-. cbn [tasks process fst snd] in *. split.
    + now apply Forall_set_nth.
    + intros r Hn. rewrite (nth_error_set_nth _ _ _ _ E) in Hn.
      injection Hn as ->. now apply Hfree.
  - destruct (nth_error (tasks l) i) as [[ | | | | | |path k| | ]|] eqn:E; try discriminate.
    pose proof (proj1 (Forall_forall _ _) Hok _ (nth_error_In _ _ E)) as Hk.
    cbn [task_ok] in Hk.
    destruct (advance_task_ok W (k o) (process l) (Hk o)) as [Ht Hfree].
    destruct (advance W (k o) (process l)) as [p s].
    injection Hstep as <-. cbn [tasks process fst snd] in *. split.
    + now apply Forall_set_nth.
    + intros r Hn. rewrite (nth_error_set_nth _ _ _ _ E) in Hn.
      injection Hn as ->. now apply Hfree.
Qed.

Lemma loop_run_task_ok
  (W : World) (PROJECTS : Projects) (sched : list action) (l l' : Loop) :
  Forall task_ok (tasks l) ->
  loop_run W PROJECTS l sched = Some l' ->
  Forall task_ok (tasks l').
Proof.
  revert l. induction sched as [|a sched IH]; intros l Hok Hrun; simpl in Hrun.
  - injection Hrun as <-. exact Hok.
  - destruct (loop_step W PROJECTS l a) as [l1|] eqn:E; [|discriminate].
    apply (IH l1); [|exact Hrun].
    now destruct (loop_step_releases W PROJECTS l l1 a Hok E).
Qed.

(** X26.  After any schedule of arrivals and completions, the step that
    completes a task with a pipeline outcome leaves the lock free. *)
Lemma loop_lock_free_on_completion
  (W : World) (PROJECTS : Projects) (sched : list action) (a : action)
  (l l' : Loop) (r : Response) :
  loop_run W PROJECTS fresh_loop sched = Some l ->
  loop_step W PROJECTS l a = Some l' ->
  nth_error (tasks l') (stepped_task l a) = Some (Ret r) ->
  has_success_field r = true ->
  isDeploying (process l') = false.
Proof.
  intros Hrun Hstep Hr Hs.
  assert (Hok : Forall task_ok (tasks l))
    by (apply (loop_run_task_ok W PROJECTS sched fresh_loop l); [constructor|exact Hrun]).
  destruct (loop_step_releases W PROJECTS l l' a Hok Hstep) as [_ H].
  now apply (H r).
Qed.

(** ** The endpoint on the sample project *)

(** A push of the configured branch with its token: the five commands, in
    order, and the response 200. *)
Example push_main_deploys :
  option_map (fun r => (fst r, commands (history (snd r))))
    (serve world_ok demo_projects
       (MkWire "demo" (Some (expected_token "s3cr3t" push_main)) push_main) idle)
  = Some (Normal (response_deployed "Successfully deployed demo"),
          ["git fetch --all"; "git reset --hard origin/main"; "npm i"; "npm run build";
           "pm2 restart demo"]).
Proof. vm_compute. reflexivity. Qed.

(** A token that does not match: 401, one verification, no subprocess. *)
Example tampered_signature_is_rejected :
  serve world_ok demo_projects (MkWire "demo" (Some "sha256=00") push_main) idle
  = Some (Normal response_invalid_signature,
          MkState false [EvVerify (VStr push_main) (VStr "sha256=00") (VStr "s3cr3t")]).
Proof. vm_compute. reflexivity. Qed.

(** An unknown project: 404, nothing verified, no subprocess. *)
Example unknown_project_is_not_found :
  serve world_ok demo_projects (MkWire "nope" (Some "sha256=00") push_main) idle
  = Some (Normal response_not_found, idle).
Proof. vm_compute. reflexivity. Qed.

(** A manifest beyond the modelled fragment of JSON is parsed by the
    runtime, and its build step is run. *)
Example manifest_beyond_the_fragment_builds :
  JSON_parse fractional_manifest = None
  /\ fst (run world_fractional_manifest (deployProject demo_projects "demo" (VStr "main")) idle)
     = Normal "Successfully deployed demo"
  /\ commands (issued world_fractional_manifest
                 (deployProject demo_projects "demo" (VStr "main")) idle)
     = ["git fetch --all"; "git reset --hard origin/main"; "npm i"; "npm run build";
        "pm2 restart demo"].
Proof. split; [|split]; vm_compute; reflexivity. Qed.

(** The configuration [proto_config] as the handler reads it: the entry
    under the key [__proto__] is no own property of [PROJECTS], it has
    replaced the prototype. *)
Example proto_config_replaces_the_prototype :
  match load_projects (Some proto_config) with
  | Started st =>
      map fst (own st) = ["shop"]
      /\ PROJECTS_of st = Some projects_with_prototype
  | Exited _ => False
  end.
Proof. vm_compute. split; reflexivity. Qed.

(** A configuration key [__proto__] makes the name [__proto__] deployable:
    [PROJECTS['__proto__']] is the entry that has replaced the prototype. *)
Example prototype_entry_is_deployable :
  fst (run world_ok
         (handler projects_with_prototype
            (MkRequest "__proto__" (Some (expected_token "k3" push_main))
               (VObj [("ref", VStr "refs/heads/main")])))
         idle)
  = Normal (response_deployed "Successfully deployed __proto__").
Proof. vm_compute. reflexivity. Qed.

(** X24.  An authenticated push whose [ref] is truthy and not a string:
    [req.body.ref.replace] is not a function, the handler throws outside its
    [try] and sends no response. *)
Lemma handler_throws_on_non_string_ref
  (W : World) (PROJECTS : Projects) (req : Request) (s : State)
  (project : Project) (sig : string) (ref : value) :
  lookup (params_projectName req) PROJECTS = Some project ->
  header_x_hub_signature_256 req = Some sig ->
  verifySignature (JSON_stringify (body req)) (VStr sig) (VStr (secret project)) = Normal true ->
  get_prop (body req) "ref" = Normal ref ->
  truthy ref = true ->
  is_string ref = false ->
  run W (handler PROJECTS req) s
  = (Thrown (TypeError "req.body.ref.replace is not a function"),
     verified s (JSON_stringify (body req)) (VStr sig) (VStr (secret project))).
Proof.
  intros Hp Hh Hv Hr Ht Hs. rewrite run_handler. cbv zeta.
  rewrite (PROJECTS_get_configured _ _ _ Hp), Hh.
  cbn [header_value project_secret project_branch project_field].
  destruct (truthy (VStr sig)) eqn:T.
  - cbn [negb]. rewrite Hv. unfold effective_branch. rewrite Hr, Ht.
    destruct ref; try reflexivity; discriminate Hs.
  - rewrite verifySignature_not_a_token in Hv by (now left). discriminate.
Qed.

(* ===================================================================== *)
(** * Part VI.  Further properties of the code                            *)
(* ===================================================================== *)

(** ** The pipeline: preconditions, restart, command lines *)

(** X1.  [deployProject] checks the project and its directory before the
    [try] block: for a configured project whose directory does not exist it
    throws "Project directory <dir> does not exist", and for a name for
    which [PROJECTS[projectName]] finds nothing truthy (no own property, no
    built-in of [Object.prototype], no non-empty field of an entry that has
    replaced the prototype) it throws "Project <name> not configured"; in
    both cases the state is unchanged: no subprocess is started, not even
    the recovery restart. *)
Theorem deployProject_refuses_before_any_command
  (W : World) (PROJECTS : Projects) (projectName : string) (b : value) (s : State) :
  (forall project,
      lookup projectName PROJECTS = Some project ->
      fs_existsSync W (history s) (dir project) = false ->
      run W (deployProject PROJECTS projectName b) s
      = (Thrown (Error ("Project directory " +++ dir project +++ " does not exist")), s))
  /\ (lookup projectName PROJECTS = None ->
      mem projectName Object_prototype_keys = false ->
      prototype_field PROJECTS projectName = None
      \/ prototype_field PROJECTS projectName = Some EmptyString ->
      run W (deployProject PROJECTS projectName b) s
      = (Thrown (Error ("Project " +++ projectName +++ " not configured")), s)).
Proof.
  split.
  - intros project Hp Hd. unfold deployProject.
    rewrite (PROJECTS_get_configured _ _ _ Hp). cbn [run]. now rewrite Hd.
  - intros Hl Hm Hf. unfold deployProject.
    now rewrite (PROJECTS_get_absent _ _ Hl Hm Hf).
Qed.

Lemma deployProject_refuses_before_any_command_witness :
  run world_empty (deployProject demo_projects "demo" (VStr "main")) idle
  = (Thrown (Error "Project directory /var/www/demo does not exist"), idle)
  /\ run world_empty (deployProject demo_projects "other" (VStr "main")) idle
     = (Thrown (Error "Project other not configured"), idle).
Proof.
  destruct (deployProject_refuses_before_any_command
              world_empty demo_projects "demo" (VStr "main") idle) as [Hdir _].
  destruct (deployProject_refuses_before_any_command
              world_empty demo_projects "other" (VStr "main") idle) as [_ Hname].
  split.
  - exact (Hdir demo eq_refl eq_refl).
  - exact (Hname eq_refl eq_refl (or_introl eq_refl)).
Defined.

(** X2.  When every step before it has succeeded and the primary
    [pm2 restart] fails, the recovery attempt issues the same restart a
    second time, and [deployProject] throws the error of the first one,
    whatever the second one does. *)
Theorem deployProject_retries_a_failed_restart_once
  (W : World) (PROJECTS : Projects) (projectName : string) (project : Project)
  (br : string) (s : State) (e : error) :
  lookup projectName PROJECTS = Some project ->
  fs_existsSync W (history s) (dir project) = true ->
  succeeded (child_exec W (history s) cmd_fetch (dir project)) = true ->
  succeeded (child_exec W (after_fetch W project (history s)) (cmd_reset br) (dir project)) = true ->
  succeeded (child_exec W (after_reset W project br (history s)) cmd_install (dir project)) = true ->
  (forall e', manifest W (after_install W project br (history s)) project <> Some (Thrown e')) ->
  (builds W project (after_install W project br (history s)) = true ->
   succeeded (child_exec W (after_install W project br (history s)) cmd_build (dir project))
   = true) ->
  exec_settle (child_exec W (before_restart W project br (history s))
                 (cmd_restart (pm2Name project)) (dir project)) = Thrown e ->
  run W (deployProject PROJECTS projectName (VStr br)) s
  = (Thrown e,
     MkState (isDeploying s)
       (after W (after W (before_restart W project br (history s))
                   (cmd_restart (pm2Name project)) (dir project))
              (cmd_restart (pm2Name project)) (dir project))).
Proof.
  intros Hp Hd H1 H2 H3 Hm Hb Hr.
  rewrite (deployProject_refines_pipeline W PROJECTS projectName project br s Hp Hd).
  unfold pipeline_reference, primary_step, recovery.
  unfold before_restart, builds, after_install, after_reset, after_fetch in *.
  destruct (succeeded_settle _ H1) as [o1 ->].
  destruct (succeeded_settle _ H2) as [o2 ->].
  destruct (succeeded_settle _ H3) as [o3 ->].
  destruct (manifest W _ project) as [[[|]|e']|].
  - destruct (succeeded_settle _ (Hb eq_refl)) as [o4 ->]. now rewrite Hr.
  - now rewrite Hr.
  - exfalso. now apply (Hm e').
  - now rewrite Hr.
Qed.

Lemma deployProject_retries_a_failed_restart_once_witness :
  fst (run world_restart_fails (deployProject demo_projects "demo" (VStr "main")) idle)
  = Thrown (Error "Command failed with code 1: process not found")
  /\ commands (history (snd (run world_restart_fails
                               (deployProject demo_projects "demo" (VStr "main")) idle)))
     = ["git fetch --all"; "git reset --hard origin/main"; "npm i";
        "pm2 restart demo"; "pm2 restart demo"].
Proof.
  assert (M : forall e', manifest world_restart_fails
                           (after_install world_restart_fails demo "main" (history idle)) demo
                         <> Some (Thrown e'))
    by (intro e'; vm_compute; discriminate).
  assert (B : builds world_restart_fails demo
                (after_install world_restart_fails demo "main" (history idle)) = true ->
              succeeded (child_exec world_restart_fails
                           (after_install world_restart_fails demo "main" (history idle))
                           cmd_build (dir demo)) = true)
    by (intros _; reflexivity).
  pose proof (deployProject_retries_a_failed_restart_once
                world_restart_fails demo_projects "demo" demo "main" idle
                (Error "Command failed with code 1: process not found")
                eq_refl eq_refl eq_refl eq_refl eq_refl M B eq_refl) as H.
  rewrite H. split; [reflexivity|vm_compute; reflexivity].
Defined.

Lemma issued_unchanged {A : Type} (W : World) (p : prog A) (s : State) (c : completion A) :
  run W p s = (c, s) -> issued W p s = [].
Proof.
  intro H. unfold issued. rewrite H. cbn [snd]. apply skipn_length_self.
Qed.





(** The manifest of the sample project cannot be read: the three steps, the
    recovery restart, and the error of the read. *)
Lemma deployProject_manifest_failure_witness :
  run world_unreadable_manifest (deployProject demo_projects "demo" (VStr "main")) idle
  = (Thrown (Error "EACCES: permission denied, open '/var/www/demo/package.json'"),
     MkState false
       [EvExec "git fetch --all" "/var/www/demo" (Closed (Some 0) "done" "");
        EvExec "git reset --hard origin/main" "/var/www/demo" (Closed (Some 0) "done" "");
        EvExec "npm i" "/var/www/demo" (Closed (Some 0) "done" "");
        EvExec "pm2 restart demo" "/var/www/demo" (Closed (Some 0) "done" "")]).
Proof.
  exact (deployProject_manifest_failure
           world_unreadable_manifest demo_projects "demo" demo "main" idle
           (Error "EACCES: permission denied, open '/var/www/demo/package.json'")
           eq_refl eq_refl eq_refl eq_refl eq_refl eq_refl (or_introl eq_refl)).
Defined.

(** ** The handler: who can start what *)

(** The history only grows: a run appends the events it issues. *)
Lemma run_extends {A : Type} (W : World) (p : prog A) (s : State) :
  history (snd (run W p s)) = history s ++ issued W p s.
Proof.
  assert (H : exists added, history (snd (run W p s)) = history s ++ added).
  { revert s. induction p as [a|e|k IH|b k IH|ev k IH|path k IH|path k IH|c d k IH|text k IH];
      intro s; cbn [run snd].
    - exists []. now rewrite app_nil_r.
    - exists []. now rewrite app_nil_r.
    - apply IH.
    - apply (IH (MkState b (history s))).
    - destruct (IH (MkState (isDeploying s) (history s ++ [ev]))) as [added H].
      exists (ev :: added). rewrite H. cbn [history]. now rewrite <- app_assoc.
    - apply IH.
    - apply IH.
    - destruct (IH (child_exec W (history s) c d)
                   (MkState (isDeploying s)
                      (history s ++ [EvExec c d (child_exec W (history s) c d)])))
        as [added H].
      exists (EvExec c d (child_exec W (history s) c d) :: added).
      rewrite H. cbn [history]. now rewrite <- app_assoc.
    - apply IH. }
  destruct H as [added H]. unfold issued. rewrite H. now rewrite skipn_length_app.
Qed.

Lemma PROJECTS_get_configured_inv (PROJECTS : Projects) (projectName : string) (project : Project) :
  PROJECTS_get PROJECTS projectName = Configured project ->
  lookup projectName PROJECTS = Some project.
Proof.
  unfold PROJECTS_get. destruct (lookup projectName PROJECTS) as [p|].
  - now intros [= ->].
  - destruct (mem projectName Object_prototype_keys); [discriminate|].
    destruct (prototype_field PROJECTS projectName) as [text|]; [|discriminate].
    destruct (String.eqb text ""); discriminate.
Qed.

(** Without a string secret, or without a string payload, nothing verifies. *)
Lemma verifySignature_needs_strings (payload signature secret : value) :
  is_string payload = false \/ is_string secret = false ->
  verifySignature payload signature secret = Normal false.
Proof.
  unfold verifySignature, verifySignature_try, createHmac_sha256_hex.
  intros [H|H].
  - destruct secret; try reflexivity. destruct payload; try reflexivity; discriminate H.
  - destruct secret; try reflexivity. discriminate H.
Qed.

Lemma commands_verified (s : State) (p g k : value) :
  commands (skipn (List.length (history s)) (history (verified s p g k))) = [].
Proof. unfold verified. cbn [history]. now rewrite skipn_length_app. Qed.

(** X6.  The handler starts a subprocess only when [PROJECTS[projectName]]
    is a project record (an own property of [PROJECTS], or, under the name
    [__proto__], the entry that has replaced its prototype), on a request
    whose signature header is exactly the expected token of
    [JSON.stringify(req.body)] under that record's secret, whose effective
    branch is the record's branch, and which arrives while the lock is
    free. *)
Theorem handler_starts_commands_only_for_an_authenticated_push
  (W : World) (PROJECTS : Projects) (req : Request) (s : State) :
  commands (issued W (handler PROJECTS req) s) <> [] ->
  exists project payload,
    lookup (params_projectName req) PROJECTS = Some project
    /\ JSON_stringify (body req) = VStr payload
    /\ header_x_hub_signature_256 req = Some (expected_token (secret project) payload)
    /\ effective_branch (body req) (VStr (branch project)) = Normal (VStr (branch project))
    /\ isDeploying s = false.
Proof.
  unfold issued. rewrite run_handler. cbv zeta.
  destruct (PROJECTS_get PROJECTS (params_projectName req)) as [project|k|] eqn:G.
  - apply PROJECTS_get_configured_inv in G.
    cbn [project_secret project_branch project_field].
    destruct (header_x_hub_signature_256 req) as [sig|]; cbn [header_value];
      [|cbn [truthy negb snd]; rewrite skipn_length_self; intro H; now elim H].
    destruct (truthy (VStr sig)); cbn [negb];
      [|cbn [snd]; rewrite skipn_length_self; intro H; now elim H].
    destruct (JSON_stringify (body req)) as [| |x|x|payload|x|x] eqn:P;
      try (rewrite verifySignature_needs_strings by (now left);
           cbn [snd]; rewrite commands_verified; intro H; now elim H).
    rewrite verifySignature_strings.
    destruct (String.eqb_spec sig (expected_token (secret project) payload)) as [->|Hne];
      [|cbn [snd]; rewrite commands_verified; intro H; now elim H].
    destruct (effective_branch (body req) (VStr (branch project))) as [b|e] eqn:B;
      [|cbn [snd]; rewrite commands_verified; intro H; now elim H].
    destruct (strict_equal b (VStr (branch project))) eqn:E; cbn [negb];
      [|cbn [snd]; rewrite commands_verified; intro H; now elim H].
    apply strict_equal_string in E. subst b.
    destruct (isDeploying s);
      [cbn [snd history]; rewrite commands_verified; intro H; now elim H|].
    intros _. exists project, payload. repeat split; try reflexivity; assumption.
  - cbn [project_secret project_field].
    destruct (truthy (header_value (header_x_hub_signature_256 req))); cbn [negb];
      [|cbn [snd]; rewrite skipn_length_self; intro H; now elim H].
    rewrite verifySignature_needs_strings by (now right).
    cbn [snd]. rewrite commands_verified. intro H. now elim H.
  - cbn [snd]. rewrite skipn_length_self. intro H. now elim H.
Qed.

Lemma handler_starts_commands_only_for_an_authenticated_push_witness :
  exists project payload,
    lookup "demo" demo_projects = Some project
    /\ JSON_stringify (VObj [("ref", VStr "refs/heads/main")]) = VStr payload
    /\ Some (expected_token "s3cr3t" push_main) = Some (expected_token (secret project) payload)
    /\ effective_branch (VObj [("ref", VStr "refs/heads/main")]) (VStr (branch project))
       = Normal (VStr (branch project))
    /\ false = false.
Proof.
  apply (handler_starts_commands_only_for_an_authenticated_push
           world_ok demo_projects push_main_request idle).
  vm_compute. discriminate.
Defined.

Lemma deployProject_from_configuration
  (W : World) (PROJECTS : Projects) (projectName : string) (project : Project) (s : State) :
  lookup projectName PROJECTS = Some project ->
  Forall (from_configuration project)
         (issued W (deployProject PROJECTS projectName (VStr (branch project))) s).
Proof.
  intro Hp.
  destruct (fs_existsSync W (history s) (dir project)) eqn:Hd.
  - unfold issued.
    rewrite (deployProject_refines_pipeline W PROJECTS projectName project _ s Hp Hd).
    pipeline_cases; issued_events;
      repeat (apply Forall_cons;
              [split; [reflexivity
                      |cbn [In command_lines]; repeat first [left; reflexivity | right]]|]);
      apply Forall_nil.
  - assert (E : issued W (deployProject PROJECTS projectName (VStr (branch project))) s = []).
    { unfold deployProject. rewrite (PROJECTS_get_configured _ _ _ Hp).
      eapply issued_unchanged. cbn [run]. rewrite Hd. reflexivity. }
    rewrite E. constructor.
Qed.

(** X7.  Nothing a request carries reaches a command line: every subprocess
    started while a request for a configured project is handled runs in the
    project's configured directory, with a command line made of fixed text,
    the configured branch and the configured process name. *)
Theorem handler_command_lines_come_from_the_configuration
  (W : World) (PROJECTS : Projects) (req : Request) (s : State) (project : Project) :
  lookup (params_projectName req) PROJECTS = Some project ->
  Forall (from_configuration project) (issued W (handler PROJECTS req) s).
Proof.
  intro Hp. unfold issued. rewrite run_handler. cbv zeta.
  rewrite (PROJECTS_get_configured _ _ _ Hp).
  cbn [project_secret project_branch project_field].
  destruct (truthy (header_value (header_x_hub_signature_256 req))); cbn [negb];
    [|cbn [snd]; rewrite skipn_length_self; constructor].
  destruct (verifySignature _ _ _) as [[|]|e];
    try (cbn [snd]; rewrite issued_verified; repeat constructor).
  destruct (effective_branch _ _) as [b|e];
    try (cbn [snd]; rewrite issued_verified; repeat constructor).
  destruct (strict_equal b (VStr (branch project))) eqn:E; cbn [negb];
    try (cbn [snd]; rewrite issued_verified; repeat constructor).
  apply strict_equal_string in E. subst b.
  destruct (isDeploying s);
    [cbn [snd history]; rewrite issued_verified; repeat constructor|].
  match goal with
  | |- context [run W ?p ?s0] =>
      pose proof (run_extends W p s0) as Hx;
      pose proof (deployProject_from_configuration W PROJECTS (params_projectName req)
                    project s0 Hp) as Hf;
      destruct (run W p s0) as [[result|e] s2]
  end;
    cbn [snd history] in *; rewrite Hx; unfold verified; cbn [history];
    rewrite <- app_assoc, skipn_length_app; cbn [app];
    (constructor; [exact I|exact Hf]).
Qed.

Lemma handler_command_lines_come_from_the_configuration_witness :
  Forall (from_configuration demo) (issued world_ok (handler demo_projects push_main_request) idle).
Proof.
  exact (handler_command_lines_come_from_the_configuration
           world_ok demo_projects push_main_request idle demo eq_refl).
Defined.

(** X8.  A request for a configured project that carries no signature
    header, or an empty one, is answered 401 without the verifier being
    called: the state, and with it the history, is unchanged. *)
Theorem handler_rejects_a_missing_signature
  (W : World) (PROJECTS : Projects) (req : Request) (s : State) (project : Project) :
  lookup (params_projectName req) PROJECTS = Some project ->
  header_x_hub_signature_256 req = None \/ header_x_hub_signature_256 req = Some EmptyString ->
  run W (handler PROJECTS req) s = (Normal response_invalid_signature, s).
Proof.
  intros Hp Hh. rewrite run_handler. cbv zeta.
  rewrite (PROJECTS_get_configured _ _ _ Hp).
  destruct Hh as [-> | ->]; reflexivity.
Qed.

Lemma handler_rejects_a_missing_signature_witness :
  run world_ok (handler demo_projects (MkRequest "demo" None (VObj []))) idle
  = (Normal response_invalid_signature, idle).
Proof.
  apply (handler_rejects_a_missing_signature world_ok demo_projects
           (MkRequest "demo" None (VObj [])) idle demo eq_refl).
  now left.
Defined.

(** X9.  When the body's [ref] is absent, falsy or a string, the handler
    responds, whatever the request, the configuration and the environment:
    it does not throw, and the status is 200, 401, 404 or 500. *)
Theorem handler_always_responds
  (W : World) (PROJECTS : Projects) (req : Request) (s : State) (ref : value) :
  get_prop (body req) "ref" = Normal ref ->
  truthy ref = false \/ is_string ref = true ->
  exists r, fst (run W (handler PROJECTS req) s) = Normal r
            /\ In (status r) [200; 401; 404; 500].
Proof.
  intros Hr Href.
  assert (Hb : forall pb, exists b, effective_branch (body req) pb = Normal b).
  { intro pb. unfold effective_branch. rewrite Hr.
    destruct (truthy ref) eqn:T; [|eauto].
    destruct Href as [H|H]; [discriminate H|]. destruct ref; try discriminate H. eauto. }
  rewrite run_handler. cbv zeta.
  destruct (PROJECTS_get PROJECTS (params_projectName req)) as [project|k|];
    [| |eexists; split; [reflexivity|cbn; auto]];
    (destruct (truthy (header_value (header_x_hub_signature_256 req))); cbn [negb];
       [|eexists; split; [reflexivity|cbn; auto]];
     match goal with
     | |- context [verifySignature ?a ?b ?c] =>
         destruct (verifySignature_total a b c) as [[|] Hv]; rewrite Hv
     end;
       [|eexists; split; [reflexivity|cbn; auto]];
     match goal with
     | |- context [effective_branch ?x ?pb] => destruct (Hb pb) as [b Hbb]; rewrite Hbb
     end;
     destruct (strict_equal b _); cbn [negb];
       [|eexists; split; [reflexivity|cbn; auto]];
     destruct (isDeploying s); [eexists; split; [reflexivity|cbn; auto 6]|];
     match goal with
     | |- context [run W ?p ?s0] => destruct (run W p s0) as [[result|e] s2]
     end; eexists; (split; [reflexivity|cbn; auto 6])).
Qed.

Lemma handler_always_responds_witness :
  exists r, fst (run world_install_fails (handler demo_projects push_main_request) idle)
            = Normal r
            /\ In (status r) [200; 401; 404; 500].
Proof.
  apply (handler_always_responds world_install_fails demo_projects push_main_request idle
           (VStr "refs/heads/main") eq_refl).
  now right.
Defined.

(** X10.  When [git fetch] exits with a non-zero status on an authenticated
    push of the configured branch, the caller is sent 500 with the error
    "Command failed with code <status>: <stderr>", the standard error of the
    child process verbatim, and the lock is free afterwards. *)
Theorem handler_sends_the_stderr_of_a_failed_fetch
  (W : World) (PROJECTS : Projects) (req : Request) (s : State)
  (project : Project) (sig : string) (code : Z) (out err : string) :
  lookup (params_projectName req) PROJECTS = Some project ->
  header_x_hub_signature_256 req = Some sig ->
  verifySignature (JSON_stringify (body req)) (VStr sig) (VStr (secret project)) = Normal true ->
  effective_branch (body req) (VStr (branch project)) = Normal (VStr (branch project)) ->
  isDeploying s = false ->
  fs_existsSync W
    (history (verified s (JSON_stringify (body req)) (VStr sig) (VStr (secret project))))
    (dir project) = true ->
  child_exec W
    (history (verified s (JSON_stringify (body req)) (VStr sig) (VStr (secret project))))
    cmd_fetch (dir project) = Closed (Some code) out err ->
  code <> 0 ->
  fst (run W (handler PROJECTS req) s)
  = Normal (response_failed ("Command failed with code " +++ show_Z code +++ ": " +++ err))
  /\ isDeploying (snd (run W (handler PROJECTS req) s)) = false.
Proof.
  intros Hp Hh Hv Hb Hfree Hd Hx Hcode. rewrite run_handler. cbv zeta.
  rewrite (PROJECTS_get_configured _ _ _ Hp), Hh.
  cbn [header_value project_secret project_branch project_field].
  destruct (truthy (VStr sig)) eqn:T;
    [|rewrite verifySignature_not_a_token in Hv by (now left); discriminate].
  cbn [negb]. rewrite Hv, Hb. cbn [strict_equal]. rewrite String.eqb_refl. cbn [negb].
  rewrite Hfree.
  rewrite (deployProject_refines_pipeline W PROJECTS (params_projectName req) project _
             (MkState true
                (history (verified s (JSON_stringify (body req)) (VStr sig)
                            (VStr (secret project))))) Hp Hd).
  unfold pipeline_reference, primary_step, recovery. cbn [history isDeploying].
  unfold verified in Hx. cbn [history] in Hx. unfold verified. cbn [history]. rewrite Hx.
  destruct code as [|c|c]; [now elim Hcode| |]; cbn [exec_settle fst snd isDeploying];
    (split; [reflexivity|reflexivity]).
Qed.

Lemma handler_sends_the_stderr_of_a_failed_fetch_witness :
  fst (run world_fetch_fails (handler demo_projects push_main_request) idle)
  = Normal (response_failed "Command failed with code 128: fatal: unable to access the remote").
Proof.
  assert (V : verifySignature (JSON_stringify (body push_main_request))
                (VStr (expected_token "s3cr3t" push_main)) (VStr (secret demo)) = Normal true)
    by (vm_compute; reflexivity).
  assert (C : 128 <> 0) by lia.
  exact (proj1 (handler_sends_the_stderr_of_a_failed_fetch
                  world_fetch_fails demo_projects push_main_request idle demo
                  (expected_token "s3cr3t" push_main) 128 "" "fatal: unable to access the remote"
                  eq_refl eq_refl V eq_refl eq_refl eq_refl eq_refl C)).
Defined.

(** ** The command runner, event by event *)

Lemma append_empty_r (s : string) : s +++ EmptyString = s.
Proof. induction s; simpl; congruence. Qed.

Lemma append_assoc (a b c : string) : (a +++ b) +++ c = a +++ b +++ c.
Proof. induction a; simpl; congruence. Qed.

Lemma fold_data (evs : list child_event) (out err : string) :
  forallb is_data evs = true ->
  fold_left on_child_event evs (MkExecPromise out err None)
  = MkExecPromise (out +++ stdout_of evs) (err +++ stderr_of evs) None.
Proof.
  revert out err. induction evs as [|[d|d|c|e] evs IH]; intros out err H; simpl in *;
    try discriminate.
  - now rewrite !append_empty_r.
  - rewrite (IH _ _ H). now rewrite append_assoc.
  - rewrite (IH _ _ H). now rewrite append_assoc.
Qed.

Lemma fold_settled (evs : list child_event) (out err : string) (c : completion string) :
  settlement (fold_left on_child_event evs (MkExecPromise out err (Some c))) = Some c.
Proof.
  revert out err. induction evs as [|[d|d|[[| |]|]|e] evs IH]; intros out err; simpl;
    try reflexivity; apply IH.
Qed.

(** X11.  The promise of [execPromise] is settled by the first ['close'] or
    ['error'] event of the child, and by nothing else; what the child emits
    afterwards does not change it.  It resolves, with everything the child
    has written to its standard output until then, exactly when that event
    is a close with exit code 0; a close with another code, or with no code
    (the child was killed, as on the timeout), rejects with
    "Command failed with code <code>: <standard error until then>"; an
    ['error'] event rejects with its error.  Before such an event the
    promise is pending. *)
Theorem execPromise_is_settled_by_the_first_close_or_error
  (before later : list child_event) :
  forallb is_data before = true ->
  execPromise_events before = None
  /\ execPromise_events (before ++ CloseEvent (Some 0) :: later)
     = Some (Normal (stdout_of before))
  /\ (forall code,
        code <> Some 0 ->
        execPromise_events (before ++ CloseEvent code :: later)
        = Some (Thrown (Error ("Command failed with code " +++ show_code code +++ ": "
                               +++ stderr_of before))))
  /\ (forall e,
        execPromise_events (before ++ ErrorEvent e :: later) = Some (Thrown e)).
Proof.
  intro H. unfold execPromise_events, exec_pending.
  split; [now rewrite (fold_data _ _ _ H)|].
  rewrite !fold_left_app, !(fold_data _ _ _ H). cbn [append].
  split; [|split].
  - cbn [fold_left on_child_event settle settlement var_stdout]. apply fold_settled.
  - intros code Hc. rewrite fold_left_app, (fold_data _ _ _ H). cbn [append fold_left].
    destruct code as [[| |]|]; try (now elim Hc);
      cbn [on_child_event settle settlement var_stdout var_stderr]; apply fold_settled.
  - intro e. rewrite fold_left_app, (fold_data _ _ _ H).
    cbn [fold_left on_child_event settle settlement]. apply fold_settled.
Qed.

(** [npm i] writes twice to each stream and exits with status 1; a late
    ['error'] event changes nothing. *)
Lemma execPromise_is_settled_by_the_first_close_or_error_witness :
  execPromise_events
    ([StdoutData "added 1 package"; StderrData "npm WARN "; StderrData "deprecated"]
       ++ CloseEvent (Some 1) :: [ErrorEvent (Error "late")])
  = Some (Thrown (Error "Command failed with code 1: npm WARN deprecated")).
Proof.
  destruct (execPromise_is_settled_by_the_first_close_or_error
              [StdoutData "added 1 package"; StderrData "npm WARN "; StderrData "deprecated"]
              [ErrorEvent (Error "late")] eq_refl) as (_ & _ & Hclose & _).
  apply (Hclose (Some 1)). discriminate.
Defined.

(** The outcome that the programs above receive in one piece is the
    outcome of the events: [exec_settle] on the close code and the
    accumulated output. *)
Lemma execPromise_events_exec_settle (before later : list child_event) (code : option Z) :
  forallb is_data before = true ->
  execPromise_events (before ++ CloseEvent code :: later)
  = Some (exec_settle (Closed code (stdout_of before) (stderr_of before))).
Proof.
  intro H. unfold execPromise_events, exec_pending.
  rewrite fold_left_app, (fold_data _ _ _ H). cbn [append fold_left].
  destruct code as [[| |]|];
    cbn [on_child_event settle settlement var_stdout var_stderr exec_settle];
    apply fold_settled.
Qed.

(** ** The lock *)

(** X12.  The lock is not reentrant and a failed acquisition changes
    nothing: [acquireLock] after [acquireLock] always throws the in-progress
    error; [acquireLock] on a held lock leaves the state as it is;
    [releaseLock] makes the next [acquireLock] succeed; and releasing twice
    is releasing once. *)
Theorem lock_is_not_reentrant (W : World) (s : State) :
  fst (run W (acquireLock ;; acquireLock) s)
  = Thrown (Error "Another deployment is in progress")
  /\ (isDeploying s = true ->
      run W acquireLock s = (Thrown (Error "Another deployment is in progress"), s))
  /\ run W (releaseLock ;; acquireLock) s = (Normal tt, MkState true (history s))
  /\ run W (releaseLock ;; releaseLock) s = run W releaseLock s.
Proof.
  destruct s as [[|] h]; repeat split; try reflexivity; intro H; discriminate H.
Qed.

Lemma lock_is_not_reentrant_witness :
  run world_ok acquireLock (MkState true [])
  = (Thrown (Error "Another deployment is in progress"), MkState true []).
Proof.
  destruct (lock_is_not_reentrant world_ok (MkState true [])) as (_ & H & _).
  exact (H eq_refl).
Defined.

(** *** The lock discipline of the handler *)

Lemma lockless_bind {A B : Type} (p : prog A) (f : A -> prog B) :
  lockless p -> (forall a, lockless (f a)) -> lockless (bind p f).
Proof.
  intros Hp Hf. induction p; simpl in *; auto; contradiction.
Qed.

Lemma lockless_try_catch {A : Type} (p : prog A) (h : error -> prog A) :
  lockless p -> (forall e, lockless (h e)) -> lockless (try_catch p h).
Proof.
  intros Hp Hh. induction p; simpl in *; auto; contradiction.
Qed.

Lemma lockless_lift {A : Type} (c : completion A) : lockless (lift c).
Proof. destruct c; exact I. Qed.

Lemma lockless_execPromise (c d : string) : lockless (execPromise c d).
Proof. intro r. apply lockless_lift. Qed.

Lemma lockless_build_if_needed (project : Project) : lockless (build_if_needed project).
Proof.
  intros [|]; [|exact I]. intro r.
  apply lockless_bind; [apply lockless_lift|]. intro text.
  apply lockless_bind; [intro parsed; apply lockless_lift|]. intro v.
  apply lockless_bind; [apply lockless_lift|]. intros [|]; [|exact I].
  apply lockless_bind; [apply lockless_execPromise|]. intros _. exact I.
Qed.

(** The pipeline does not touch the lock. *)
Lemma lockless_deployProject (PROJECTS : Projects) (projectName : string) (b : value) :
  lockless (deployProject PROJECTS projectName b).
Proof.
  unfold deployProject.
  destruct (PROJECTS_get PROJECTS projectName) as [project|k|]; try exact I.
  intros [|]; [|exact I]. cbn [negb].
  apply lockless_try_catch.
  - repeat (apply lockless_bind;
            [first [apply lockless_execPromise | apply lockless_build_if_needed]|intros _]).
    exact I.
  - intro e. apply lockless_bind; [|intros _; exact I].
    apply lockless_try_catch; [|intros _; exact I].
    apply lockless_bind; [apply lockless_execPromise|intros _; exact I].
Qed.

Lemma discipline_pipeline_outcome (q : prog string) (f : bool) :
  lockless q ->
  discipline f true
    (try_catch
       (result <- q ;; releaseLock ;; Ret (response_deployed result))
       (fun error =>
          releaseLock ;;
          Ret (response_failed (error_message_or error "Deployment failed")))).
Proof.
  revert f. induction q as [a|e|k IH|b k IH|ev k IH|path k IH|path k IH|c d k IH|text k IH];
    intros f Hl; simpl in *; try contradiction; auto.
Qed.

Lemma handler_discipline (PROJECTS : Projects) (req : Request) (f : bool) :
  discipline f false (handler PROJECTS req).
Proof.
  unfold handler. cbv zeta.
  destruct (PROJECTS_get PROJECTS (params_projectName req)) as [project|k|];
    [| |reflexivity];
    (destruct (truthy (header_value (header_x_hub_signature_256 req)));
       cbn [negb bind discipline]; [|reflexivity];
     destruct (verifySignature _ _ _) as [[|]|e]; cbn [lift bind negb discipline];
       [|reflexivity|reflexivity];
     destruct (effective_branch _ _) as [b|e]; cbn [lift bind discipline]; [|reflexivity];
     destruct (strict_equal b _); cbn [negb discipline]; [|reflexivity];
     unfold acquireLock; cbn [bind try_catch discipline];
     destruct f; cbn [bind try_catch discipline releaseLock];
       [right; repeat split; reflexivity
       |split; [reflexivity|split; [reflexivity|]];
        apply discipline_pipeline_outcome, lockless_deployProject]).
Qed.

Lemma advance_segment (W : World) (p : prog Response) (s : State) (h : bool) :
  discipline (isDeploying s) h p ->
  segment_effect (isDeploying s) h (fst (advance W p s)) (isDeploying (snd (advance W p s))).
Proof.
  revert s h.
  induction p as [a|e|k IH|b k IH|ev k IH|path k IH|path k IH|c d k IH|text k IH];
    intros s h D; cbn [advance fst snd discipline] in *.
  - subst h. repeat split; try discriminate; auto.
  - subst h. repeat split; try discriminate; auto.
  - apply IH, D.
  - destruct b.
    + destruct D as (Hf & Hh & D). subst h.
      specialize (IH (MkState true (history s)) true D). cbn [isDeploying] in IH.
      destruct IH as (Ht & Hin & Hout). rewrite Hf.
      split; [exact Ht|split].
      * intro Hp. destruct (Hin Hp) as [[E|[_ E]] _]; (split; [now left|reflexivity]).
      * intro Hp. destruct (Hout Hp) as [E _]. split; [discriminate|].
        intros _. left. now apply E.
    + destruct D as [(Hh & D)|(Hh & Hf & ->)].
      * subst h. specialize (IH (MkState false (history s)) false D).
        cbn [isDeploying] in IH. destruct IH as (Ht & Hin & Hout).
        split; [exact Ht|split].
        -- intro Hp. destruct (Hin Hp) as [[E|[E _]] _]; [|discriminate E].
           split; [now left|discriminate].
        -- intro Hp. destruct (Hout Hp) as [_ E]. split; [|discriminate].
           intros _. destruct (E eq_refl) as [E'|(_ & E' & _)]; [exact E'|discriminate E'].
      * subst h. cbn [advance fst snd isDeploying]. rewrite Hf.
        split; [exact I|split; [discriminate|]]. intros _. split; [discriminate|].
        intros _. right. repeat split.
  - apply (IH (MkState (isDeploying s) (history s ++ [ev])) h D).
  - apply IH, D.
  - destruct D as (Hh & D). subst h.
    split; [exact D|split; [|discriminate]]. intros _. split; [now right|discriminate].
  - destruct D as (Hh & D). subst h.
    split; [exact D|split; [|discriminate]]. intros _. split; [now right|discriminate].
  - apply IH, D.
Qed.

(** *** Counting the pipelines in flight *)

Lemma active_snoc (s s' : State) (ts : list (prog Response)) (p : prog Response) :
  active_pipelines (MkLoop s' (ts ++ [p]))
  = (active_pipelines (MkLoop s ts) + b2n (in_pipeline p))%nat.
Proof.
  unfold active_pipelines. cbn [tasks]. rewrite filter_app, length_app. cbn [filter].
  destruct (in_pipeline p); reflexivity.
Qed.

Lemma active_set_nth (s s' : State) (ts : list (prog Response)) (i : nat)
  (p q : prog Response) :
  nth_error ts i = Some q ->
  (active_pipelines (MkLoop s' (set_nth i p ts)) + b2n (in_pipeline q)
   = active_pipelines (MkLoop s ts) + b2n (in_pipeline p))%nat.
Proof.
  unfold active_pipelines. cbn [tasks]. revert i.
  induction ts as [|x ts IH]; intros [|i] H; simpl in H; try discriminate.
  - injection H as ->. cbn [set_nth filter].
    destruct (in_pipeline p), (in_pipeline q); cbn [List.length b2n]; lia.
  - specialize (IH i H). cbn [set_nth filter].
    destruct (in_pipeline x); cbn [List.length]; lia.
Qed.

Lemma In_set_nth {A : Type} (i : nat) (p q x : A) (ts : list A) :
  nth_error ts i = Some q -> In x ts -> x <> q -> In x (set_nth i p ts).
Proof.
  revert i. induction ts as [|y ts IH]; intros [|i] H Hin Hne; simpl in *;
    try discriminate; try contradiction.
  - injection H as ->. destruct Hin as [->|Hin]; [contradiction|now right].
  - destruct Hin as [->|Hin]; [now left|right; now apply (IH i)].
Qed.

(** What a step of the loop does to the tasks and to the flag. *)
Lemma loop_step_effect (W : World) (PROJECTS : Projects) (l l' : Loop) (a : action) :
  Forall task_disciplined (tasks l) ->
  loop_step W PROJECTS l a = Some l' ->
  exists (h : bool) (p : prog Response),
    segment_effect (isDeploying (process l)) h p (isDeploying (process l'))
    /\ nth_error (tasks l') (stepped_task l a) = Some p
    /\ (h = false ->
        active_pipelines l' = (active_pipelines l + b2n (in_pipeline p))%nat
        /\ forall x, In x (tasks l) -> In x (tasks l'))
    /\ (h = true ->
        (active_pipelines l' + 1 = active_pipelines l + b2n (in_pipeline p))%nat
        /\ forall x, In x (tasks l) -> in_pipeline x = false -> In x (tasks l')).
Proof.
  intros Hok Hstep. destruct l as [s ts].
  destruct a as [req|i o|i o]; cbn [loop_step stepped_task tasks process] in *.
  - pose proof (advance_segment W (handler PROJECTS req) s false
                  (handler_discipline PROJECTS req (isDeploying s))) as Hseg.
    destruct (advance W (handler PROJECTS req) s) as [p s'].
    injection Hstep as <-. cbn [fst snd tasks process] in *.
    exists false, p. split; [exact Hseg|]. split; [apply nth_error_snoc|].
    split; [|discriminate]. intros _. split; [apply active_snoc|].
    intros x Hx. apply in_or_app. now left.
  - destruct (nth_error ts i) as [[ | | | | | | |c d k| ]|] eqn:E; try discriminate.
    pose proof (proj1 (Forall_forall _ _) Hok _ (nth_error_In _ _ E)) as Hk.
    cbn [task_disciplined] in Hk.
    pose proof (advance_segment W (k o)
                  (MkState (isDeploying s) (history s ++ [EvExec c d o])) true
                  (Hk o (isDeploying s))) as Hseg.
    destruct (advance W (k o) _) as [p s'].
    injection Hstep as <-. cbn [fst snd tasks process isDeploying] in *.
    exists true, p. split; [exact Hseg|].
    split; [now apply (nth_error_set_nth _ _ _ _ E)|].
    split; [discriminate|]. intros _. split.
    + rewrite <- (active_set_nth s s' ts i p _ E). reflexivity.
    + intros x Hx Hf. apply (In_set_nth _ _ _ _ _ E Hx). intros ->. discriminate Hf.
  - destruct (nth_error ts i) as [[ | | | | | |path k| | ]|] eqn:E; try discriminate.
    pose proof (proj1 (Forall_forall _ _) Hok _ (nth_error_In _ _ E)) as Hk.
    cbn [task_disciplined] in Hk.
    pose proof (advance_segment W (k o) s true (Hk o (isDeploying s))) as Hseg.
    destruct (advance W (k o) s) as [p s'].
    injection Hstep as <-. cbn [fst snd tasks process isDeploying] in *.
    exists true, p. split; [exact Hseg|].
    split; [now apply (nth_error_set_nth _ _ _ _ E)|].
    split; [discriminate|]. intros _. split.
    + rewrite <- (active_set_nth s s' ts i p _ E). reflexivity.
    + intros x Hx Hf. apply (In_set_nth _ _ _ _ _ E Hx). intros ->. discriminate Hf.
Qed.

Lemma loop_step_disciplined (W : World) (PROJECTS : Projects) (l l' : Loop) (a : action) :
  Forall task_disciplined (tasks l) ->
  loop_step W PROJECTS l a = Some l' ->
  Forall task_disciplined (tasks l').
Proof.
  intros Hok Hstep.
  destruct (loop_step_effect W PROJECTS l l' a Hok Hstep) as (h & p & (Ht & _) & _).
  destruct l as [s ts].
  destruct a as [req|i o|i o]; cbn [loop_step tasks process] in *.
  - destruct (advance W (handler PROJECTS req) s) as [p0 s0] eqn:A.
    injection Hstep as <-. cbn [tasks].
    apply Forall_app. split; [exact Hok|].
    pose proof (advance_segment W (handler PROJECTS req) s false
                  (handler_discipline PROJECTS req (isDeploying s))) as [Hp _].
    rewrite A in Hp. now constructor.
  - destruct (nth_error ts i) as [[ | | | | | | |c d k| ]|] eqn:E; try discriminate.
    pose proof (proj1 (Forall_forall _ _) Hok _ (nth_error_In _ _ E)) as Hk.
    cbn [task_disciplined] in Hk.
    pose proof (advance_segment W (k o)
                  (MkState (isDeploying s) (history s ++ [EvExec c d o])) true
                  (Hk o (isDeploying s))) as [Hp _].
    destruct (advance W (k o) _) as [p0 s0].
    injection Hstep as <-. cbn [tasks fst] in *. now apply Forall_set_nth.
  - destruct (nth_error ts i) as [[ | | | | | |path k| | ]|] eqn:E; try discriminate.
    pose proof (proj1 (Forall_forall _ _) Hok _ (nth_error_In _ _ E)) as Hk.
    cbn [task_disciplined] in Hk.
    pose proof (advance_segment W (k o) s true (Hk o (isDeploying s))) as [Hp _].
    destruct (advance W (k o) s) as [p0 s0].
    injection Hstep as <-. cbn [tasks fst] in *. now apply Forall_set_nth.
Qed.

(** *** Schedules *)

Lemma active_positive (l : Loop) (i : nat) (p : prog Response) :
  nth_error (tasks l) i = Some p -> in_pipeline p = true ->
  (1 <= active_pipelines l)%nat.
Proof.
  unfold active_pipelines. destruct l as [s ts]. cbn [tasks]. revert i.
  induction ts as [|x ts IH]; intros [|i] H Hp; simpl in H; try discriminate.
  - injection H as ->. cbn [filter]. rewrite Hp. cbn [List.length]. lia.
  - specialize (IH i H Hp). cbn [filter]. destruct (in_pipeline x); cbn [List.length]; lia.
Qed.

Lemma loop_run_app (W : World) (PROJECTS : Projects) (l : Loop) (a b : list action) :
  loop_run W PROJECTS l (a ++ b)
  = match loop_run W PROJECTS l a with
    | Some l1 => loop_run W PROJECTS l1 b
    | None => None
    end.
Proof.
  revert l. induction a as [|x a IH]; intro l; cbn [app loop_run]; [reflexivity|].
  destruct (loop_step W PROJECTS l x); [apply IH|reflexivity].
Qed.

Lemma loop_run_disciplined
  (W : World) (PROJECTS : Projects) (sched : list action) (l l' : Loop) :
  Forall task_disciplined (tasks l) ->
  loop_run W PROJECTS l sched = Some l' ->
  Forall task_disciplined (tasks l').
Proof.
  revert l. induction sched as [|a sched IH]; intros l Hok Hrun; simpl in Hrun.
  - injection Hrun as <-. exact Hok.
  - destruct (loop_step W PROJECTS l a) as [l1|] eqn:E; [|discriminate].
    apply (IH l1); [|exact Hrun]. now apply (loop_step_disciplined W PROJECTS l l1 a).
Qed.

(** A response, once sent, stays. *)
Lemma loop_run_keeps_responses
  (W : World) (PROJECTS : Projects) (sched : list action) (l l' : Loop) (r : Response) :
  Forall task_disciplined (tasks l) ->
  loop_run W PROJECTS l sched = Some l' ->
  In (Ret r) (tasks l) -> In (Ret r) (tasks l').
Proof.
  revert l. induction sched as [|a sched IH]; intros l Hok Hrun Hin; simpl in Hrun.
  - injection Hrun as <-. exact Hin.
  - destruct (loop_step W PROJECTS l a) as [l1|] eqn:E; [|discriminate].
    apply (IH l1); [now apply (loop_step_disciplined W PROJECTS l l1 a)|exact Hrun|].
    destruct (loop_step_effect W PROJECTS l l1 a Hok E) as ([|] & p & _ & _ & Hf & Ht).
    + now apply (proj2 (Ht eq_refl)).
    + now apply (proj2 (Hf eq_refl)).
Qed.

Lemma loop_step_not_stuck (W : World) (PROJECTS : Projects) (l l' : Loop) (a : action) :
  Forall task_disciplined (tasks l) ->
  (isDeploying (process l) = true -> (1 <= active_pipelines l)%nat) ->
  loop_step W PROJECTS l a = Some l' ->
  isDeploying (process l') = true -> (1 <= active_pipelines l')%nat.
Proof.
  intros Hok Hinv Hstep Hheld.
  destruct (loop_step_effect W PROJECTS l l' a Hok Hstep)
    as (h & p & (_ & Hin & Hout) & Hn & Hf & Ht).
  destruct (in_pipeline p) eqn:Hp; [now apply (active_positive l' _ p Hn)|].
  destruct (Hout eq_refl) as [Hh1 Hh0]. destruct h.
  - rewrite (Hh1 eq_refl) in Hheld. discriminate.
  - destruct (Hf eq_refl) as [Hc _]. rewrite Hc. cbn [b2n].
    destruct (Hh0 eq_refl) as [E|(_ & _ & E)].
    + rewrite E in Hheld. specialize (Hinv Hheld). lia.
    + rewrite E in Hheld. discriminate.
Qed.

Lemma loop_step_exclusive (W : World) (PROJECTS : Projects) (l l' : Loop) (a : action) :
  exclusive l ->
  loop_step W PROJECTS l a = Some l' ->
  nth_error (tasks l') (stepped_task l a) <> Some (Ret in_progress) ->
  exclusive l'.
Proof.
  intros [Hok Hcount] Hstep Hrej.
  split; [now apply (loop_step_disciplined W PROJECTS l l' a)|].
  destruct (loop_step_effect W PROJECTS l l' a Hok Hstep)
    as (h & p & (_ & Hin & Hout) & Hn & Hf & Ht).
  destruct (in_pipeline p) eqn:Hp.
  - pose proof (active_positive l' _ p Hn Hp) as Hpos.
    destruct (Hin eq_refl) as [Hflag Hfree]. destruct h.
    + destruct (Ht eq_refl) as [Hc _]. cbn [b2n] in Hc.
      destruct (isDeploying (process l)); cbn [b2n] in Hcount; [|lia].
      assert (E : isDeploying (process l') = true) by (destruct Hflag as [E|[_ E]]; exact E).
      rewrite E. cbn [b2n]. lia.
    + destruct (Hf eq_refl) as [Hc _]. cbn [b2n] in Hc.
      rewrite (Hfree eq_refl) in Hcount. cbn [b2n] in Hcount.
      destruct Hflag as [E|[E _]]; [|discriminate E]. rewrite E. cbn [b2n]. lia.
  - destruct (Hout eq_refl) as [Hh1 Hh0]. destruct h.
    + destruct (Ht eq_refl) as [Hc _]. cbn [b2n] in Hc.
      rewrite (Hh1 eq_refl). cbn [b2n].
      destruct (isDeploying (process l)); cbn [b2n] in Hcount; lia.
    + destruct (Hf eq_refl) as [Hc _]. cbn [b2n] in Hc.
      destruct (Hh0 eq_refl) as [E|(E & _ & _)].
      * rewrite E. lia.
      * subst p. contradiction.
Qed.

Lemma loop_run_exclusive
  (W : World) (PROJECTS : Projects) (sched : list action) (l l' : Loop) :
  exclusive l ->
  loop_run W PROJECTS l sched = Some l' ->
  ~ In (Ret in_progress) (tasks l') ->
  exclusive l'.
Proof.
  revert l. induction sched as [|a sched IH]; intros l Hex Hrun Hno; simpl in Hrun.
  - injection Hrun as <-. exact Hex.
  - destruct (loop_step W PROJECTS l a) as [l1|] eqn:E; [|discriminate].
    apply (IH l1); [|exact Hrun|exact Hno].
    apply (loop_step_exclusive W PROJECTS l l1 a Hex E).
    intro Hn. apply Hno.
    apply (loop_run_keeps_responses W PROJECTS sched l1 l' in_progress);
      [apply (loop_step_disciplined W PROJECTS l l1 a (proj1 Hex) E)|exact Hrun|].
    exact (nth_error_In _ _ Hn).
Qed.

(** X13.  The lock is never stuck: after any schedule of arrivals and
    completions, whenever the flag [isDeploying] is set there is a pipeline
    in flight that will clear it.  No request leaves the lock held behind
    it. *)
Theorem lock_is_held_only_while_a_pipeline_runs
  (W : World) (PROJECTS : Projects) (sched : list action) (l : Loop) :
  loop_run W PROJECTS fresh_loop sched = Some l ->
  isDeploying (process l) = true ->
  (1 <= active_pipelines l)%nat.
Proof.
  assert (G : forall sched l0 l,
             Forall task_disciplined (tasks l0) ->
             (isDeploying (process l0) = true -> (1 <= active_pipelines l0)%nat) ->
             loop_run W PROJECTS l0 sched = Some l ->
             isDeploying (process l) = true -> (1 <= active_pipelines l)%nat).
  { clear sched l. induction sched as [|a sched IH]; intros l0 l Hok Hinv Hrun; simpl in Hrun.
    - injection Hrun as <-. exact Hinv.
    - destruct (loop_step W PROJECTS l0 a) as [l1|] eqn:E; [|discriminate].
      apply (IH l1); [|apply (loop_step_not_stuck W PROJECTS l0 l1 a Hok Hinv E)|exact Hrun].
      now apply (loop_step_disciplined W PROJECTS l0 l1 a). }
  apply (G sched fresh_loop l); [constructor|discriminate].
Qed.

Lemma lock_is_held_only_while_a_pipeline_runs_witness :
  match loop_run world_ok demo_projects fresh_loop [Arrive push_main_request] with
  | Some l => (1 <= active_pipelines l)%nat
  | None => True
  end.
Proof.
  assert (A : option_map (fun l => isDeploying (process l))
                (loop_run world_ok demo_projects fresh_loop [Arrive push_main_request])
              = Some true) by (vm_compute; reflexivity).
  destruct (loop_run world_ok demo_projects fresh_loop [Arrive push_main_request])
    as [l|] eqn:E; [|exact I].
  apply (lock_is_held_only_while_a_pipeline_runs
           world_ok demo_projects [Arrive push_main_request] l E).
  now injection A.
Defined.

(** X14.  Mutual exclusion holds up to the first rejection: along any
    schedule in which no request is answered "Another deployment is in
    progress", at every point at most one pipeline is in flight, and one is
    exactly when the flag [isDeploying] is set. *)
Theorem loop_is_exclusive_until_a_request_is_rejected
  (W : World) (PROJECTS : Projects) (before later : list action) (lb l : Loop) :
  loop_run W PROJECTS fresh_loop (before ++ later) = Some l ->
  ~ In (Ret in_progress) (tasks l) ->
  loop_run W PROJECTS fresh_loop before = Some lb ->
  (active_pipelines lb <= 1)%nat
  /\ (active_pipelines lb = 1%nat <-> isDeploying (process lb) = true).
Proof.
  intros Hrun Hno Hb.
  rewrite loop_run_app, Hb in Hrun.
  assert (Hfresh : exclusive fresh_loop) by (split; [constructor|reflexivity]).
  assert (Hok : Forall task_disciplined (tasks lb))
    by (apply (loop_run_disciplined W PROJECTS before fresh_loop lb (proj1 Hfresh) Hb)).
  assert (Hex : exclusive lb).
  { apply (loop_run_exclusive W PROJECTS before fresh_loop lb Hfresh Hb).
    intro Hin. apply Hno.
    exact (loop_run_keeps_responses W PROJECTS later lb l in_progress Hok Hrun Hin). }
  destruct Hex as [_ Hc]. rewrite Hc.
  destruct (isDeploying (process lb)); cbn [b2n]; split; try lia; split; intro H;
    try reflexivity; discriminate H.
Qed.

Lemma In_finished (r : Response) (ts : list (prog Response)) :
  In (Ret r) ts -> In (Some (Normal r)) (map finished ts).
Proof. intro H. exact (in_map finished ts (Ret r) H). Qed.

Lemma loop_is_exclusive_until_a_request_is_rejected_witness :
  match loop_run world_ok demo_projects fresh_loop failed_push_then_push with
  | Some l => (active_pipelines l <= 1)%nat
  | None => True
  end.
Proof.
  assert (A : option_map (fun l => map finished (tasks l))
                (loop_run world_ok demo_projects fresh_loop failed_push_then_push)
              = Some [Some (Normal (response_failed
                                      "Command failed with code 128: fatal: unable to access the remote"));
                      None]) by (vm_compute; reflexivity).
  destruct (loop_run world_ok demo_projects fresh_loop failed_push_then_push)
    as [l|] eqn:E; [|exact I].
  injection A as A.
  apply (loop_is_exclusive_until_a_request_is_rejected
           world_ok demo_projects failed_push_then_push [] l l).
  - rewrite app_nil_r. exact E.
  - intro H. apply In_finished in H. rewrite A in H.
    destruct H as [H|[H|[]]]; discriminate H.
  - exact E.
Defined.

(** ** Loading the configuration *)

Lemma lookup_update_key {A : Type} (k k' : string) (a : A) (l : list (string * A)) :
  has_key k l = true ->
  lookup k' (update_key k a l) = if String.eqb k' k then Some a else lookup k' l.
Proof.
  induction l as [|[k0 a0] l IH]; cbn [has_key update_key]; [discriminate|].
  intros H. destruct (String.eqb k k0) eqn:E.
  - apply String.eqb_eq in E. subst k0. cbn [lookup].
    destruct (String.eqb k' k); reflexivity.
  - cbn [orb] in H. cbn [lookup]. rewrite (IH H).
    destruct (String.eqb k' k0) eqn:E0; [|reflexivity].
    apply String.eqb_eq in E0. subst k0.
    rewrite String.eqb_sym, E. reflexivity.
Qed.

Lemma lookup_insert_index {A : Type} (i : Z) (k k' : string) (a : A) (l : list (string * A)) :
  has_key k l = false ->
  lookup k' (insert_index i k a l) = if String.eqb k' k then Some a else lookup k' l.
Proof.
  induction l as [|[k0 a0] l IH]; cbn [has_key insert_index]; intros H.
  - cbn [lookup]. reflexivity.
  - apply Bool.orb_false_iff in H. destruct H as [H0 H].
    assert (Hk : forall t : list (string * A),
               lookup k' ((k, a) :: (k0, a0) :: t)
               = if String.eqb k' k then Some a else lookup k' ((k0, a0) :: t))
      by reflexivity.
    destruct (array_index k0) as [j|]; [destruct (j <? i)|]; try apply Hk.
    cbn [lookup]. rewrite (IH H).
    destruct (String.eqb k' k0) eqn:E0; [|reflexivity].
    apply String.eqb_eq in E0. subst k0.
    rewrite String.eqb_sym in H0. rewrite H0. reflexivity.
Qed.

Lemma lookup_snoc {A : Type} (k k' : string) (a : A) (l : list (string * A)) :
  has_key k l = false ->
  lookup k' (l ++ [(k, a)]) = if String.eqb k' k then Some a else lookup k' l.
Proof.
  induction l as [|[k0 a0] l IH]; cbn [has_key app lookup]; intros H.
  - reflexivity.
  - apply Bool.orb_false_iff in H. destruct H as [H0 H]. rewrite (IH H).
    destruct (String.eqb k' k0) eqn:E0; [|reflexivity].
    apply String.eqb_eq in E0. subst k0.
    rewrite String.eqb_sym in H0. rewrite H0. reflexivity.
Qed.

(** Defining a property changes the value read under that key and under no
    other. *)
Lemma lookup_define_property {A : Type} (k k' : string) (a : A) (l : list (string * A)) :
  lookup k' (define_property k a l) = if String.eqb k' k then Some a else lookup k' l.
Proof.
  unfold define_property. destruct (has_key k l) eqn:H.
  - now apply lookup_update_key.
  - destruct (array_index k); [now apply lookup_insert_index | now apply lookup_snoc].
Qed.

Lemma lookup_keys {A : Type} (k : string) (l : list (string * A)) :
  In k (map fst l) <-> lookup k l <> None.
Proof.
  induction l as [|[k0 a0] l IH]; cbn [map fst In lookup].
  - split; [intros [] | intros H; now apply H].
  - destruct (String.eqb k k0) eqn:E.
    + apply String.eqb_eq in E. subst k0. split; [discriminate | now left].
    + apply String.eqb_neq in E. rewrite <- IH. split.
      * intros [H|H]; [now subst | exact H].
      * intros H. now right.
Qed.

Lemma make_entry_fields (c : value) (e : ProjectEntry) :
  make_entry c = Normal e ->
  get_prop c "dir" = Normal (entry_dir e)
  /\ get_prop c "pm2Name" = Normal (entry_pm2Name e)
  /\ get_prop c "secret" = Normal (entry_secret e)
  /\ exists b, get_prop c "branch" = Normal b
               /\ entry_branch e = (if truthy b then b else VStr "main").
Proof.
  unfold make_entry.
  destruct (get_prop c "dir") as [d|]; [|discriminate].
  destruct (get_prop c "pm2Name") as [p|]; [|discriminate].
  destruct (get_prop c "secret") as [s|]; [|discriminate].
  destruct (get_prop c "branch") as [b|]; [|discriminate].
  intros H. injection H as <-. cbn [entry_dir entry_pm2Name entry_secret entry_branch].
  repeat split. now exists b.
Qed.

Lemma make_entry_throws (c : value) :
  (exists e, make_entry c = Thrown e) <-> nullish c = true.
Proof.
  destruct c; cbn; split; intros H; try discriminate; try reflexivity;
    try (now destruct H); eexists; reflexivity.
Qed.

Lemma load_entries_invariant (cfg : value) (keys : list string) :
  forall st0 st,
    load_entries cfg keys st0 = Normal st ->
    (forall name e, lookup name (own st0) = Some e -> make_entry (element cfg name) = Normal e) ->
    forall name e, lookup name (own st) = Some e -> make_entry (element cfg name) = Normal e.
Proof.
  induction keys as [|k keys IH]; cbn [load_entries]; intros st0 st H Inv.
  - injection H as <-. exact Inv.
  - destruct (make_entry (element cfg k)) as [entry|] eqn:M; [|discriminate].
    apply (IH _ _ H). intros name e. unfold store_assign.
    destruct (String.eqb k "__proto__"); cbn [own]; [apply Inv|].
    rewrite lookup_define_property. destruct (String.eqb name k) eqn:E.
    + apply String.eqb_eq in E. subst name. intros [= <-]. exact M.
    + apply Inv.
Qed.

Lemma load_entries_names (cfg : value) (keys : list string) :
  forall st0 st,
    load_entries cfg keys st0 = Normal st ->
    forall name,
      In name (map fst (own st))
      <-> In name (map fst (own st0)) \/ (In name keys /\ name <> "__proto__").
Proof.
  induction keys as [|k keys IH]; cbn [load_entries]; intros st0 st H name.
  - injection H as <-. cbn [In]. tauto.
  - destruct (make_entry (element cfg k)) as [entry|] eqn:M; [|discriminate].
    rewrite (IH _ _ H name). unfold store_assign. cbn [In].
    destruct (String.eqb k "__proto__") eqn:P; cbn [own].
    + apply String.eqb_eq in P. subst k. split; [tauto|].
      intros [H0|[[H0|H0] H1]]; [tauto | now subst | tauto].
    + apply String.eqb_neq in P. rewrite !lookup_keys, lookup_define_property.
      destruct (String.eqb name k) eqn:E.
      * apply String.eqb_eq in E. subst name. split; [|intros _; left; discriminate].
        intros _. right. split; [now left | exact P].
      * apply String.eqb_neq in E. split; [tauto|].
        intros [H0|[[H0|H0] H1]]; [tauto | now subst | tauto].
Qed.

Lemma load_entries_throws (cfg : value) (keys : list string) :
  forall st0,
    (exists e, load_entries cfg keys st0 = Thrown e)
    <-> exists k, In k keys /\ nullish (element cfg k) = true.
Proof.
  induction keys as [|k keys IH]; cbn [load_entries]; intros st0.
  - split; [intros [e H]; discriminate | intros [k [[] _]]].
  - destruct (make_entry (element cfg k)) as [entry|e] eqn:M.
    + rewrite IH. split.
      * intros [k' [H0 H1]]. exists k'. split; [now right | exact H1].
      * intros [k' [[H0|H0] H1]]; [|now exists k'].
        subst k'. apply make_entry_throws in H1. destruct H1 as [e H1]. congruence.
    + split; [|intros _; now exists e].
      intros _. exists k. split; [now left|]. apply make_entry_throws. now exists e.
Qed.

(** X15.  Every entry of [PROJECTS] after start-up (server.js 73-80) holds
    the [dir], [pm2Name] and [secret] of the configuration entry of the same
    name, and its [branch] is the configured one when that is truthy and
    ["main"] otherwise: no loaded project has a missing, empty or falsy
    branch. *)
Theorem loaded_entries_copy_the_configuration_and_default_the_branch
    (projectsConfig : value) (PROJECTS : Store) (projectName : string) (project : ProjectEntry) :
  load_config projectsConfig = Normal PROJECTS ->
  lookup projectName (own PROJECTS) = Some project ->
  let c := element projectsConfig projectName in
  get_prop c "dir" = Normal (entry_dir project)
  /\ get_prop c "pm2Name" = Normal (entry_pm2Name project)
  /\ get_prop c "secret" = Normal (entry_secret project)
  /\ (exists b, get_prop c "branch" = Normal b
                /\ entry_branch project = (if truthy b then b else VStr "main"))
  /\ truthy (entry_branch project) = true.
Proof.
  intros H L c. unfold load_config in H.
  destruct (Object_keys projectsConfig) as [keys|]; [|discriminate].
  assert (M : make_entry c = Normal project).
  { apply (load_entries_invariant projectsConfig keys empty_store PROJECTS H); [|exact L].
    intros name e. cbn. discriminate. }
  destruct (make_entry_fields c project M) as (Hd & Hp & Hs & b & Hb & Eb).
  repeat split; try assumption.
  - now exists b.
  - rewrite Eb. destruct (truthy b) eqn:T; [exact T | reflexivity].
Qed.

Lemma loaded_entries_copy_the_configuration_and_default_the_branch_witness :
  exists PROJECTS shop,
    load_projects (Some sample_config) = Started PROJECTS
    /\ lookup "shop" (own PROJECTS) = Some shop
    /\ entry_dir shop = VStr "/var/www/shop"
    /\ entry_branch shop = VStr "main"
    /\ truthy (entry_branch shop) = true.
Proof.
  assert (P : JSON_parse sample_config
              = Some (VObj [("shop", VObj [("dir", VStr "/var/www/shop"); ("pm2Name", VStr "shop");
                                           ("secret", VStr "k1")]);
                            ("blog", VObj [("dir", VStr "/var/www/blog"); ("pm2Name", VStr "blog");
                                           ("secret", VStr "k2"); ("branch", VStr "develop")])]))
    by (vm_compute; reflexivity).
  set (cfg := VObj [("shop", VObj [("dir", VStr "/var/www/shop"); ("pm2Name", VStr "shop");
                                   ("secret", VStr "k1")]);
                    ("blog", VObj [("dir", VStr "/var/www/blog"); ("pm2Name", VStr "blog");
                                   ("secret", VStr "k2"); ("branch", VStr "develop")])]) in *.
  destruct (load_config cfg) as [st|] eqn:L; [|vm_compute in L; discriminate].
  destruct (lookup "shop" (own st)) as [shop|] eqn:S;
    [|vm_compute in L; injection L as <-; vm_compute in S; discriminate].
  exists st, shop.
  destruct (loaded_entries_copy_the_configuration_and_default_the_branch cfg st "shop" shop L S)
    as (Hd & _ & _ & (b & Hb & Eb) & T).
  split; [|split; [exact S|split; [|split; [|exact T]]]].
  - unfold load_projects. rewrite P, L. reflexivity.
  - assert (E : Normal (VStr "/var/www/shop") = Normal (entry_dir shop)) by exact Hd.
    now injection E.
  - assert (E : Normal VUndefined = Normal b) by exact Hb.
    injection E as <-. exact Eb.
Defined.

(** X16.  [GET /health] (server.js 259-265) after start-up answers 200 and
    lists exactly the keys of the parsed configuration other than
    [__proto__]: a configuration key [__proto__] replaces the prototype of
    [PROJECTS] instead of adding a project, every other key is listed. *)
Theorem health_lists_the_configuration_keys_except_proto
    (projectsConfig : value) (keys : list string) (PROJECTS : Store) (now : string) :
  Object_keys projectsConfig = Normal keys ->
  load_config projectsConfig = Normal PROJECTS ->
  status (health_of_store PROJECTS now) = 200
  /\ exists listed,
       get_prop (json (health_of_store PROJECTS now)) "projects" = Normal (VArr (map VStr listed))
       /\ (forall name, In name listed <-> In name keys /\ name <> "__proto__")
       /\ (In "__proto__" keys <-> replaced_prototype PROJECTS <> None).
Proof.
  unfold load_config. intros K L. rewrite K in L.
  split; [reflexivity|]. exists (map fst (own PROJECTS)).
  split; [reflexivity|]. split.
  - intros name. rewrite (load_entries_names _ _ _ _ L name). cbn [empty_store own map In]. tauto.
  - assert (G : forall st0, load_entries projectsConfig keys st0 = Normal PROJECTS ->
                  (replaced_prototype PROJECTS <> None
                   <-> In "__proto__" keys \/ replaced_prototype st0 <> None)).
    { clear K L. induction keys as [|k keys IH]; cbn [load_entries In]; intros st0 L.
      - injection L as <-. tauto.
      - destruct (make_entry (element projectsConfig k)) as [entry|]; [|discriminate].
        rewrite (IH _ L). unfold store_assign.
        destruct (String.eqb k "__proto__") eqn:P; cbn [replaced_prototype].
        + apply String.eqb_eq in P. subst k. split; [tauto|]. intros _. right. discriminate.
        + apply String.eqb_neq in P. split; [tauto|].
          intros [[H|H]|H]; [congruence | tauto | tauto]. }
    rewrite (G _ L). cbn [empty_store replaced_prototype]. split; [tauto|].
    intros [H|H]; [exact H | now elim H].
Qed.

Lemma health_lists_the_configuration_keys_except_proto_witness :
  exists PROJECTS,
    load_projects (Some proto_config) = Started PROJECTS
    /\ status (health_of_store PROJECTS "2024-01-01T00:00:00.000Z") = 200
    /\ exists listed,
         get_prop (json (health_of_store PROJECTS "2024-01-01T00:00:00.000Z")) "projects"
         = Normal (VArr (map VStr listed))
         /\ (forall name, In name listed <-> In name ["shop"; "__proto__"] /\ name <> "__proto__")
         /\ (In "__proto__" ["shop"; "__proto__"] <-> replaced_prototype PROJECTS <> None).
Proof.
  assert (P : JSON_parse proto_config
              = Some (VObj [("shop", VObj [("dir", VStr "/var/www/shop"); ("pm2Name", VStr "shop");
                                           ("secret", VStr "k1")]);
                            ("__proto__", VObj [("dir", VStr "/var/www/x"); ("pm2Name", VStr "x");
                                                ("secret", VStr "k3")])]))
    by (vm_compute; reflexivity).
  set (cfg := VObj [("shop", VObj [("dir", VStr "/var/www/shop"); ("pm2Name", VStr "shop");
                                   ("secret", VStr "k1")]);
                    ("__proto__", VObj [("dir", VStr "/var/www/x"); ("pm2Name", VStr "x");
                                        ("secret", VStr "k3")])]) in *.
  destruct (load_config cfg) as [st|] eqn:L; [|vm_compute in L; discriminate].
  exists st. split; [unfold load_projects; rewrite P, L; reflexivity|].
  exact (health_lists_the_configuration_keys_except_proto cfg ["shop"; "__proto__"] st
           "2024-01-01T00:00:00.000Z" eq_refl L).
Defined.

(** X17.  Start-up with a non-empty [DEPLOY_PROJECTS] that parses
    (server.js 68-85) ends the process exactly when the parsed value is
    [null] or has a key whose entry is [null]; the exit code is 1.  Entries
    of any other shape, also numbers, strings and objects without the
    fields, are loaded. *)
Theorem load_projects_exits_exactly_on_null_entries (text : string) (projectsConfig : value) :
  text <> "" ->
  JSON_parse text = Some projectsConfig ->
  (load_projects (Some text) = Exited 1
   <-> nullish projectsConfig = true
       \/ exists keys k, Object_keys projectsConfig = Normal keys
                         /\ In k keys /\ nullish (element projectsConfig k) = true)
  /\ (forall code, load_projects (Some text) = Exited code -> code = 1).
Proof.
  intros Ht P. apply String.eqb_neq in Ht. unfold load_projects. rewrite Ht, P.
  rename projectsConfig into cfg. split.
  - unfold load_config.
    destruct (Object_keys cfg) as [keys|e] eqn:K.
    + assert (N : nullish cfg = false) by (destruct cfg; try reflexivity; discriminate).
      destruct (load_entries cfg keys empty_store) as [st|e] eqn:L.
      * split; [discriminate|]. intros [H|(keys' & k & K' & Hk & Hn)]; [congruence|].
        injection K' as <-.
        destruct (proj2 (load_entries_throws cfg keys empty_store)) as [e H];
          [now exists k | congruence].
      * split; [|reflexivity]. intros _. right. exists keys.
        destruct (proj1 (load_entries_throws cfg keys empty_store)) as (k & Hk & Hn);
          [now exists e|]. now exists k.
    + split; [|reflexivity]. intros _. left.
      destruct cfg; try discriminate; reflexivity.
  - destruct (load_config cfg); [discriminate | now intros code [= <-]].
Qed.

Lemma load_projects_exits_exactly_on_null_entries_witness :
  load_projects (Some null_entry_config) = Exited 1
  /\ load_projects (Some "null") = Exited 1.
Proof.
  split.
  - assert (P : JSON_parse null_entry_config = Some (VObj [("shop", VNull)]))
      by (vm_compute; reflexivity).
    apply (proj1 (load_projects_exits_exactly_on_null_entries null_entry_config _
                    ltac:(discriminate) P)).
    right. exists ["shop"], "shop". repeat split. now left.
  - assert (P : JSON_parse "null" = Some VNull) by (vm_compute; reflexivity).
    apply (proj1 (load_projects_exits_exactly_on_null_entries "null" _ ltac:(discriminate) P)).
    now left.
Defined.

(** ** The request log *)

Lemma length_append (a b : string) :
  String.length (a +++ b) = (String.length a + String.length b)%nat.
Proof. induction a as [|c a IH]; cbn [String.append String.length Nat.add]; congruence. Qed.

Lemma length_take (n : nat) (s : string) :
  String.length (take n s) = Nat.min n (String.length s).
Proof.
  revert s. induction n as [|n IH]; intros [|c s]; cbn [take String.length Nat.min];
    try reflexivity. now rewrite IH.
Qed.

Lemma length_Buffer_from (s : string) :
  (String.length s <= List.length (Buffer_from s) <= 2 * String.length s)%nat.
Proof.
  induction s as [|c s IH]; cbn [Buffer_from String.length List.length]; [lia|].
  rewrite length_app. unfold utf8_unit.
  destruct (charCode c <? 128); cbn [List.length]; lia.
Qed.

Lemma serialize_defined (v : value) :
  truthy v = true -> exists t, serialize v = Some t.
Proof.
  destruct v as [| |[|]|n|s|elems|fields]; cbn [truthy serialize]; intro H;
    try discriminate; eexists; reflexivity.
Qed.

(** X18.  For every truthy request body the request log (server.js 38-46)
    writes a size and a preview, never [<unserializable>]: the preview is the
    body text itself when that has at most 1000 characters, and otherwise its
    first 1000 characters followed by [...<truncated>], 1014 characters in
    all; the size is the UTF-8 byte length of the whole text, between one
    and two bytes per character. *)
Theorem request_log_preview_is_bounded (req_body : value) :
  truthy req_body = true ->
  exists bodyStr size preview,
    (match req_body with
     | VStr s => bodyStr = s
     | _ => JSON_stringify req_body = VStr bodyStr
     end)
    /\ log_body req_body = BodyLogged size preview
    /\ (String.length preview <= 1014)%nat
    /\ ((String.length bodyStr <= 1000)%nat -> preview = bodyStr)
    /\ ((1000 < String.length bodyStr)%nat ->
        preview = take 1000 bodyStr +++ "...<truncated>"
        /\ String.length preview = 1014%nat)
    /\ (String.length bodyStr <= size <= 2 * String.length bodyStr)%nat.
Proof.
  intro T.
  assert (B : exists bodyStr,
             (match req_body with VStr s => Some s | _ => serialize req_body end) = Some bodyStr
             /\ match req_body with
                | VStr s => bodyStr = s
                | _ => JSON_stringify req_body = VStr bodyStr
                end).
  { destruct (serialize_defined req_body T) as [t E]. unfold JSON_stringify.
    destruct req_body; try (exists t; rewrite E; split; reflexivity).
    eexists; split; reflexivity. }
  destruct B as (bodyStr & E & Hb).
  exists bodyStr, (List.length (Buffer_from bodyStr)), (preview_of bodyStr).
  split; [exact Hb|]. split; [unfold log_body; now rewrite T, E|].
  assert (L : String.length (take 1000 bodyStr +++ "...<truncated>")
              = (Nat.min 1000 (String.length bodyStr) + 14)%nat)
    by (rewrite length_append, length_take; reflexivity).
  unfold preview_of.
  destruct (Nat.ltb_spec 1000 (String.length bodyStr)) as [H|H].
  - split; [lia|]. split; [lia|]. split; [|apply length_Buffer_from].
    intros _. split; [reflexivity | lia].
  - split; [lia|]. split; [reflexivity|]. split; [lia | apply length_Buffer_from].
Qed.

Lemma request_log_preview_is_bounded_witness :
  exists size preview,
    log_body long_body = BodyLogged size preview
    /\ String.length preview = 1014%nat
    /\ (1000 < size)%nat.
Proof.
  destruct (request_log_preview_is_bounded long_body eq_refl)
    as (bodyStr & size & preview & Hb & E & _ & _ & Hl & Hs).
  exists size, preview. split; [exact E|].
  change (JSON_stringify long_body = VStr bodyStr) in Hb.
  assert (S : JSON_stringify long_body
              = VStr ("{" +++ JSON_quote "text" +++ ":"
                      +++ JSON_quote (repeat_string 150 "0123456789") +++ "}"))
    by (vm_compute; reflexivity).
  rewrite S in Hb. injection Hb as Hb.
  assert (L : (1000 < String.length bodyStr)%nat)
    by (rewrite <- Hb; apply Nat.ltb_lt; vm_compute; reflexivity).
  split; [now apply Hl | lia].
Defined.

(** ** The earlier variant of the server *)

(** The earlier endpoint, one request at a time, in closed form. *)
Lemma run_LegacyEndpoint_handler (W : World) (PROJECTS : Projects) (req : Request) (s : State) :
  run W (LegacyEndpoint.handler PROJECTS req) s
  = let project := PROJECTS_get PROJECTS (params_projectName req) in
    let payload := JSON_stringify (body req) in
    match project with
    | Absent => (Normal response_not_found, s)
    | _ =>
        match header_x_hub_signature_256 req with
        | None => (Normal response_invalid_signature, s)
        | Some signature =>
            if String.eqb signature "" then (Normal response_invalid_signature, s)
            else
              let s1 := verified s payload (VStr signature) (project_secret project) in
              match LegacyEndpoint.verifySignature payload signature (project_secret project) with
              | Thrown e => (Thrown e, s1)
              | Normal false => (Normal response_invalid_signature, s1)
              | Normal true =>
                  match effective_branch (body req) (project_branch project) with
                  | Thrown e => (Thrown e, s1)
                  | Normal b =>
                      if negb (strict_equal b (project_branch project))
                      then (Normal (response_ignored b (project_branch project)), s1)
                      else (Normal (response_failed
                                      (if isDeploying s then "Another deployment is in progress"
                                       else "fs.existsSync is not a function")),
                            MkState false (history s1))
                  end
              end
        end
    end.
Proof.
  unfold LegacyEndpoint.handler. cbv zeta.
  destruct (PROJECTS_get PROJECTS (params_projectName req)) as [project|k|] eqn:G;
    [| |reflexivity];
    (rewrite run_bind;
     destruct (header_x_hub_signature_256 req) as [signature|]; [|reflexivity];
     destruct (String.eqb signature ""); [reflexivity|];
     cbn [run]; rewrite run_bind, run_lift;
     fold (verified s (JSON_stringify (body req)) (VStr signature));
     destruct (LegacyEndpoint.verifySignature _ _ _) as [[|]|e]; cbn [run negb];
       try reflexivity;
     rewrite run_bind, run_lift;
     destruct (effective_branch _ _) as [b|e]; [|reflexivity];
     destruct (strict_equal b _); cbn [negb run]; [|reflexivity];
     rewrite run_try_catch, run_bind;
     unfold acquireLock; cbn [run verified isDeploying history];
     destruct (isDeploying s); cbn [run]; [reflexivity|];
     rewrite run_bind; unfold Legacy.deployProject; rewrite G; reflexivity).
Qed.

(** X19.  The earlier [verifySignature] (src/unnamed/part_000, 575-584)
    throws [RangeError] exactly when the presented token and the expected
    token differ in byte length, and returns [true] exactly on the expected
    token; the verifier of server.js returns what the earlier one returns,
    and [false] where the earlier one throws. *)
Theorem Legacy_verifySignature_throws_exactly_on_another_length
    (payload signature secret : string) :
  (Legacy.verifySignature payload signature secret
   = Thrown (RangeError "Input buffers must have the same byte length")
   <-> List.length (Buffer_from signature)
       <> List.length (Buffer_from (expected_token secret payload)))
  /\ (Legacy.verifySignature payload signature secret = Normal true
      <-> signature = expected_token secret payload)
  /\ verifySignature (VStr payload) (VStr signature) (VStr secret)
     = Normal match Legacy.verifySignature payload signature secret with
              | Normal b => b
              | Thrown _ => false
              end.
Proof.
  rewrite verifySignature_strings.
  unfold Legacy.verifySignature, timingSafeEqual. cbv zeta.
  fold (expected_token secret payload).
  remember (expected_token secret payload) as expected eqn:Eexp. clear Eexp.
  destruct (Nat.eqb (List.length (Buffer_from signature))
                    (List.length (Buffer_from expected))) eqn:L.
  - apply Nat.eqb_eq in L. split; [|split].
    + split; [discriminate | intro H; now elim H].
    + split.
      * intros [= H]. now apply Buffer_eqb_eq, Buffer_from_inj in H.
      * intros ->. f_equal. now apply Buffer_eqb_eq.
    + f_equal. destruct (String.eqb_spec signature expected) as [->|Hd].
      * symmetry. now apply Buffer_eqb_eq.
      * destruct (Buffer_eqb (Buffer_from signature) (Buffer_from expected)) eqn:B;
          [|reflexivity].
        apply Buffer_eqb_eq, Buffer_from_inj in B. contradiction.
  - apply Nat.eqb_neq in L. split; [|split].
    + split; [intros _; exact L | reflexivity].
    + split; [discriminate | intros ->; now elim L].
    + f_equal. destruct (String.eqb_spec signature expected) as [->|Hd];
        [now elim L | reflexivity].
Qed.

(** X20.  The endpoint of the earlier variant (src/unnamed/part_000,
    636-673) never starts a subprocess and never answers with a success,
    whatever the request, the configuration and the environment: its
    [deployProject] throws at [fs.existsSync] before the first command. *)
Theorem Legacy_handler_never_starts_a_command
    (W : World) (PROJECTS : Projects) (req : Request) (s : State) :
  commands (issued W (LegacyEndpoint.handler PROJECTS req) s) = []
  /\ forall result,
       fst (run W (LegacyEndpoint.handler PROJECTS req) s) <> Normal (response_deployed result).
Proof.
  unfold issued. rewrite run_LegacyEndpoint_handler. cbv zeta.
  assert (S0 : commands (skipn (List.length (history s)) (history s)) = [])
    by now rewrite skipn_length_self.
  assert (S1 : forall p g k,
             commands (skipn (List.length (history s)) (history (verified s p g k))) = [])
    by apply commands_verified.
  destruct (PROJECTS_get PROJECTS (params_projectName req)) as [project|k|];
    try (split; [exact S0 | discriminate]);
    (destruct (header_x_hub_signature_256 req) as [signature|];
       [|split; [exact S0 | discriminate]];
     destruct (String.eqb signature ""); [split; [exact S0 | discriminate]|];
     destruct (LegacyEndpoint.verifySignature _ _ _) as [[|]|e];
       try (split; [apply S1 | discriminate]);
     destruct (effective_branch _ _) as [b|e]; [|split; [apply S1 | discriminate]];
     destruct (strict_equal b _); cbn [negb snd fst];
       split; try apply S1; discriminate).
Qed.

(** X21.  Where server.js answers 401, the earlier endpoint sends no
    response at all when the signature header has another byte length than
    the expected token: [verifySignature] throws outside any [try], and the
    exception leaves the handler. *)
Theorem Legacy_handler_throws_on_a_token_of_another_length
    (W : World) (PROJECTS : Projects) (req : Request) (s : State)
    (project : Project) (signature payload : string) :
  lookup (params_projectName req) PROJECTS = Some project ->
  header_x_hub_signature_256 req = Some signature ->
  signature <> "" ->
  JSON_stringify (body req) = VStr payload ->
  List.length (Buffer_from signature)
    <> List.length (Buffer_from (expected_token (secret project) payload)) ->
  run W (LegacyEndpoint.handler PROJECTS req) s
  = (Thrown (RangeError "Input buffers must have the same byte length"),
     verified s (VStr payload) (VStr signature) (VStr (secret project)))
  /\ run W (handler PROJECTS req) s
     = (Normal response_invalid_signature,
        verified s (VStr payload) (VStr signature) (VStr (secret project))).
Proof.
  intros Hp Hh Hne Hj Hl. apply String.eqb_neq in Hne.
  rewrite run_LegacyEndpoint_handler, run_handler. cbv zeta.
  rewrite (PROJECTS_get_configured _ _ _ Hp), Hh, Hne, Hj.
  cbn [project_secret project_field header_value truthy].
  rewrite Hne. cbn [negb].
  rewrite verifySignature_strings.
  unfold LegacyEndpoint.verifySignature, createHmac_sha256_hex, timingSafeEqual.
  fold (expected_token (secret project) payload).
  destruct (Nat.eqb_spec (List.length (Buffer_from signature))
              (List.length (Buffer_from (expected_token (secret project) payload))))
    as [E|_]; [contradiction|].
  split; [reflexivity|].
  destruct (String.eqb_spec signature (expected_token (secret project) payload)) as [->|_];
    [now elim Hl | reflexivity].
Qed.

Lemma Legacy_handler_throws_on_a_token_of_another_length_witness :
  run world_ok (LegacyEndpoint.handler demo_projects
                  (MkRequest "demo" (Some "sha256=00") (VObj [("ref", VStr "refs/heads/main")])))
      idle
  = (Thrown (RangeError "Input buffers must have the same byte length"),
     verified idle (VStr push_main) (VStr "sha256=00") (VStr "s3cr3t"))
  /\ run world_ok (handler demo_projects
                     (MkRequest "demo" (Some "sha256=00") (VObj [("ref", VStr "refs/heads/main")])))
         idle
     = (Normal response_invalid_signature,
        verified idle (VStr push_main) (VStr "sha256=00") (VStr "s3cr3t")).
Proof.
  apply (Legacy_handler_throws_on_a_token_of_another_length world_ok demo_projects
           (MkRequest "demo" (Some "sha256=00") (VObj [("ref", VStr "refs/heads/main")]))
           idle demo "sha256=00" push_main).
  - reflexivity.
  - reflexivity.
  - discriminate.
  - vm_compute. reflexivity.
  - vm_compute. lia.
Defined.

Lemma Legacy_verifySignature_expected (payload secret : string) :
  LegacyEndpoint.verifySignature (VStr payload) (expected_token secret payload) (VStr secret)
  = Normal true.
Proof.
  unfold LegacyEndpoint.verifySignature, createHmac_sha256_hex, timingSafeEqual.
  fold (expected_token secret payload). rewrite Nat.eqb_refl.
  f_equal. now apply Buffer_eqb_eq.
Qed.

(** X22.  On the earlier endpoint an authenticated push of the configured
    branch is answered 500: with [fs.existsSync is not a function] when the
    lock is free, with [Another deployment is in progress] when it is held;
    either way the lock is free afterwards and only the verification has
    been recorded. *)
Theorem Legacy_handler_answers_500_to_an_authenticated_push
    (W : World) (PROJECTS : Projects) (req : Request) (s : State)
    (project : Project) (payload : string) :
  lookup (params_projectName req) PROJECTS = Some project ->
  JSON_stringify (body req) = VStr payload ->
  header_x_hub_signature_256 req = Some (expected_token (secret project) payload) ->
  effective_branch (body req) (VStr (branch project)) = Normal (VStr (branch project)) ->
  run W (LegacyEndpoint.handler PROJECTS req) s
  = (Normal (response_failed (if isDeploying s then "Another deployment is in progress"
                              else "fs.existsSync is not a function")),
     MkState false
       (history s ++ [EvVerify (VStr payload)
                        (VStr (expected_token (secret project) payload))
                        (VStr (secret project))])).
Proof.
  intros Hp Hj Hh Hb.
  rewrite run_LegacyEndpoint_handler. cbv zeta.
  rewrite (PROJECTS_get_configured _ _ _ Hp), Hh, Hj.
  cbn [project_secret project_branch project_field].
  destruct (hex_nonempty_prefix (secret project) payload) as [rest E].
  assert (Hne : String.eqb (expected_token (secret project) payload) "" = false)
    by (rewrite E; reflexivity).
  rewrite Hne.
  rewrite Legacy_verifySignature_expected, Hb.
  rewrite (proj2 (strict_equal_string (VStr (branch project)) (branch project)) eq_refl).
  reflexivity.
Qed.

Lemma Legacy_handler_answers_500_to_an_authenticated_push_witness :
  run world_ok (LegacyEndpoint.handler demo_projects push_main_request) idle
  = (Normal (response_failed "fs.existsSync is not a function"),
     MkState false
       [EvVerify (VStr push_main) (VStr (expected_token "s3cr3t" push_main)) (VStr "s3cr3t")]).
Proof.
  apply (Legacy_handler_answers_500_to_an_authenticated_push world_ok demo_projects
           push_main_request idle demo push_main); reflexivity.
Defined.

(** ** Instances of the lemmas on the handler and the loop *)

(** The name [nope] on the sample configuration, and the name [dir] on a
    configuration whose key [__proto__] has replaced the prototype. *)
Lemma handler_unknown_project_404_witness :
  run world_ok (handler demo_projects (MkRequest "nope" (Some "sha256=00") VNull)) idle
  = (Normal response_not_found, idle)
  /\ run world_ok (handler projects_with_prototype (MkRequest "dir" (Some "sha256=00") VNull))
         idle
     = (Normal response_invalid_signature,
        verified idle (JSON_stringify VNull) (VStr "sha256=00") VUndefined).
Proof.
  split.
  - destruct (handler_unknown_project_404 world_ok demo_projects
                (MkRequest "nope" (Some "sha256=00") VNull) idle eq_refl eq_refl) as [H _].
    exact (H (or_introl eq_refl)).
  - destruct (handler_unknown_project_404 world_ok projects_with_prototype
                (MkRequest "dir" (Some "sha256=00") VNull) idle eq_refl eq_refl) as [_ H].
    apply (H "/var/www/x" "s"%char "ha256=00"); [reflexivity | discriminate | reflexivity].
Defined.

(** The body [{"ref":1}] with its token. *)
Lemma handler_throws_on_non_string_ref_witness :
  run world_ok (handler demo_projects numeric_ref_request) idle
  = (Thrown (TypeError "req.body.ref.replace is not a function"),
     verified idle (JSON_stringify (body numeric_ref_request))
       (VStr (expected_token "s3cr3t" (dq "{'ref':1}"))) (VStr (secret demo))).
Proof.
  assert (Hv : verifySignature (JSON_stringify (body numeric_ref_request))
                 (VStr (expected_token "s3cr3t" (dq "{'ref':1}"))) (VStr (secret demo))
               = Normal true)
    by (vm_compute; reflexivity).
  exact (handler_throws_on_non_string_ref world_ok demo_projects numeric_ref_request idle
           demo (expected_token "s3cr3t" (dq "{'ref':1}")) (VNum 1)
           eq_refl eq_refl Hv eq_refl eq_refl eq_refl).
Defined.

(** A push of [main] arriving while the lock is held. *)
Lemma handler_rejection_clears_the_lock_witness :
  run world_ok (handler demo_projects push_main_request) (MkState true [])
  = (Normal (response_failed "Another deployment is in progress"),
     MkState false
       (history (MkState true [])
        ++ [EvVerify (JSON_stringify (body push_main_request))
              (VStr (expected_token "s3cr3t" push_main)) (VStr (secret demo))])).
Proof.
  assert (Hv : verifySignature (JSON_stringify (body push_main_request))
                 (VStr (expected_token "s3cr3t" push_main)) (VStr (secret demo))
               = Normal true)
    by (vm_compute; reflexivity).
  exact (handler_rejection_clears_the_lock world_ok demo_projects push_main_request
           (MkState true []) demo (expected_token "s3cr3t" push_main)
           eq_refl eq_refl Hv eq_refl eq_refl).
Defined.

(** A push whose fetch fails: the step that completes the recovery restart
    completes the task with the 500 response, and the lock is free. *)
Lemma loop_lock_free_on_completion_witness :
  match loop_run world_ok demo_projects fresh_loop
          [Arrive push_main_request; ExecDone 0 (Closed (Some 1) "" "boom")] with
  | Some l =>
      match loop_step world_ok demo_projects l (ExecDone 0 (Closed (Some 0) "done" "")) with
      | Some l' => isDeploying (process l') = false
      | None => True
      end
  | None => True
  end.
Proof.
  assert (A : match loop_run world_ok demo_projects fresh_loop
                      [Arrive push_main_request; ExecDone 0 (Closed (Some 1) "" "boom")] with
              | Some l =>
                  match loop_step world_ok demo_projects l
                          (ExecDone 0 (Closed (Some 0) "done" "")) with
                  | Some l' => nth_error (tasks l') 0
                  | None => None
                  end
              | None => None
              end
              = Some (Ret (response_failed "Command failed with code 1: boom")))
    by (vm_compute; reflexivity).
  destruct (loop_run world_ok demo_projects fresh_loop
              [Arrive push_main_request; ExecDone 0 (Closed (Some 1) "" "boom")])
    as [l|] eqn:E; [|exact I].
  destruct (loop_step world_ok demo_projects l (ExecDone 0 (Closed (Some 0) "done" "")))
    as [l'|] eqn:E'; [|exact I].
  exact (loop_lock_free_on_completion world_ok demo_projects
           [Arrive push_main_request; ExecDone 0 (Closed (Some 1) "" "boom")]
           (ExecDone 0 (Closed (Some 0) "done" "")) l l'
           (response_failed "Command failed with code 1: boom") E E' A eq_refl).
Defined.
